(** * despicable-me: embedding client, vector-store gateway, ingest and search flows

    A shallow embedding of the Python sources under [ingest/]:
    - [ingest_s3vectors.py]   (Lambda ingest handler),
    - [search_s3vectors.py]   (Lambda search handler),
    - [ingest_from_file.py]   (batch ingestion script),
    - [scripts/search_despicable_me.py], [scripts/test_despicable_me_docs.py].

    Decoded JSON and Python objects are values of [pyval]; a dict is a
    [gmap string pyval]; Python floats are binary64 primitive floats.  The
    remote services (SageMaker runtime, S3 Vectors), [uuid.uuid4],
    [datetime.utcnow], [json.loads] and [int] on strings are oracles held in
    an [env]; each remote call consumes the next answer of its oracle.  The
    mutable part of a run (call counters, the [time.sleep] log, the requests
    sent to the store, the printed lines) is a [state] threaded through a
    state-and-exception monad [M]. *)

From Stdlib Require Import ZArith Lia PrimFloat FloatOps SpecFloat.
From stdpp Require Import base option list strings pretty gmap.

Set Warnings "-register-all".

(** ** Python values *)

Inductive pyval : Type :=
| PNone
| PBool (b : bool)
| PInt (z : Z)
| PFloat (f : float)
| PStr (s : string)
| PList (l : list pyval)
| PDict (d : gmap string pyval).

(** [isinstance(v, list)] *)
Definition isinstance_list (v : pyval) : bool :=
  match v with PList _ => true | _ => false end.

(** [len(v)] for the values it is applied to under an [isinstance] guard.  A
    [PStr] holds the characters of the str, one [ascii] each, so that its
    [String.length] is the number of characters. *)
Definition py_len (v : pyval) : nat :=
  match v with
  | PList l => length l
  | PStr s => String.length s
  | PDict d => size d
  | _ => 0
  end.

(** [v[0]], read only under the guard [isinstance(v, list) and len(v) > 0]. *)
Definition item0 (v : pyval) : pyval :=
  match v with
  | PList (x :: _) => x
  | _ => PNone
  end.

(** [bool(v)], the test behind [not v] and [v or w]. *)
Definition truthy (v : pyval) : bool :=
  match v with
  | PNone => false
  | PBool b => b
  | PInt z => negb (z =? 0)%Z
  | PFloat f => negb (PrimFloat.eqb f 0%float)
  | PStr s => negb (String.eqb s "")
  | PList l => negb (Nat.eqb (length l) 0)
  | PDict d => negb (Nat.eqb (size d) 0)
  end.

(** A scalar is anything that is not a list. *)
Definition is_scalar (v : pyval) : Prop := isinstance_list v = false.

(** ** Exceptions and the state-and-exception monad *)

Inductive exn : Type :=
| ClientError (code : option string) (msg : string)
| RuntimeError (msg : string)
| TypeError (msg : string)
| AttributeError (msg : string)
| OtherException (msg : string).

(** [str(e)] *)
Definition str_exn (e : exn) : string :=
  match e with
  | ClientError _ msg | RuntimeError msg | TypeError msg
  | AttributeError msg | OtherException msg => msg
  end.

Inductive res (A : Type) : Type :=
| Ok (a : A)
| Raise (e : exn).
Arguments Ok {A} a.
Arguments Raise {A} e.

(** A record sent to [put_vectors]: key, vector, metadata. *)
Record vector_record : Type := {
  rec_key : string;
  rec_data : pyval;
  rec_metadata : gmap string pyval
}.

(** A record returned by [query_vectors]; [q_distance] and [q_metadata] are
    read with [.get], so they may be absent. *)
Record query_result : Type := {
  q_key : string;
  q_distance : option float;
  q_metadata : option (gmap string pyval)
}.

(** The lines [ingest_docs] prints, in the order of its [print] calls: the
    opening line (without the path, which is not part of the model), the
    line that announces a document, the three result lines and the summary.
    The diagnostics that [get_embedding] and [put_vector] of the batch script
    print on a failed attempt (lines 59, 66 and 85) are not recorded.  In
    [LGetting], [len] is [len(text or '')], one for each character of the
    [string] that stands for the text. *)
Inductive line : Type :=
| LIngesting (n : nat)
| LGetting (i n len : nat)
| LInvalid
| LIngested (vector_id : string)
| LFailed (msg : string)
| LFinished (successes failures : nat).

(** The world outside the code.  The configuration globals are those bound at
    module load; every oracle is indexed by the number of calls made so far. *)
Record env : Type := {
  VECTOR_BUCKET : string;
  SAGEMAKER_ENDPOINT : string;
  INDEX_NAME : string;
  json_loads : string -> res pyval;
  int_of_str : string -> option Z;
  invoke_endpoint : nat -> res pyval;
  put_vectors : nat -> res unit;
  query_vectors : nat -> res (list query_result);
  uuid4 : nat -> string;
  utcnow : nat -> string
}.

Record state : Type := {
  sm_calls : nat;
  s3_calls : nat;
  q_calls : nat;
  ids : nat;
  ticks : nat;
  slept : list Z;
  puts : list vector_record;
  queries : list (pyval * Z);
  printed : list line
}.

Definition init_state : state :=
  {| sm_calls := 0; s3_calls := 0; q_calls := 0; ids := 0; ticks := 0;
     slept := []; puts := []; queries := []; printed := [] |}.

Definition M (A : Type) : Type := state -> res A * state.

Definition ret {A} (a : A) : M A := fun st => (Ok a, st).
Definition raise {A} (e : exn) : M A := fun st => (Raise e, st).
Definition bind {A B} (c : M A) (k : A -> M B) : M B :=
  fun st => match c st with
            | (Ok a, st') => k a st'
            | (Raise e, st') => (Raise e, st')
            end.
(** [try: c  except Exception as e: h e]; the effects of [c] up to the
    raise are kept. *)
Definition try_except {A} (c : M A) (h : exn -> M A) : M A :=
  fun st => match c st with
            | (Ok a, st') => (Ok a, st')
            | (Raise e, st') => h e st'
            end.

Declare Scope py_scope.
Delimit Scope py_scope with py.
Notation "x <- c ;; k" := (bind c (fun x => k))
  (at level 100, c at next level, right associativity) : py_scope.
Notation "c ;;; k" := (bind c (fun _ => k))
  (at level 100, right associativity) : py_scope.
Local Open Scope py_scope.

(** *** Primitive effects *)

(** [sagemaker_runtime.invoke_endpoint(...)] followed by
    [json.loads(response['Body'].read().decode())]. *)
Definition call_invoke_endpoint (E : env) : M pyval :=
  fun st =>
    (invoke_endpoint E (sm_calls st),
     {| sm_calls := S (sm_calls st); s3_calls := s3_calls st; q_calls := q_calls st;
        ids := ids st; ticks := ticks st; slept := slept st; puts := puts st;
        queries := queries st; printed := printed st |}).

(** [s3_vectors.put_vectors(..., vectors=[r])] *)
Definition call_put_vectors (E : env) (r : vector_record) : M unit :=
  fun st =>
    (put_vectors E (s3_calls st),
     {| sm_calls := sm_calls st; s3_calls := S (s3_calls st); q_calls := q_calls st;
        ids := ids st; ticks := ticks st; slept := slept st; puts := puts st ++ [r];
        queries := queries st; printed := printed st |}).

(** [s3_vectors.query_vectors(..., queryVector={"float32": v}, topK=k, ...)] *)
Definition call_query_vectors (E : env) (v : pyval) (k : Z) : M (list query_result) :=
  fun st =>
    (query_vectors E (q_calls st),
     {| sm_calls := sm_calls st; s3_calls := s3_calls st; q_calls := S (q_calls st);
        ids := ids st; ticks := ticks st; slept := slept st; puts := puts st;
        queries := queries st ++ [(v, k)]; printed := printed st |}).

(** [time.sleep(d)] *)
Definition sleep (d : Z) : M unit :=
  fun st =>
    (Ok tt,
     {| sm_calls := sm_calls st; s3_calls := s3_calls st; q_calls := q_calls st;
        ids := ids st; ticks := ticks st; slept := slept st ++ [d]; puts := puts st;
        queries := queries st; printed := printed st |}).

(** [str(uuid.uuid4())] *)
Definition new_uuid (E : env) : M string :=
  fun st =>
    (Ok (uuid4 E (ids st)),
     {| sm_calls := sm_calls st; s3_calls := s3_calls st; q_calls := q_calls st;
        ids := S (ids st); ticks := ticks st; slept := slept st; puts := puts st;
        queries := queries st; printed := printed st |}).

(** [datetime.datetime.utcnow().isoformat()] *)
Definition now_iso (E : env) : M string :=
  fun st =>
    (Ok (utcnow E (ticks st)),
     {| sm_calls := sm_calls st; s3_calls := s3_calls st; q_calls := q_calls st;
        ids := ids st; ticks := S (ticks st); slept := slept st; puts := puts st;
        queries := queries st; printed := printed st |}).

(** [print(l)] *)
Definition print (l : line) : M unit :=
  fun st =>
    (Ok tt,
     {| sm_calls := sm_calls st; s3_calls := s3_calls st; q_calls := q_calls st;
        ids := ids st; ticks := ticks st; slept := slept st; puts := puts st;
        queries := queries st; printed := printed st ++ [l] |}).

(** ** Embedding client *)

(** Response normalisation of the two Lambda modules
    ([ingest_s3vectors.get_embedding] and [search_s3vectors.get_embedding],
    textually the same): [embedding] starts as [None]; the [else] that
    returns the response as it is belongs to the OUTER test. *)
Definition normalize_lambda (result : pyval) : pyval :=
  let embedding := PNone in
  if isinstance_list result && (0 <? py_len result) then
    if isinstance_list (item0 result) && (0 <? py_len (item0 result)) then
      if isinstance_list (item0 (item0 result))
      then item0 (item0 result)
      else item0 result
    else embedding
  else result.

(** Response normalisation of [ingest_from_file.get_embedding] and of the two
    scripts: both nested tests fall through to [return result]. *)
Definition normalize_file (result : pyval) : pyval :=
  if isinstance_list result && (0 <? py_len result) then
    if isinstance_list (item0 result) && (0 <? py_len (item0 result)) then
      if isinstance_list (item0 (item0 result))
      then item0 (item0 result)
      else item0 result
    else result
  else result.

(** The retry loop shared by the three [get_embedding] functions:
    [for attempt in range(attempts)], with [range] the attempts still to
    run.  A [ClientError] is retried after [time.sleep(delay)] with the delay
    doubled unless this is the last attempt; any other exception is re-raised
    at once.  A loop that runs out returns [None]. *)
Fixpoint embedding_loop (E : env) (normalize : pyval -> pyval)
    (attempts : nat) (range : list nat) (delay : Z) : M pyval :=
  match range with
  | [] => ret PNone
  | attempt :: rest =>
      try_except
        (result <- call_invoke_endpoint E ;;
         ret (normalize result))
        (fun e =>
           match e with
           | ClientError _ _ =>
               if (Z.of_nat attempt <? Z.of_nat attempts - 1)%Z
               then sleep delay ;;; embedding_loop E normalize attempts rest (delay * 2)%Z
               else raise e
           | _ => raise e
           end)
  end.

Module IngestLambda.
(** [ingest_s3vectors.get_embedding]: [attempts = 3], [delay = 1]. *)
Definition get_embedding (E : env) (text : pyval) : M pyval :=
  let attempts := 3 in
  let delay := 1%Z in
  embedding_loop E normalize_lambda attempts (seq 0 attempts) delay.
End IngestLambda.

Module SearchLambda.
(** [search_s3vectors.get_embedding]: [attempts = 3], [delay = 1]. *)
Definition get_embedding (E : env) (text : pyval) : M pyval :=
  let attempts := 3 in
  let delay := 1%Z in
  embedding_loop E normalize_lambda attempts (seq 0 attempts) delay.
End SearchLambda.


(** ** Python helpers used by the handlers *)

(** [v.get(key, default)]; anything but a dict has no [get]. *)
Definition py_get (v : pyval) (key : string) (dflt : pyval) : M pyval :=
  match v with
  | PDict d => ret (default dflt (d !! key))
  | _ => raise (AttributeError "object has no attribute 'get'")
  end.

(** [v[:n]], evaluated inside a [print]. *)
Definition py_slice_prefix (v : pyval) (n : nat) : M pyval :=
  match v with
  | PStr s => ret (PStr (String.substring 0 n s))
  | PList l => ret (PList (take n l))
  | _ => raise (TypeError "object is not subscriptable")
  end.

(** [len(v)] with its [TypeError]. *)
Definition py_len_checked (v : pyval) : M nat :=
  match v with
  | PStr _ | PList _ | PDict _ => ret (py_len v)
  | _ => raise (TypeError "object has no len()")
  end.

(** [**v] inside a dict display. *)
Definition unpack_mapping (v : pyval) : M (gmap string pyval) :=
  match v with
  | PDict d => ret d
  | _ => raise (TypeError "object is not a mapping")
  end.

(** [{**base, **extra}]: the keys of [extra], written last, win. *)
Definition dict_update (base extra : gmap string pyval) : gmap string pyval :=
  extra ∪ base.

(** [not isinstance(embedding, list) or len(embedding) == 0] *)
Definition invalid_embedding (embedding : pyval) : bool :=
  negb (isinstance_list embedding) || Nat.eqb (py_len embedding) 0.

(** [int(f)] on a float: truncation toward zero; [nan] and the infinities
    raise. *)
Definition float_to_int (f : float) : option Z :=
  match Prim2SF f with
  | S754_zero _ => Some 0%Z
  | S754_infinity _ => None
  | S754_nan => None
  | S754_finite s m e =>
      let v := (if (0 <=? e)%Z then Z.pos m * 2 ^ e else Z.pos m / 2 ^ (- e))%Z in
      Some (if s then (- v)%Z else v)
  end.

(** [int(v)]; [None] stands for the exception it raises. *)
Definition py_int (E : env) (v : pyval) : option Z :=
  match v with
  | PInt z => Some z
  | PBool b => Some (if b then 1 else 0)%Z
  | PFloat f => float_to_int f
  | PStr s => int_of_str E s
  | PNone | PList _ | PDict _ => None
  end.

(** [code == 'NotFoundException'] *)
Definition is_not_found (code : option string) : bool :=
  bool_decide (code = Some "NotFoundException").

(** [code in ('AccessDeniedException', 'AccessDenied')] *)
Definition is_access_denied (code : option string) : bool :=
  bool_decide (code = Some "AccessDeniedException")
  || bool_decide (code = Some "AccessDenied").

(** A handler's return value; [body] is the dict given to [json.dumps]. *)
Record response : Type := {
  statusCode : Z;
  body : gmap string pyval
}.

Definition error_response (status : Z) (msg : string) : response :=
  {| statusCode := status; body := {[ "error" := PStr msg ]} |}.

(** [f"Index '{INDEX_NAME}' not found in bucket '{VECTOR_BUCKET}'"] *)
Definition index_not_found_msg (E : env) : string :=
  "Index '" +:+ INDEX_NAME E +:+ "' not found in bucket '" +:+ VECTOR_BUCKET E +:+ "'".

Definition access_denied_msg : string :=
  "Access denied. Ensure IAM role has s3vectors:* permissions".

(** The request body of both Lambda handlers:
    [json.loads(event['body'])] when it is a string, else
    [event.get('body', {})]. *)
Definition decoded_body (E : env) (event : gmap string pyval) : res pyval :=
  match event !! "body" with
  | Some (PStr s) => json_loads E s
  | Some v => Ok v
  | None => Ok (PDict ∅)
  end.

Definition parse_body (E : env) (event : gmap string pyval) : M pyval :=
  fun st => (decoded_body E event, st).

(** ** Module load of the two Lambda modules *)

Record config : Type := {
  cfg_vector_bucket : string;
  cfg_sagemaker_endpoint : string;
  cfg_index_name : string
}.


(** ** Lambda ingest handler ([ingest_s3vectors.lambda_handler]) *)

(** How the [for] loop over the store attempts is left. *)
Inductive loop_exit : Type :=
| Break
| Return (r : response).

Module IngestHandler.
Import IngestLambda.

(** The metadata of the stored record:
    [{"text": text, "timestamp": ts, **metadata}]. *)
Definition record_metadata (text : pyval) (ts : string) (metadata : gmap string pyval)
  : gmap string pyval :=
  dict_update (<["timestamp" := PStr ts]> (<["text" := text]> ∅)) metadata.

(** Lines 117-150: the store attempts. *)
Fixpoint put_loop (E : env) (vector_id : string) (embedding text metadata : pyval)
    (attempts : nat) (range : list nat) (delay : Z) : M loop_exit :=
  match range with
  | [] => ret Break
  | attempt :: rest =>
      try_except
        (ts <- now_iso E ;;
         md <- unpack_mapping metadata ;;
         call_put_vectors E {| rec_key := vector_id; rec_data := embedding;
                               rec_metadata := record_metadata text ts md |} ;;;
         ret Break)
        (fun e =>
           match e with
           | ClientError code _ =>
               if is_not_found code
               then ret (Return (error_response 404 (index_not_found_msg E)))
               else if is_access_denied code
               then ret (Return (error_response 403 access_denied_msg))
               else if (Z.of_nat attempt <? Z.of_nat attempts - 1)%Z
               then sleep delay ;;;
                    put_loop E vector_id embedding text metadata attempts rest (delay * 2)%Z
               else raise e
           | _ => raise e
           end)
  end.

(** Lines 83-158: the body of the outer [try]. *)
Definition handler_try (E : env) (event : gmap string pyval) : M response :=
  body <- parse_body E event ;;
  text <- py_get body "text" PNone ;;
  metadata <- py_get body "metadata" (PDict ∅) ;;
  if negb (truthy text)
  then ret (error_response 400 "Missing required field: text")
  else
    py_slice_prefix text 100 ;;;
    embedding <- get_embedding E text ;;
    if invalid_embedding embedding
    then ret (error_response 500 "Invalid embedding returned from SageMaker")
    else
      vector_id <- new_uuid E ;;
      let attempts := 3 in
      let delay := 1%Z in
      exit <- put_loop E vector_id embedding text metadata attempts (seq 0 attempts) delay ;;
      match exit with
      | Return r => ret r
      | Break =>
          ret {| statusCode := 200;
                 body := {[ "message" := PStr "Document indexed successfully";
                            "document_id" := PStr vector_id ]} |}
      end.

(** [lambda_handler(event, context)]: whatever the body raises becomes a
    500 carrying [str(e)]. *)
Definition lambda_handler (E : env) (event : gmap string pyval) : M response :=
  try_except (handler_try E event)
    (fun e => ret (error_response 500 (str_exn e))).
End IngestHandler.

(** ** Lambda search handler ([search_s3vectors.lambda_handler]) *)

Module SearchHandler.
Import SearchLambda.

(** Lines 97-105. *)
Definition validate_k (E : env) (k : pyval) : Z :=
  let k := match py_int E k with Some z => z | None => 5%Z end in
  let k := if (k <=? 0)%Z then 5%Z else k in
  let k := if (50 <? k)%Z then 50%Z else k in
  k.

(** One entry of [results] (lines 143-148); the default of
    [vector.get('distance', 0)] is the integer 0. *)
Definition format_result (vector : query_result) : gmap string pyval :=
  {[ "id" := PStr (q_key vector);
     "score" := match q_distance vector with Some d => PFloat d | None => PInt 0 end;
     "text" := default (PStr "") (default ∅ (q_metadata vector) !! "text");
     "metadata" := PDict (default ∅ (q_metadata vector)) ]}.

Definition format_results (vectors : list query_result) : list (gmap string pyval) :=
  map format_result vectors.

(** [lambda_handler(event, context)]; there is no outer [try] here. *)
Definition lambda_handler (E : env) (event : gmap string pyval) : M response :=
  body <- parse_body E event ;;
  query_text <- py_get body "query" PNone ;;
  k <- py_get body "k" (PInt 5) ;;
  if negb (truthy query_text)
  then ret (error_response 400 "Missing required field: query")
  else
    query_embedding <- get_embedding E query_text ;;
    let k := validate_k E k in
    if invalid_embedding query_embedding
    then ret (error_response 500 "Invalid embedding returned from SageMaker")
    else
      r <- try_except
             (vectors <- call_query_vectors E query_embedding k ;;
              ret (inl vectors))
             (fun e =>
                match e with
                | ClientError code _ =>
                    if is_not_found code
                    then ret (inr (error_response 404 (index_not_found_msg E)))
                    else if is_access_denied code
                    then ret (inr (error_response 403 access_denied_msg))
                    else raise e
                | _ => raise e
                end) ;;
      match r with
      | inr resp => ret resp
      | inl vectors =>
          let results := format_results vectors in
          ret {| statusCode := 200;
                 body := {[ "results" := PList (map PDict results);
                            "count" := PInt (Z.of_nat (length results)) ]} |}
      end.
End SearchHandler.

(** ** Batch ingestion script ([ingest_from_file.py]) *)

Module IngestFromFile.
(** [get_embedding(text, attempts=3, delay=1)] *)
Definition get_embedding_with (E : env) (text : pyval) (attempts : nat) (delay : Z)
  : M pyval :=
  embedding_loop E normalize_file attempts (seq 0 attempts) delay.

Definition get_embedding (E : env) (text : pyval) : M pyval :=
  get_embedding_with E text 3 1%Z.

(** The loop of [put_vector]: only [NotFoundException] is singled out;
    every other [ClientError] is retried.  Exceptions that are not a
    [ClientError] are not caught. *)
Fixpoint put_vector_loop (E : env) (vector_id : string) (embedding : pyval)
    (metadata : gmap string pyval) (attempts : nat) (range : list nat) (delay : Z)
  : M unit :=
  match range with
  | [] => ret tt
  | attempt :: rest =>
      try_except
        (call_put_vectors E {| rec_key := vector_id; rec_data := embedding;
                               rec_metadata := metadata |})
        (fun e =>
           match e with
           | ClientError code _ =>
               if is_not_found code
               then raise (RuntimeError (index_not_found_msg E))
               else if (Z.of_nat attempt <? Z.of_nat attempts - 1)%Z
               then sleep delay ;;;
                    put_vector_loop E vector_id embedding metadata attempts rest (delay * 2)%Z
               else raise e
           | _ => raise e
           end)
  end.

(** [put_vector(vector_id, embedding, metadata, attempts=3, delay=1)] *)
Definition put_vector_with (E : env) (vector_id : string) (embedding : pyval)
    (metadata : gmap string pyval) (attempts : nat) (delay : Z) : M unit :=
  put_vector_loop E vector_id embedding metadata attempts (seq 0 attempts) delay.

Definition put_vector (E : env) (vector_id : string) (embedding : pyval)
    (metadata : gmap string pyval) : M unit :=
  put_vector_with E vector_id embedding metadata 3 1%Z.

(** The [try] block of one iteration of [ingest_docs] (lines 108-119),
    giving the counters after it. *)
Definition ingest_try (E : env) (text metadata : pyval) (successes failures : nat)
  : M (nat * nat) :=
  embedding <- get_embedding E text ;;
  if invalid_embedding embedding
  then print LInvalid ;;; ret (successes, failures + 1)
  else
    vector_id <- new_uuid E ;;
    md <- unpack_mapping metadata ;;
    ts <- now_iso E ;;
    let metadata := <["timestamp" := PStr ts]> md in
    put_vector E vector_id embedding metadata ;;;
    print (LIngested vector_id) ;;;
    ret (successes + 1, failures).

(** The [for i, doc in enumerate(docs, 1)] loop; [n] is [len(docs)].  The
    two [doc.get] calls and the first [print] stand before the [try]. *)
Fixpoint ingest_loop (E : env) (n i : nat) (docs : list pyval) (successes failures : nat)
  : M (nat * nat) :=
  match docs with
  | [] => ret (successes, failures)
  | doc :: rest =>
      text <- py_get doc "text" PNone ;;
      metadata <- py_get doc "metadata" (PDict ∅) ;;
      len <- py_len_checked (if truthy text then text else PStr "") ;;
      print (LGetting i n len) ;;;
      c <- try_except
             (ingest_try E text metadata successes failures)
             (fun e =>
                print (LFailed (str_exn e)) ;;;
                ret (successes, failures + 1)) ;;
      ingest_loop E n (S i) rest (fst c) (snd c)
  end.

(** [ingest_docs], from the decoded list of documents on; the counters it
    prints in its last line are also returned. *)
Definition ingest_docs (E : env) (docs : list pyval) : M (nat * nat) :=
  print (LIngesting (length docs)) ;;;
  let successes := 0 in
  let failures := 0 in
  c <- ingest_loop E (length docs) 1 docs successes failures ;;
  print (LFinished (fst c) (snd c)) ;;;
  ret c.
End IngestFromFile.

(** ** Scripts *)

Module Scripts.
(** [get_embedding] of [scripts/search_despicable_me.py] and
    [scripts/test_despicable_me_docs.py]: one call, no retry. *)
Definition get_embedding (E : env) (text : pyval) : M pyval :=
  result <- call_invoke_endpoint E ;;
  ret (normalize_file result).

(** [search_vectors], lines 70-72: [similarity = 1 - distance] with
    [distance = vector.get('distance', 0)]. *)
Definition similarity (vector : query_result) : pyval :=
  match q_distance vector with
  | Some distance => PFloat (1 - distance)%float
  | None => PInt (1 - 0)%Z
  end.

(** [search_vectors(query_text, k)]: the similarities it computes, in the
    store's order; an exception of the embedding call or of the query is
    caught and reported, and nothing is computed. *)
Definition search_vectors (E : env) (query_text : pyval) (k : Z) : M (list pyval) :=
  try_except
    (query_embedding <- get_embedding E query_text ;;
     vectors <- call_query_vectors E query_embedding k ;;
     ret (map similarity vectors))
    (fun e => ret []).

(** [ingest_document(text, metadata)] of [test_despicable_me_docs.py]. *)
Definition ingest_document (E : env) (text metadata : pyval) : M string :=
  py_get metadata "title" (PStr "Unknown") ;;;
  embedding <- get_embedding E text ;;
  vector_id <- new_uuid E ;;
  ts <- now_iso E ;;
  md <- unpack_mapping (if truthy metadata then metadata else PDict ∅) ;;
  call_put_vectors E {| rec_key := vector_id; rec_data := embedding;
                        rec_metadata := IngestHandler.record_metadata text ts md |} ;;;
  ret vector_id.
End Scripts.

(** ** Concrete worlds used to run the definitions *)

Module Fixtures.
(** Unsigned ASCII decimal numerals, enough of [int(str)] to run examples. *)
Fixpoint digits_value (s : string) (acc : Z) : option Z :=
  match s with
  | EmptyString => Some acc
  | String c rest =>
      let n := Ascii.nat_of_ascii c in
      if (48 <=? n) && (n <=? 57)
      then digits_value rest (acc * 10 + Z.of_nat (n - 48))%Z
      else None
  end.

Definition decimal_of_str (s : string) : option Z :=
  match s with
  | EmptyString => None
  | _ => digits_value s 0%Z
  end.

Definition throttled : exn := ClientError (Some "ThrottlingException") "Rate exceeded".
Definition denied : exn := ClientError (Some "AccessDeniedException") "not authorized".
Definition missing : exn := ClientError (Some "NotFoundException") "no such index".

(** A world given by the answers of the three services. *)
Definition world (sm : nat -> res pyval) (s3 : nat -> res unit)
    (q : nat -> res (list query_result)) : env :=
  {| VECTOR_BUCKET := "bucket"; SAGEMAKER_ENDPOINT := "endpoint"; INDEX_NAME := "index";
     json_loads := fun _ => Raise (OtherException "Expecting value");
     int_of_str := decimal_of_str;
     invoke_endpoint := sm; put_vectors := s3; query_vectors := q;
     uuid4 := fun n => "id-" +:+ pretty n;
     utcnow := fun n => "t" +:+ pretty n |}.

Definition vec : pyval := PList [PFloat 0.5; PFloat 0.25].

(** The endpoint answers [[[0.5, 0.25]]] at every call. *)
Definition sm_nested : nat -> res pyval := fun _ => Ok (PList [PList [vec]]).
Definition s3_ok : nat -> res unit := fun _ => Ok tt.
Definition q_none : nat -> res (list query_result) := fun _ => Ok [].

Definition event_of (fields : gmap string pyval) : gmap string pyval :=
  {[ "body" := PDict fields ]}.
End Fixtures.


(** ** Vocabulary of the statements *)

(** The answer of a remote call is a [ClientError]. *)
Definition is_client_error {A} (o : res A) : bool :=
  match o with
  | Raise (ClientError _ _) => true
  | _ => false
  end.

(** A [ClientError] of the store that no handler singles out. *)
Definition is_transient_store_error {A} (o : res A) : bool :=
  match o with
  | Raise (ClientError code _) => negb (is_not_found code) && negb (is_access_denied code)
  | _ => false
  end.

(** The delays [base, base*2, base*4, ...] slept before [n] retries. *)
Definition backoff (base : Z) (n : nat) : list Z :=
  map (fun i => (base * 2 ^ Z.of_nat i)%Z) (seq 0 n).

(** [st] after [calls] more endpoint calls and the sleeps [ds]. *)
Definition after_embedding (st : state) (calls : nat) (ds : list Z) : state :=
  {| sm_calls := calls + sm_calls st; s3_calls := s3_calls st; q_calls := q_calls st;
     ids := ids st; ticks := ticks st; slept := slept st ++ ds; puts := puts st;
     queries := queries st; printed := printed st |}.

(** The endpoint, called from [st] on, fails with a [ClientError] [n] times. *)
Definition endpoint_fails (E : env) (st : state) (n : nat) : Prop :=
  forall i, i < n -> is_client_error (invoke_endpoint E (sm_calls st + i)) = true.

(** The store, called from [st] on, fails [n] times with a [ClientError] that
    is neither not-found nor access-denied. *)
Definition store_fails (E : env) (st : state) (n : nat) : Prop :=
  forall i, i < n -> is_transient_store_error (put_vectors E (s3_calls st + i)) = true.

(** [v[:100]] is defined. *)
Definition sliceable (v : pyval) : bool :=
  match v with
  | PStr _ | PList _ => true
  | _ => false
  end.

(** The records sent by the Lambda ingest handler in [n] successive attempts,
    the first at clock reading [t]: the timestamp is taken anew each time. *)
Definition attempted_records (E : env) (vector_id : string) (embedding text : pyval)
    (md : gmap string pyval) (t n : nat) : list vector_record :=
  map (fun i => {| rec_key := vector_id; rec_data := embedding;
                   rec_metadata :=
                     IngestHandler.record_metadata text (utcnow E (i + t)) md |})
      (seq 0 n).

(** [st] after [calls] more store calls sending [rs], [tks] clock readings
    and the sleeps [ds]. *)
Definition after_store (st : state) (calls tks : nat) (ds : list Z)
    (rs : list vector_record) : state :=
  {| sm_calls := sm_calls st; s3_calls := calls + s3_calls st; q_calls := q_calls st;
     ids := ids st; ticks := tks + ticks st; slept := slept st ++ ds;
     puts := puts st ++ rs; queries := queries st; printed := printed st |}.

(** [st] after one identifier was drawn. *)
Definition after_uuid (st : state) : state :=
  {| sm_calls := sm_calls st; s3_calls := s3_calls st; q_calls := q_calls st;
     ids := S (ids st); ticks := ticks st; slept := slept st; puts := puts st;
     queries := queries st; printed := printed st |}.

(** What the Lambda ingest handler makes of a store answer that ends its
    loop. *)
Definition store_verdict (E : env) (o : res unit) : res loop_exit :=
  match o with
  | Ok _ => Ok Break
  | Raise (ClientError code msg) =>
      if is_not_found code then Ok (Return (error_response 404 (index_not_found_msg E)))
      else if is_access_denied code then Ok (Return (error_response 403 access_denied_msg))
      else Raise (ClientError code msg)
  | Raise e => Raise e
  end.

(** The request passes every step before the store: its body is a dict with
    a usable [text] and a dict [metadata] (or none), and the embedding client
    returns a valid embedding [emb], leaving the state [st1]. *)
Definition reaches_store (E : env) (event : gmap string pyval) (st : state)
    (text : pyval) (md : gmap string pyval) (emb : pyval) (st1 : state) : Prop :=
  exists d,
    decoded_body E event = Ok (PDict d)
    /\ d !! "text" = Some text
    /\ truthy text = true
    /\ sliceable text = true
    /\ default (PDict ∅) (d !! "metadata") = PDict md
    /\ IngestLambda.get_embedding E text st = (Ok emb, st1)
    /\ invalid_embedding emb = false.

(** The success response of the ingest handler. *)
Definition indexed_response (vector_id : string) : response :=
  {| statusCode := 200;
     body := {[ "message" := PStr "Document indexed successfully";
                "document_id" := PStr vector_id ]} |}.

(** [doc.get('text')] of a document of the batch file. *)
Definition doc_text (doc : pyval) : pyval :=
  match doc with
  | PDict d => default PNone (d !! "text")
  | _ => PNone
  end.

(** A document of the batch file as the data model has it: a JSON object
    whose [text], when present and not empty, is a value with a length (a
    string). *)
Definition well_formed_doc (doc : pyval) : bool :=
  match doc with
  | PDict _ =>
      let text := doc_text doc in
      negb (truthy text)
      || match text with PStr _ | PList _ | PDict _ => true | _ => false end
  | _ => false
  end.

(** [len(text or '')], printed before each document. *)
Definition doc_len (doc : pyval) : nat :=
  let text := doc_text doc in
  py_len (if truthy text then text else PStr "").

(** The result line of one document. *)
Definition is_success_line (l : line) : bool :=
  match l with LIngested _ => true | _ => false end.

Definition is_failure_line (l : line) : bool :=
  match l with LInvalid | LFailed _ => true | _ => false end.

(** [st] after [print(l)]. *)
Definition after_print (st : state) (l : line) : state :=
  {| sm_calls := sm_calls st; s3_calls := s3_calls st; q_calls := q_calls st;
     ids := ids st; ticks := ticks st; slept := slept st; puts := puts st;
     queries := queries st; printed := printed st ++ [l] |}.

(** [st] after one reading of the clock. *)
Definition after_tick (st : state) : state :=
  {| sm_calls := sm_calls st; s3_calls := s3_calls st; q_calls := q_calls st;
     ids := ids st; ticks := S (ticks st); slept := slept st; puts := puts st;
     queries := queries st; printed := printed st |}.

(** [st] after one store query for [v] with count [k]. *)
Definition after_query (st : state) (v : pyval) (k : Z) : state :=
  {| sm_calls := sm_calls st; s3_calls := s3_calls st; q_calls := S (q_calls st);
     ids := ids st; ticks := ticks st; slept := slept st; puts := puts st;
     queries := queries st ++ [(v, k)]; printed := printed st |}.

(** The 200 answer of the search handler for the records [vectors]. *)
Definition search_response (vectors : list query_result) : response :=
  {| statusCode := 200;
     body := {[ "results" := PList (map PDict (SearchHandler.format_results vectors));
                "count" := PInt (Z.of_nat (length (SearchHandler.format_results vectors))) ]} |}.

(** ** Module load of the batch script and of the two scripts *)

(** A module either loads with its configuration or leaves through
    [sys.exit(code)] / [exit(code)]. *)
Inductive load_result : Type :=
| Loaded (c : config)
| SystemExit (code : Z).

(** [load_dotenv(env_path, override=True)]: the assignments [dotenv] of the
    [.env] file (none when the file is missing) replace those of the process
    environment. *)
Definition load_dotenv_override (dotenv environ : gmap string string)
  : gmap string string :=
  dotenv ∪ environ.

(** [not v] for the result of [os.getenv]. *)
Definition getenv_falsy (v : option string) : bool :=
  match v with
  | Some s => String.eqb s ""
  | None => true
  end.

(** Lines 27-36 of [ingest_from_file.py]. *)
Definition batch_module_init (dotenv environ : gmap string string) : load_result :=
  let environ := load_dotenv_override dotenv environ in
  let VECTOR_BUCKET := environ !! "VECTOR_BUCKET" in
  let SAGEMAKER_ENDPOINT := environ !! "SAGEMAKER_ENDPOINT" in
  let INDEX_NAME := default "despme-index" (environ !! "INDEX_NAME") in
  if getenv_falsy VECTOR_BUCKET || getenv_falsy SAGEMAKER_ENDPOINT
  then SystemExit 1
  else Loaded {| cfg_vector_bucket := default "" VECTOR_BUCKET;
                 cfg_sagemaker_endpoint := default "" SAGEMAKER_ENDPOINT;
                 cfg_index_name := INDEX_NAME |}.

(** Lines 14-24 of [scripts/search_despicable_me.py], 15-25 of
    [scripts/test_despicable_me_docs.py]: only the bucket name is required. *)
Definition script_module_init (dotenv environ : gmap string string) : load_result :=
  let environ := load_dotenv_override dotenv environ in
  let VECTOR_BUCKET := environ !! "VECTOR_BUCKET" in
  let SAGEMAKER_ENDPOINT :=
    default "despme--embedding-endpoint" (environ !! "SAGEMAKER_ENDPOINT") in
  let INDEX_NAME := default "despme-index" (environ !! "INDEX_NAME") in
  if getenv_falsy VECTOR_BUCKET
  then SystemExit 1
  else Loaded {| cfg_vector_bucket := default "" VECTOR_BUCKET;
                 cfg_sagemaker_endpoint := SAGEMAKER_ENDPOINT;
                 cfg_index_name := INDEX_NAME |}.

(** ** Model analysis utility ([scripts/check_model_dimensions.py]) *)

Definition res_bind {A B} (r : res A) (k : A -> res B) : res B :=
  match r with
  | Ok a => k a
  | Raise e => Raise e
  end.

Module ModelDimensions.
(** [l[0]] on a list, with its [IndexError]. *)
Definition first_item (l : pyval) : res pyval :=
  match l with
  | PList (x :: _) => Ok x
  | PList [] => Raise (OtherException "list index out of range")
  | _ => Raise (TypeError "object is not subscriptable")
  end.

(** Lines 47-51: [result[0][0] if isinstance(result[0], list) else result[0]]
    for a list, the response itself otherwise.  No length is tested. *)
Definition extract_embedding (result : pyval) : res pyval :=
  if isinstance_list result then
    res_bind (first_item result) (fun r0 =>
      if isinstance_list r0 then first_item r0 else Ok r0)
  else Ok result.

(** [len(embedding)], line 53. *)
Definition len_of (v : pyval) : res nat :=
  match v with
  | PStr _ | PList _ | PDict _ => Ok (py_len v)
  | _ => Raise (TypeError "object has no len()")
  end.

Definition embedding_dimension (result : pyval) : res nat :=
  res_bind (extract_embedding result) len_of.

(** The loop of [analyze_embedding_model] as far as [dimensions] goes: the
    dimension is appended before the lines that print the sample values, so
    whatever those raise is caught without touching the list. *)
Fixpoint analyze_loop (E : env) (test_cases : list string) (dimensions : list nat)
  : M (list nat) :=
  match test_cases with
  | [] => ret dimensions
  | text :: rest =>
      dimensions <-
        try_except
          (result <- call_invoke_endpoint E ;;
           dim <- (fun st => (embedding_dimension result, st)) ;;
           ret (dimensions ++ [dim]))
          (fun e => ret dimensions) ;;
      analyze_loop E rest dimensions
  end.

(** [len(set(dimensions)) == 1] *)
Definition consistent (dimensions : list nat) : bool :=
  Nat.eqb (size (list_to_set dimensions : gset nat)) 1.

(** [dimensions[0] if dimensions else 'Unknown'] *)
Definition dimension_count (dimensions : list nat) : option nat :=
  head dimensions.
End ModelDimensions.

(** ** Character search of [scripts/search_despicable_me.py] *)

Module CharacterSearch.
(** [needle in hay] on strings. *)
Fixpoint contains (needle hay : string) : bool :=
  String.prefix needle hay
  || match hay with
     | EmptyString => false
     | String _ rest => contains needle rest
     end.

(** [l[:k]]; a negative [k] counts from the end. *)
Definition slice_to {A} (k : Z) (l : list A) : list A :=
  if (0 <=? k)%Z then take (Z.to_nat k) l
  else take (length l - Z.to_nat (- k)) l.

(** [v.get('metadata', {}).get('character', '').lower()]; [lower] is
    [str.lower]. *)
Definition character_lower (lower : string -> string) (v : query_result) : res string :=
  match default ∅ (q_metadata v) !! "character" with
  | None => Ok (lower "")
  | Some (PStr s) => Ok (lower s)
  | Some _ => Raise (AttributeError "object has no attribute 'lower'")
  end.

(** The list comprehension of line 115. *)
Fixpoint exact_matches (lower : string -> string) (character_lower_name : string)
    (vectors : list query_result) : res (list query_result) :=
  match vectors with
  | [] => Ok []
  | v :: rest =>
      res_bind (character_lower lower v) (fun c =>
        res_bind (exact_matches lower character_lower_name rest) (fun ms =>
          Ok (if contains character_lower_name c then v :: ms else ms)))
  end.

(** Lines 113-130 without the printing: the records chosen for display, and
    whether they are exact matches. *)
Definition select (lower : string -> string) (character_name : string) (k : Z)
    (vectors : list query_result) : res (bool * list query_result) :=
  let character_lower_name := lower character_name in
  res_bind (exact_matches lower character_lower_name vectors) (fun ms =>
    if negb (Nat.eqb (length ms) 0)
    then Ok (true, slice_to k ms)
    else Ok (false, slice_to k vectors)).

(** [search_by_character(character_name, k)] up to the choice of the records;
    [None] stands for the error line of the [except]. *)
Definition search_by_character (lower : string -> string) (E : env)
    (character_name : string) (k : Z) : M (option (bool * list query_result)) :=
  try_except
    (query_embedding <-
       Scripts.get_embedding E (PStr (character_name +:+ " character profile personality")) ;;
     vectors <- call_query_vectors E query_embedding 10 ;;
     chosen <- (fun st => (select lower character_name k vectors, st)) ;;
     ret (Some chosen))
    (fun e => ret None).
End CharacterSearch.

(** ** Deployment packaging ([package.py]) *)

Module Package.
(** [name.endswith(suffix)] *)
Definition ends_with (suffix name : string) : bool :=
  let n := String.length name in
  let m := String.length suffix in
  Nat.leb m n && String.eqb (String.substring (n - m) m name) suffix.

(** The default of [exclude_pkgs], lines 82-83. *)
Definition effective_exclusions (exclude_pkgs : option (list string)) : list string :=
  match exclude_pkgs with
  | None => ["boto3"; "botocore"; "s3transfer"]
  | Some l => l
  end.

(** Lines 88-94: the two tests that skip an entry of site-packages. *)
Definition skipped (exclude_pkgs : list string) (name : string) : bool :=
  if ends_with ".dist-info" name || String.eqb name "__pycache__" then true
  else if existsb (fun pkg => String.eqb name pkg || String.prefix (pkg +:+ "-") name)
            exclude_pkgs
  then true
  else false.

(** The entries of site-packages the loop of lines 86-101 tries to copy, in
    the order of [iterdir]. *)
Definition entries_to_copy (exclude_pkgs : option (list string)) (names : list string)
  : list string :=
  List.filter (fun name => negb (skipped (effective_exclusions exclude_pkgs) name)) names.
End Package.

(** The time slept over the delays [ds]. *)
Definition total_sleep (ds : list Z) : Z := foldr Z.add 0%Z ds.

(** A store answer the batch script's [put_vector] retries: any
    [ClientError] but not-found. *)
Definition is_retried_by_put_vector {A} (o : res A) : bool :=
  match o with
  | Raise (ClientError code _) => negb (is_not_found code)
  | _ => false
  end.

(** The store, called from [st] on, gives [n] answers that [put_vector]
    retries. *)
Definition store_retried (E : env) (st : state) (n : nat) : Prop :=
  forall i, i < n -> is_retried_by_put_vector (put_vectors E (s3_calls st + i)) = true.

(** What [put_vector] makes of a store answer that ends its loop. *)
Definition put_vector_verdict (E : env) (o : res unit) : res unit :=
  match o with
  | Ok _ => Ok tt
  | Raise (ClientError code msg) =>
      if is_not_found code then Raise (RuntimeError (index_not_found_msg E))
      else Raise (ClientError code msg)
  | Raise e => Raise e
  end.

(** A value is absent or empty, as [not os.getenv(...)] tests it. *)
Definition unset (v : option string) : Prop := v = None \/ v = Some "".

(** Values on which [len] raises. *)
Definition has_no_len (v : pyval) : bool :=
  match v with
  | PNone | PBool _ | PInt _ | PFloat _ => true
  | _ => false
  end.

(** The character recorded for [v] is a string and contains the lowered
    [character_name] ([b = true]) or does not ([b = false]). *)
Definition names_character (lower : string -> string) (character_name : string)
    (b : bool) (v : query_result) : Prop :=
  exists c, CharacterSearch.character_lower lower v = Ok c
            /\ CharacterSearch.contains (lower character_name) c = b.

(** The query a script sends after the endpoint answered [o], if any. *)
Definition script_query (o : res pyval) (k : Z) : list (pyval * Z) :=
  match o with
  | Ok result => [(normalize_file result, k)]
  | Raise _ => []
  end.

(** [name] is the package [pkg] or one of its versioned directories. *)
Definition is_package_entry (pkg name : string) : Prop :=
  name = pkg \/ String.prefix (pkg +:+ "-") name = true.

(** ** Batch ingestion, document by document *)

(** [st] with the print log [ls]. *)
Definition with_printed (st : state) (ls : list line) : state :=
  {| sm_calls := sm_calls st; s3_calls := s3_calls st; q_calls := q_calls st;
     ids := ids st; ticks := ticks st; slept := slept st; puts := puts st;
     queries := queries st; printed := ls |}.

(** [doc.get('metadata', {})] of a document of the batch file. *)
Definition doc_metadata (doc : pyval) : pyval :=
  match doc with
  | PDict d => default (PDict ∅) (d !! "metadata")
  | _ => PDict ∅
  end.

(** What becomes of one document of a batch: it is stored under an
    identifier, or it fails in one of four ways. *)
Inductive fate : Type :=
| Stored (vector_id : string)
| EmbeddingFailed (e : exn)
| EmbeddingInvalid
| MetadataNotAnObject
| UpsertFailed (e : exn).

Definition is_stored (f : fate) : bool :=
  match f with Stored _ => true | _ => false end.

(** The fate of the document [doc] when its turn comes in [st], told from
    what the embedding client and the upsert answer then, and the state they
    leave.  Printing plays no part in it. *)
Definition document_fate (E : env) (doc : pyval) (st : state) : fate * state :=
  match IngestFromFile.get_embedding E (doc_text doc) st with
  | (Raise e, st1) => (EmbeddingFailed e, st1)
  | (Ok embedding, st1) =>
      if invalid_embedding embedding then (EmbeddingInvalid, st1)
      else
        match doc_metadata doc with
        | PDict md =>
            match IngestFromFile.put_vector E (uuid4 E (ids st1)) embedding
                    (<["timestamp" := PStr (utcnow E (ticks st1))]> md)
                    (after_tick (after_uuid st1)) with
            | (Ok _, st2) => (Stored (uuid4 E (ids st1)), st2)
            | (Raise e, st2) => (UpsertFailed e, st2)
            end
        | _ => (MetadataNotAnObject, after_uuid st1)
        end
  end.

(** The fates of the documents of a batch, each met in the state the
    previous one left. *)
Fixpoint batch_fates (E : env) (docs : list pyval) (st : state) : list fate * state :=
  match docs with
  | [] => ([], st)
  | doc :: rest =>
      let r := document_fate E doc st in
      let rs := batch_fates E rest (snd r) in
      (fst r :: fst rs, snd rs)
  end.

(** How many documents were stored, how many failed. *)
Definition stored (fs : list fate) : nat := length (List.filter is_stored fs).

Definition failed (fs : list fate) : nat :=
  length (List.filter (fun f => negb (is_stored f)) fs).

(** The documents a print log announces: position and total of each
    [LGetting] line. *)
Definition announced (ls : list line) : list (nat * nat) :=
  omap (fun l => match l with LGetting i n _ => Some (i, n) | _ => None end) ls.

(** The result lines of a print log, each as success ([true]) or failure. *)
Definition reported (ls : list line) : list bool :=
  map is_success_line (List.filter (fun l => is_success_line l || is_failure_line l) ls).

(** No summary line. *)
Definition is_summary_line (l : line) : bool :=
  match l with LFinished _ _ => true | _ => false end.

(** [result] is [{'text': text, 'timestamp': ts}] with the caller's map [md]
    laid over it: the caller's keys, [text] and [timestamp] among them, win;
    the two injected keys are there when the caller has none of that name;
    there is no other key. *)
Definition merged_metadata (text : pyval) (ts : string) (md result : gmap string pyval)
  : Prop :=
  (forall key v, md !! key = Some v -> result !! key = Some v)
  /\ (md !! "text" = None -> result !! "text" = Some text)
  /\ (md !! "timestamp" = None -> result !! "timestamp" = Some (PStr ts))
  /\ (forall key, key <> "text" -> key <> "timestamp" -> md !! key = None ->
                  result !! key = None).

(** The dimension the analysis utility records for an endpoint answer, if
    any. *)
Definition dimension_of_answer (o : res pyval) : option nat :=
  match o with
  | Ok result =>
      match ModelDimensions.embedding_dimension result with
      | Ok dim => Some dim
      | Raise _ => None
      end
  | Raise _ => None
  end.

(** The dimensions recorded over the [n] endpoint calls from call [c] on. *)
Definition recorded_dimensions (E : env) (c n : nat) : list nat :=
  omap (fun j => dimension_of_answer (invoke_endpoint E j)) (seq c n).

(** * Properties *)

(** ** Response normalisation *)

Lemma normalize_file_three_levels (es : list pyval) :
  normalize_file (PList [PList [PList es]]) = PList es.
Proof. reflexivity. Qed.

Lemma normalize_file_two_levels (e : pyval) (es : list pyval) :
  is_scalar e -> normalize_file (PList [PList (e :: es)]) = PList (e :: es).
Proof. unfold is_scalar, normalize_file. cbn. intros ->. reflexivity. Qed.

Lemma normalize_file_flat (es : list pyval) :
  Forall is_scalar es -> normalize_file (PList es) = PList es.
Proof.
  intros Hs. destruct es as [|e es]; [reflexivity|].
  inversion Hs as [|? ? He _]; subst.
  unfold is_scalar in He. unfold normalize_file. cbn.
  destruct e; try discriminate; reflexivity.
Qed.

Lemma normalize_lambda_three_levels (es : list pyval) :
  normalize_lambda (PList [PList [PList es]]) = PList es.
Proof. reflexivity. Qed.

Lemma normalize_lambda_two_levels (e : pyval) (es : list pyval) :
  is_scalar e -> normalize_lambda (PList [PList (e :: es)]) = PList (e :: es).
Proof. unfold is_scalar, normalize_lambda. cbn. intros ->. reflexivity. Qed.

(** In the Lambda modules a non-empty flat list of scalars is replaced by
    [None]: the inner test fails and has no [else]. *)
Lemma normalize_lambda_flat_is_none (e : pyval) (es : list pyval) :
  is_scalar e -> normalize_lambda (PList (e :: es)) = PNone.
Proof.
  unfold is_scalar, normalize_lambda. cbn. intros He.
  destruct e; try discriminate; reflexivity.
Qed.

(** C1 (code defect): the decoded response [[0.5, 0.25]], a flat list of
    scalars, must be returned unchanged as the embedding.  The batch script
    does so; the Lambda modules' [get_embedding] returns [None] for it, with
    the endpoint called once and succeeding. *)
Theorem lambda_flat_embedding_lost :
  let W := Fixtures.world (fun _ => Ok Fixtures.vec) Fixtures.s3_ok Fixtures.q_none in
  normalize_lambda (PList [PFloat 0.5; PFloat 0.25]) = PNone
  /\ fst (IngestLambda.get_embedding W (PStr "Gru") init_state) = Ok PNone
  /\ fst (SearchLambda.get_embedding W (PStr "Gru") init_state) = Ok PNone
  /\ sm_calls (snd (IngestLambda.get_embedding W (PStr "Gru") init_state)) = 1
  /\ fst (IngestFromFile.get_embedding W (PStr "Gru") init_state)
     = Ok (PList [PFloat 0.5; PFloat 0.25]).
Proof. cbv zeta. repeat split; reflexivity. Qed.

(** ** Similarity *)

Lemma script_similarity_is_one_minus_distance (vector : query_result) (d : float) :
  q_distance vector = Some d ->
  Scripts.similarity vector = PFloat (1 - d)%float.
Proof. unfold Scripts.similarity. intros ->. reflexivity. Qed.

Lemma lambda_score_is_distance (vector : query_result) (d : float) :
  q_distance vector = Some d ->
  SearchHandler.format_result vector !! "score" = Some (PFloat d).
Proof.
  unfold SearchHandler.format_result. intros ->.
  rewrite lookup_insert_ne by discriminate.
  rewrite lookup_insert_eq. reflexivity.
Qed.

(** C2 (code defect): for a record at distance 0.25 the similarity is
    1 - 0.25 = 0.75, which the search script computes; the Lambda search
    handler exposes the raw distance 0.25 as [score]. *)
Theorem lambda_score_not_similarity :
  let vector := {| q_key := "a"; q_distance := Some 0.25%float; q_metadata := None |} in
  SearchHandler.format_result vector !! "score" = Some (PFloat 0.25)
  /\ Scripts.similarity vector = PFloat 0.75
  /\ (1 - 0.25)%float = 0.75%float
  /\ PFloat 0.25 <> PFloat 0.75.
Proof.
  cbv zeta. split; [apply lambda_score_is_distance; reflexivity|].
  repeat split.
  intros H.
  apply (f_equal (fun v => match v with
                           | PFloat x => PrimFloat.eqb x 0.25%float
                           | _ => false
                           end)) in H.
  vm_compute in H. discriminate.
Qed.

(** ** Retry with exponential backoff in the embedding client *)

Lemma seq_open (a attempts : nat) :
  a < attempts -> seq a (attempts - a) = a :: seq (S a) (attempts - S a).
Proof.
  intros H. replace (attempts - a) with (S (attempts - S a)) by lia. reflexivity.
Qed.

Lemma backoff_cons (base : Z) (n : nat) :
  backoff base (S n) = base :: backoff (base * 2) n.
Proof.
  unfold backoff. cbn [seq map]. f_equal; [cbn; lia|].
  rewrite <- seq_shift, map_map. apply map_ext. intros i.
  rewrite Nat2Z.inj_succ, Z.pow_succ_r by lia. lia.
Qed.

Lemma after_embedding_step (st : state) (d : Z) (calls : nat) (ds : list Z) :
  after_embedding (after_embedding st 1 [d]) calls ds
  = after_embedding st (S calls) (d :: ds).
Proof.
  unfold after_embedding. cbn. f_equal; [lia|].
  rewrite <- app_assoc. reflexivity.
Qed.

(** [n] transient failures followed by a success, with attempts to spare:
    [n + 1] calls, the normalised answer, and the sleeps [backoff delay n]. *)
Lemma embedding_loop_recovers (E : env) (normalize : pyval -> pyval) (attempts : nat)
    (r : pyval) :
  forall (n a : nat) (delay : Z) (st : state),
    a + n < attempts ->
    endpoint_fails E st n ->
    invoke_endpoint E (sm_calls st + n) = Ok r ->
    embedding_loop E normalize attempts (seq a (attempts - a)) delay st
    = (Ok (normalize r), after_embedding st (n + 1) (backoff delay n)).
Proof.
  induction n as [|n IH]; intros a delay st Ha Hfail Hok.
  - rewrite seq_open by lia. cbn [embedding_loop].
    unfold try_except, bind, call_invoke_endpoint, ret.
    rewrite Nat.add_0_r in Hok. rewrite Hok.
    unfold after_embedding, backoff. cbn. rewrite app_nil_r. reflexivity.
  - rewrite seq_open by lia. cbn [embedding_loop].
    unfold try_except at 1. unfold bind at 1. unfold call_invoke_endpoint at 1.
    pose proof (Hfail 0 ltac:(lia)) as H0. rewrite Nat.add_0_r in H0.
    destruct (invoke_endpoint E (sm_calls st)) as [?|[code msg| | | |]] eqn:Hcall;
      try discriminate.
    replace (Z.of_nat a <? Z.of_nat attempts - 1)%Z with true
      by (symmetry; apply Z.ltb_lt; lia).
    unfold bind at 1. unfold sleep at 1.
    match goal with |- embedding_loop _ _ _ _ _ ?s = _ =>
      change s with (after_embedding st 1 [delay]) end.
    rewrite (IH (S a) (delay * 2)%Z (after_embedding st 1 [delay])).
    + rewrite after_embedding_step, backoff_cons.
      replace (S (n + 1)) with (S n + 1) by lia. reflexivity.
    + lia.
    + intros i Hi. cbn [after_embedding sm_calls Nat.add].
      rewrite <- Nat.add_succ_r.
      apply Hfail. lia.
    + cbn [after_embedding sm_calls Nat.add].
      rewrite <- Nat.add_succ_r. exact Hok.
Qed.

(** Every remaining attempt fails: the error of the last call is raised after
    one sleep per attempt but the last. *)
Lemma embedding_loop_gives_up (E : env) (normalize : pyval -> pyval) (attempts : nat) :
  forall (n a : nat) (delay : Z) (st : state),
    a + S n = attempts ->
    endpoint_fails E st (S n) ->
    exists code msg,
      invoke_endpoint E (sm_calls st + n) = Raise (ClientError code msg)
      /\ embedding_loop E normalize attempts (seq a (attempts - a)) delay st
         = (Raise (ClientError code msg), after_embedding st (S n) (backoff delay n)).
Proof.
  induction n as [|n IH]; intros a delay st Ha Hfail.
  - pose proof (Hfail 0 ltac:(lia)) as H0.
    destruct (invoke_endpoint E (sm_calls st + 0)) as [?|[code msg| | | |]] eqn:Hcall;
      try discriminate.
    exists code, msg. split; [reflexivity|].
    rewrite Nat.add_0_r in Hcall.
    replace (attempts - a) with 1 by lia. cbn [seq embedding_loop].
    unfold try_except, bind, call_invoke_endpoint. rewrite Hcall.
    replace (Z.of_nat a <? Z.of_nat attempts - 1)%Z with false
      by (symmetry; apply Z.ltb_ge; lia).
    unfold raise, after_embedding, backoff. cbn. rewrite app_nil_r. reflexivity.
  - pose proof (Hfail 0 ltac:(lia)) as H0. rewrite Nat.add_0_r in H0.
    destruct (invoke_endpoint E (sm_calls st)) as [?|[code0 msg0| | | |]] eqn:Hcall;
      try discriminate.
    destruct (IH (S a) (delay * 2)%Z (after_embedding st 1 [delay])) as (code & msg & Hlast & Hrun).
    + lia.
    + intros i Hi. cbn [after_embedding sm_calls Nat.add].
      rewrite <- Nat.add_succ_r.
      apply Hfail. lia.
    + exists code, msg. split.
      * cbn [after_embedding sm_calls Nat.add] in Hlast.
        rewrite Nat.add_succ_r. exact Hlast.
      * rewrite seq_open by lia. cbn [embedding_loop].
        unfold try_except at 1. unfold bind at 1. unfold call_invoke_endpoint at 1.
        rewrite Hcall.
        replace (Z.of_nat a <? Z.of_nat attempts - 1)%Z with true
          by (symmetry; apply Z.ltb_lt; lia).
        unfold bind at 1. unfold sleep at 1.
        match goal with |- embedding_loop _ _ _ _ _ ?s = _ =>
          change s with (after_embedding st 1 [delay]) end.
        rewrite Hrun, after_embedding_step, backoff_cons. reflexivity.
Qed.

(** C5: a remote embedding call that fails with a retryable fault [n] times
    and then succeeds makes [n + 1] attempts and returns the success when
    [n + 1 <= 3]; when all three attempts fail the error of the last one is
    raised; the delays slept in between are [1, 2, 4, ...] (and
    [base, base*2, ...] for the batch script's configurable form). *)
Theorem embedding_retry_contract (E : env) (text : pyval) (st : state) :
  (forall (n : nat) (r : pyval),
      n + 1 <= 3 ->
      endpoint_fails E st n ->
      invoke_endpoint E (sm_calls st + n) = Ok r ->
      IngestLambda.get_embedding E text st
      = (Ok (normalize_lambda r), after_embedding st (n + 1) (backoff 1 n))
      /\ SearchLambda.get_embedding E text st
         = (Ok (normalize_lambda r), after_embedding st (n + 1) (backoff 1 n))
      /\ IngestFromFile.get_embedding E text st
         = (Ok (normalize_file r), after_embedding st (n + 1) (backoff 1 n)))
  /\ (endpoint_fails E st 3 ->
      exists code msg,
        invoke_endpoint E (sm_calls st + 2) = Raise (ClientError code msg)
        /\ IngestLambda.get_embedding E text st
           = (Raise (ClientError code msg), after_embedding st 3 [1; 2]%Z)
        /\ SearchLambda.get_embedding E text st
           = (Raise (ClientError code msg), after_embedding st 3 [1; 2]%Z)
        /\ IngestFromFile.get_embedding E text st
           = (Raise (ClientError code msg), after_embedding st 3 [1; 2]%Z))
  /\ (forall (attempts n : nat) (base : Z) (r : pyval),
      n + 1 <= attempts ->
      endpoint_fails E st n ->
      invoke_endpoint E (sm_calls st + n) = Ok r ->
      IngestFromFile.get_embedding_with E text attempts base st
      = (Ok (normalize_file r), after_embedding st (n + 1) (backoff base n)))
  /\ backoff 1 3 = [1; 2; 4]%Z.
Proof.
  repeat split.
  - apply (embedding_loop_recovers E normalize_lambda 3 r n 0); [lia|assumption..].
  - apply (embedding_loop_recovers E normalize_lambda 3 r n 0); [lia|assumption..].
  - apply (embedding_loop_recovers E normalize_file 3 r n 0); [lia|assumption..].
  - intros Hfail.
    destruct (embedding_loop_gives_up E normalize_lambda 3 2 0 1%Z st eq_refl Hfail)
      as (code & msg & Hlast & Hrun).
    destruct (embedding_loop_gives_up E normalize_file 3 2 0 1%Z st eq_refl Hfail)
      as (code' & msg' & Hlast' & Hrun').
    rewrite Hlast in Hlast'. injection Hlast' as <- <-.
    exists code, msg. repeat split; assumption.
  - intros attempts n base r Hn Hfail Hok.
    unfold IngestFromFile.get_embedding_with.
    rewrite <- (Nat.sub_0_r attempts) at 2.
    apply (embedding_loop_recovers E normalize_file attempts r n 0); [lia|assumption..].
Qed.

(** One transient failure, then the nested answer: two attempts, one sleep of
    one time unit. *)
Lemma embedding_retry_contract_witness :
  let sm := fun i => match i with 0 => Raise Fixtures.throttled | _ => Ok (PList [PList [Fixtures.vec]]) end in
  let W := Fixtures.world sm Fixtures.s3_ok Fixtures.q_none in
  IngestLambda.get_embedding W (PStr "Gru") init_state
  = (Ok Fixtures.vec, after_embedding init_state 2 [1%Z]).
Proof.
  cbv zeta.
  apply (proj1 (embedding_retry_contract _ (PStr "Gru") init_state) 1
               (PList [PList [Fixtures.vec]])).
  - lia.
  - intros i Hi. assert (i = 0) as -> by lia. reflexivity.
  - reflexivity.
Defined.

(** ** Frame of the embedding client: it only calls the endpoint and sleeps *)

Lemma embedding_loop_frame (E : env) (normalize : pyval -> pyval) (attempts : nat) :
  forall (range : list nat) (delay : Z) (st : state),
    let st' := snd (embedding_loop E normalize attempts range delay st) in
    s3_calls st' = s3_calls st /\ q_calls st' = q_calls st /\ ids st' = ids st
    /\ ticks st' = ticks st /\ puts st' = puts st /\ queries st' = queries st
    /\ printed st' = printed st.
Proof.
  induction range as [|attempt rest IH]; intros delay st; cbn zeta.
  - cbn. repeat split.
  - cbn [embedding_loop]. unfold try_except, bind, call_invoke_endpoint.
    destruct (invoke_endpoint E (sm_calls st)) as [r|e]; [cbn; repeat split|].
    destruct e; try (cbn; repeat split; fail).
    destruct (Z.of_nat attempt <? Z.of_nat attempts - 1)%Z; [|cbn; repeat split].
    unfold sleep. cbn beta iota.
    match goal with |- context [embedding_loop _ _ _ _ ?d ?s] =>
      specialize (IH d s) end.
    cbn zeta in IH. exact IH.
Qed.

(** ** The store attempts of the Lambda ingest handler *)

Lemma attempted_records_cons (E : env) (vector_id : string) (embedding text : pyval)
    (md : gmap string pyval) (t n : nat) :
  attempted_records E vector_id embedding text md t (S n)
  = {| rec_key := vector_id; rec_data := embedding;
       rec_metadata := IngestHandler.record_metadata text (utcnow E t) md |}
    :: attempted_records E vector_id embedding text md (S t) n.
Proof.
  unfold attempted_records. cbn [seq map]. f_equal.
  rewrite <- seq_shift, map_map. apply map_ext. intros i.
  rewrite Nat.add_succ_r. reflexivity.
Qed.

Lemma after_store_step (st : state) (d : Z) (r : vector_record) (calls tks : nat)
    (ds : list Z) (rs : list vector_record) :
  after_store (after_store st 1 1 [d] [r]) calls tks ds rs
  = after_store st (S calls) (S tks) (d :: ds) (r :: rs).
Proof.
  unfold after_store. cbn. f_equal; try lia; rewrite <- app_assoc; reflexivity.
Qed.

Lemma store_verdict_transient (E : env) (code : option string) (msg : string) :
  is_transient_store_error (Raise (A:=unit) (ClientError code msg)) = true ->
  is_not_found code = false /\ is_access_denied code = false.
Proof.
  cbn. destruct (is_not_found code), (is_access_denied code); cbn; intuition discriminate.
Qed.

(** [n] transient store failures followed by an answer that ends the loop. *)
Lemma put_loop_decides (E : env) (vector_id : string) (embedding text : pyval)
    (md : gmap string pyval) (attempts : nat) :
  forall (n a : nat) (delay : Z) (st : state),
    a + n < attempts ->
    store_fails E st n ->
    is_transient_store_error (put_vectors E (s3_calls st + n)) = false ->
    IngestHandler.put_loop E vector_id embedding text (PDict md) attempts
      (seq a (attempts - a)) delay st
    = (store_verdict E (put_vectors E (s3_calls st + n)),
       after_store st (n + 1) (n + 1) (backoff delay n)
         (attempted_records E vector_id embedding text md (ticks st) (n + 1))).
Proof.
  induction n as [|n IH]; intros a delay st Ha Hfail Hend.
  - rewrite seq_open by lia. cbn [IngestHandler.put_loop].
    rewrite Nat.add_0_r in *.
    unfold try_except, bind, now_iso, unpack_mapping, ret, call_put_vectors.
    cbn beta iota. cbn [s3_calls].
    destruct (put_vectors E (s3_calls st)) as [[]|e] eqn:Hcall.
    + unfold after_store, backoff, attempted_records. cbn.
      rewrite app_nil_r. reflexivity.
    + destruct e as [code msg| | | |]; try reflexivity.
      * cbn in Hend. cbn [store_verdict].
        unfold after_store, backoff, attempted_records.
        destruct (is_not_found code); [cbn; rewrite app_nil_r; reflexivity|].
        destruct (is_access_denied code); [cbn; rewrite app_nil_r; reflexivity|].
        discriminate.
      * unfold raise, after_store, backoff, attempted_records.
        cbn. rewrite app_nil_r. reflexivity.
      * unfold raise, after_store, backoff, attempted_records.
        cbn. rewrite app_nil_r. reflexivity.
      * unfold raise, after_store, backoff, attempted_records.
        cbn. rewrite app_nil_r. reflexivity.
      * unfold raise, after_store, backoff, attempted_records.
        cbn. rewrite app_nil_r. reflexivity.
  - rewrite seq_open by lia. cbn [IngestHandler.put_loop].
    pose proof (Hfail 0 ltac:(lia)) as H0. rewrite Nat.add_0_r in H0.
    unfold try_except at 1. unfold bind at 1 2 3.
    unfold now_iso at 1. unfold unpack_mapping at 1. unfold ret at 1.
    unfold call_put_vectors at 1. cbn beta iota. cbn [s3_calls].
    destruct (put_vectors E (s3_calls st)) as [[]|[code msg| | | |]] eqn:Hcall;
      try discriminate.
    destruct (store_verdict_transient E code msg H0) as [-> ->].
    replace (Z.of_nat a <? Z.of_nat attempts - 1)%Z with true
      by (symmetry; apply Z.ltb_lt; lia).
    unfold bind at 1. unfold sleep at 1.
    match goal with |- IngestHandler.put_loop _ _ _ _ _ _ _ _ ?s = _ =>
      change s with
        (after_store st 1 1 [delay]
           [{| rec_key := vector_id; rec_data := embedding;
               rec_metadata := IngestHandler.record_metadata text (utcnow E (ticks st)) md |}])
    end.
    rewrite IH.
    + cbn [after_store s3_calls ticks Nat.add].
      rewrite <- Nat.add_succ_r.
      rewrite after_store_step, <- backoff_cons.
      replace (S (n + 1)) with (S n + 1) by lia.
      rewrite <- attempted_records_cons.
      replace (S (n + 1)) with (S n + 1) by lia. reflexivity.
    + lia.
    + intros i Hi. cbn [after_store s3_calls Nat.add].
      rewrite <- Nat.add_succ_r. apply Hfail. lia.
    + cbn [after_store s3_calls Nat.add].
      rewrite <- Nat.add_succ_r. exact Hend.
Qed.

(** Every attempt that is left fails transiently: the last error is raised. *)
Lemma put_loop_gives_up (E : env) (vector_id : string) (embedding text : pyval)
    (md : gmap string pyval) (attempts : nat) :
  forall (n a : nat) (delay : Z) (st : state),
    a + S n = attempts ->
    store_fails E st (S n) ->
    exists code msg,
      put_vectors E (s3_calls st + n) = Raise (ClientError code msg)
      /\ IngestHandler.put_loop E vector_id embedding text (PDict md) attempts
           (seq a (attempts - a)) delay st
         = (Raise (ClientError code msg),
            after_store st (S n) (S n) (backoff delay n)
              (attempted_records E vector_id embedding text md (ticks st) (S n))).
Proof.
  induction n as [|n IH]; intros a delay st Ha Hfail.
  - pose proof (Hfail 0 ltac:(lia)) as H0. rewrite Nat.add_0_r in *.
    destruct (put_vectors E (s3_calls st)) as [[]|[code msg| | | |]] eqn:Hcall;
      try discriminate.
    exists code, msg. split; [reflexivity|].
    destruct (store_verdict_transient E code msg H0) as [Hnf Had].
    replace (attempts - a) with 1 by lia. cbn [seq IngestHandler.put_loop].
    unfold try_except, bind, now_iso, unpack_mapping, ret, call_put_vectors.
    cbn beta iota. cbn [s3_calls]. rewrite Hcall, Hnf, Had.
    replace (Z.of_nat a <? Z.of_nat attempts - 1)%Z with false
      by (symmetry; apply Z.ltb_ge; lia).
    unfold raise, after_store, backoff, attempted_records. cbn.
    rewrite app_nil_r. reflexivity.
  - pose proof (Hfail 0 ltac:(lia)) as H0. rewrite Nat.add_0_r in H0.
    destruct (put_vectors E (s3_calls st)) as [[]|[code0 msg0| | | |]] eqn:Hcall;
      try discriminate.
    destruct (store_verdict_transient E code0 msg0 H0) as [Hnf Had].
    set (r0 := {| rec_key := vector_id; rec_data := embedding;
                  rec_metadata :=
                    IngestHandler.record_metadata text (utcnow E (ticks st)) md |}).
    destruct (IH (S a) (delay * 2)%Z (after_store st 1 1 [delay] [r0]))
      as (code & msg & Hlast & Hrun).
    + lia.
    + intros i Hi. cbn [after_store s3_calls Nat.add].
      rewrite <- Nat.add_succ_r. apply Hfail. lia.
    + exists code, msg. split.
      * cbn [after_store s3_calls Nat.add] in Hlast.
        rewrite Nat.add_succ_r. exact Hlast.
      * rewrite seq_open by lia. cbn [IngestHandler.put_loop].
        unfold try_except at 1. unfold bind at 1 2 3.
        unfold now_iso at 1. unfold unpack_mapping at 1. unfold ret at 1.
        unfold call_put_vectors at 1. cbn beta iota. cbn [s3_calls].
        rewrite Hcall, Hnf, Had.
        replace (Z.of_nat a <? Z.of_nat attempts - 1)%Z with true
          by (symmetry; apply Z.ltb_lt; lia).
        unfold bind at 1. unfold sleep at 1.
        match goal with |- IngestHandler.put_loop _ _ _ _ _ _ _ _ ?s = _ =>
          change s with (after_store st 1 1 [delay] [r0]) end.
        rewrite Hrun. cbn [after_store ticks Nat.add]. subst r0.
        rewrite after_store_step, <- backoff_cons, <- attempted_records_cons.
        reflexivity.
Qed.

(** The Lambda upsert loop on a not-found or access-denied answer: that one
    call, no sleep, and the error response at once. *)
Lemma put_loop_terminal_fault (E : env) (vector_id : string) (embedding text : pyval)
    (md : gmap string pyval) (st : state) (code : option string) (msg : string) :
  put_vectors E (s3_calls st) = Raise (ClientError code msg) ->
  is_not_found code || is_access_denied code = true ->
  exists r st',
    IngestHandler.put_loop E vector_id embedding text (PDict md) 3 (seq 0 3) 1 st
    = (Ok (Return r), st')
    /\ (statusCode r = 404 \/ statusCode r = 403)%Z
    /\ s3_calls st' = S (s3_calls st)
    /\ slept st' = slept st.
Proof.
  intros Hcall Hterm.
  assert (is_transient_store_error (put_vectors E (s3_calls st + 0)) = false) as Hend.
  { rewrite Nat.add_0_r, Hcall. cbn.
    destruct (is_not_found code), (is_access_denied code); try reflexivity.
    discriminate. }
  pose proof (put_loop_decides E vector_id embedding text md 3 0 0 1%Z st
                ltac:(lia) ltac:(intros i Hi; lia) Hend) as H.
  rewrite Nat.add_0_r, Hcall in H. cbn [Nat.sub] in H. rewrite H.
  cbn [store_verdict].
  destruct (is_not_found code); [|destruct (is_access_denied code); [|discriminate]].
  - eexists _, _. split; [reflexivity|]. cbn. rewrite app_nil_r. auto.
  - eexists _, _. split; [reflexivity|]. cbn. rewrite app_nil_r. auto.
Qed.

(** The batch script's [put_vector] on a not-found answer: one call, no
    sleep, a [RuntimeError] naming index and bucket. *)
Lemma put_vector_not_found (E : env) (vector_id : string) (embedding : pyval)
    (md : gmap string pyval) (st : state) (msg : string) :
  put_vectors E (s3_calls st) = Raise (ClientError (Some "NotFoundException") msg) ->
  IngestFromFile.put_vector E vector_id embedding md st
  = (Raise (RuntimeError (index_not_found_msg E)),
     after_store st 1 0 []
       [{| rec_key := vector_id; rec_data := embedding; rec_metadata := md |}]).
Proof.
  intros Hcall. unfold IngestFromFile.put_vector, IngestFromFile.put_vector_with.
  cbn [seq IngestFromFile.put_vector_loop].
  unfold try_except, call_put_vectors. rewrite Hcall. cbn.
  unfold after_store. cbn. rewrite app_nil_r. reflexivity.
Qed.

Lemma put_vector_loop_retry (E : env) (vector_id : string) (embedding : pyval)
    (md : gmap string pyval) (attempts attempt : nat) (rest : list nat) (delay : Z)
    (st : state) (code : option string) (msg : string) :
  put_vectors E (s3_calls st) = Raise (ClientError code msg) ->
  is_not_found code = false ->
  (Z.of_nat attempt < Z.of_nat attempts - 1)%Z ->
  IngestFromFile.put_vector_loop E vector_id embedding md attempts (attempt :: rest) delay st
  = IngestFromFile.put_vector_loop E vector_id embedding md attempts rest (delay * 2)%Z
      (after_store st 1 0 [delay]
         [{| rec_key := vector_id; rec_data := embedding; rec_metadata := md |}]).
Proof.
  intros Hcall Hnf Hlt. cbn [IngestFromFile.put_vector_loop].
  unfold try_except at 1. unfold call_put_vectors at 1. rewrite Hcall, Hnf.
  replace (Z.of_nat attempt <? Z.of_nat attempts - 1)%Z with true
    by (symmetry; apply Z.ltb_lt; lia).
  reflexivity.
Qed.

Lemma put_vector_loop_last (E : env) (vector_id : string) (embedding : pyval)
    (md : gmap string pyval) (attempts attempt : nat) (rest : list nat) (delay : Z)
    (st : state) (code : option string) (msg : string) :
  put_vectors E (s3_calls st) = Raise (ClientError code msg) ->
  is_not_found code = false ->
  (Z.of_nat attempts - 1 <= Z.of_nat attempt)%Z ->
  IngestFromFile.put_vector_loop E vector_id embedding md attempts (attempt :: rest) delay st
  = (Raise (ClientError code msg),
     after_store st 1 0 []
       [{| rec_key := vector_id; rec_data := embedding; rec_metadata := md |}]).
Proof.
  intros Hcall Hnf Hge. cbn [IngestFromFile.put_vector_loop].
  unfold try_except at 1. unfold call_put_vectors at 1. rewrite Hcall, Hnf.
  replace (Z.of_nat attempt <? Z.of_nat attempts - 1)%Z with false
    by (symmetry; apply Z.ltb_ge; lia).
  unfold raise, after_store. cbn. rewrite app_nil_r. reflexivity.
Qed.

(** The batch script's [put_vector] retries an access-denied answer like any
    other [ClientError]. *)
Lemma put_vector_access_denied_general (E : env) (vector_id : string) (embedding : pyval)
    (md : gmap string pyval) (st : state) (m0 m1 m2 : string) :
  put_vectors E (s3_calls st) = Raise (ClientError (Some "AccessDeniedException") m0) ->
  put_vectors E (S (s3_calls st)) = Raise (ClientError (Some "AccessDeniedException") m1) ->
  put_vectors E (S (S (s3_calls st))) = Raise (ClientError (Some "AccessDeniedException") m2) ->
  IngestFromFile.put_vector E vector_id embedding md st
  = (Raise (ClientError (Some "AccessDeniedException") m2),
     after_store st 3 0 [1; 2]%Z
       (replicate 3 {| rec_key := vector_id; rec_data := embedding; rec_metadata := md |})).
Proof.
  intros H0 H1 H2. unfold IngestFromFile.put_vector, IngestFromFile.put_vector_with.
  cbn [seq].
  erewrite put_vector_loop_retry by (first [exact H0 | reflexivity | lia]).
  erewrite put_vector_loop_retry by (first [exact H1 | reflexivity | lia]).
  erewrite put_vector_loop_last by (first [exact H2 | reflexivity | lia]).
  unfold after_store. cbn. rewrite <- !app_assoc. reflexivity.
Qed.

(** C3 (code defect): a store fault classified access-denied must surface
    after exactly one attempt and no sleep, as in the Lambda handlers.
    [put_vector] of the batch script, against a store that answers
    [AccessDeniedException], makes three attempts and sleeps 1 then 2 time
    units before raising. *)
Theorem put_vector_retries_access_denied :
  let W := Fixtures.world Fixtures.sm_nested (fun _ => Raise Fixtures.denied) Fixtures.q_none in
  let run := IngestFromFile.put_vector W "id-0" Fixtures.vec ∅ init_state in
  fst run = Raise Fixtures.denied
  /\ s3_calls (snd run) = 3
  /\ slept (snd run) = [1; 2]%Z
  /\ is_access_denied (Some "AccessDeniedException") = true.
Proof. cbv zeta. repeat split; reflexivity. Qed.

(** ** Module load *)




(** ** The result count of the search handler *)

Lemma validate_k_cases (E : env) (k : pyval) :
  (py_int E k = None -> SearchHandler.validate_k E k = 5%Z)
  /\ (forall z, py_int E k = Some z -> (z <= 0)%Z -> SearchHandler.validate_k E k = 5%Z)
  /\ (forall z, py_int E k = Some z -> (50 < z)%Z -> SearchHandler.validate_k E k = 50%Z)
  /\ (forall z, py_int E k = Some z -> (1 <= z <= 50)%Z -> SearchHandler.validate_k E k = z).
Proof.
  unfold SearchHandler.validate_k.
  repeat split.
  - intros ->. reflexivity.
  - intros z -> Hz. replace (z <=? 0)%Z with true by (symmetry; apply Z.leb_le; lia).
    reflexivity.
  - intros z -> Hz. replace (z <=? 0)%Z with false by (symmetry; apply Z.leb_gt; lia).
    replace (50 <? z)%Z with true by (symmetry; apply Z.ltb_lt; lia). reflexivity.
  - intros z -> Hz. replace (z <=? 0)%Z with false by (symmetry; apply Z.leb_gt; lia).
    replace (50 <? z)%Z with false by (symmetry; apply Z.ltb_ge; lia). reflexivity.
Qed.

Lemma validate_k_range (E : env) (k : pyval) :
  (1 <= SearchHandler.validate_k E k <= 50)%Z.
Proof.
  unfold SearchHandler.validate_k.
  destruct (py_int E k) as [z|]; [|cbn; lia].
  destruct (Z.leb_spec z 0); [cbn; lia|].
  destruct (Z.ltb_spec 50 z); lia.
Qed.

(** The search handler sends at most one query, and its [topK] is the
    validated count. *)
Lemma search_handler_queries (E : env) (event : gmap string pyval) (st : state) :
  let st' := snd (SearchHandler.lambda_handler E event st) in
  queries st' = queries st
  \/ exists v k, queries st' = queries st ++ [(v, SearchHandler.validate_k E k)].
Proof.
  cbn zeta.
  pose proof (embedding_loop_frame E normalize_lambda 3 (seq 0 3) 1%Z st) as Hframe.
  cbn zeta in Hframe. destruct Hframe as (_ & _ & _ & _ & _ & Hq & _).
  destruct (SearchHandler.lambda_handler E event st) as [out st'] eqn:Hrun.
  cbn [snd].
  unfold SearchHandler.lambda_handler, SearchLambda.get_embedding, parse_body,
    bind, try_except, py_get, ret, raise, call_query_vectors in Hrun.
  destruct (decoded_body E event) as [b|e]; [|injection Hrun as _ <-; left; reflexivity].
  destruct b; try (injection Hrun as _ <-; left; reflexivity).
  destruct (negb (truthy (default PNone (d !! "query"))));
    [injection Hrun as _ <-; left; reflexivity|].
  destruct (embedding_loop E normalize_lambda 3 (seq 0 3) 1 st) as [[emb|e] st1];
    cbn [snd] in Hq; [|injection Hrun as _ <-; left; exact Hq].
  destruct (invalid_embedding emb); [injection Hrun as _ <-; left; exact Hq|].
  right. exists emb, (default (PInt 5) (d !! "k")).
  destruct (query_vectors E (q_calls st1)) as [vs|e].
  - injection Hrun as _ <-. cbn. rewrite Hq. reflexivity.
  - destruct e as [code msg| | | |];
      try (injection Hrun as _ <-; cbn; rewrite Hq; reflexivity).
    destruct (is_not_found code); [injection Hrun as _ <-; cbn; rewrite Hq; reflexivity|].
    destruct (is_access_denied code); injection Hrun as _ <-; cbn; rewrite Hq; reflexivity.
Qed.

(** C6: whatever [k] the request carries, the count given to the store query
    lies in [1, 50]; a request without [k] asks for 5; every query the search
    handler sends carries such a count. *)
Theorem topk_within_bounds (E : env) (event : gmap string pyval) (st : state) (k : pyval) :
  (1 <= SearchHandler.validate_k E k <= 50)%Z
  /\ SearchHandler.validate_k E (default (PInt 5) (@None pyval)) = 5%Z
  /\ Forall (fun q : pyval * Z => (1 <= q.2 <= 50)%Z)
       (drop (length (queries st))
             (queries (snd (SearchHandler.lambda_handler E event st)))).
Proof.
  split; [apply validate_k_range|]. split; [reflexivity|].
  destruct (search_handler_queries E event st) as [H|(v & k' & H)]; rewrite H.
  - rewrite drop_all. constructor.
  - rewrite drop_app_length. constructor; [|constructor].
    cbn. apply validate_k_range.
Qed.

(** C7, counterexample: [k = 100] is out of range and is clamped to 50, not
    replaced by the default 5. *)
Lemma topk_above_range_is_clamped :
  let W := Fixtures.world Fixtures.sm_nested Fixtures.s3_ok Fixtures.q_none in
  (50 < 100)%Z
  /\ SearchHandler.validate_k W (PInt 100) = 50%Z
  /\ SearchHandler.validate_k W (PInt 100) <> 5%Z.
Proof.
  cbv zeta. split; [reflexivity|]. split; [reflexivity|].
  intros H. vm_compute in H. discriminate.
Qed.

(** C7 (amended): a [k] that [int] rejects, or that is zero or negative,
    becomes the default 5 without an error; a [k] above 50 becomes 50; a [k]
    in range is kept. *)
Theorem topk_coercion (E : env) (k : pyval) :
  (py_int E k = None -> SearchHandler.validate_k E k = 5%Z)
  /\ (forall z, py_int E k = Some z -> (z <= 0)%Z -> SearchHandler.validate_k E k = 5%Z)
  /\ (forall z, py_int E k = Some z -> (50 < z)%Z -> SearchHandler.validate_k E k = 50%Z)
  /\ (forall z, py_int E k = Some z -> (1 <= z <= 50)%Z -> SearchHandler.validate_k E k = z).
Proof. apply validate_k_cases. Qed.

Lemma topk_coercion_witness :
  let W := Fixtures.world Fixtures.sm_nested Fixtures.s3_ok Fixtures.q_none in
  SearchHandler.validate_k W (PStr "many") = 5%Z
  /\ SearchHandler.validate_k W (PFloat (-2.5)) = 5%Z
  /\ SearchHandler.validate_k W (PStr "75") = 50%Z.
Proof.
  cbv zeta. split; [|split].
  - apply (proj1 (topk_coercion _ (PStr "many"))). reflexivity.
  - apply (proj1 (proj2 (topk_coercion _ (PFloat (-2.5)))) (-2)%Z); [reflexivity|lia].
  - apply (proj1 (proj2 (proj2 (topk_coercion _ (PStr "75")))) 75%Z); [reflexivity|lia].
Defined.

(** ** Status mapping of the Lambda ingest handler *)

Ltac open_handler :=
  unfold IngestHandler.lambda_handler, IngestHandler.handler_try, parse_body,
    try_except, bind, py_get, py_slice_prefix, ret, raise.

Lemma handler_body_undecodable (E : env) (event : gmap string pyval) (st : state) (e : exn) :
  decoded_body E event = Raise e ->
  IngestHandler.lambda_handler E event st = (Ok (error_response 500 (str_exn e)), st).
Proof. intros H. open_handler. rewrite H. reflexivity. Qed.

Lemma handler_body_not_a_dict (E : env) (event : gmap string pyval) (st : state) (b : pyval) :
  decoded_body E event = Ok b ->
  (forall d, b <> PDict d) ->
  exists msg,
    IngestHandler.lambda_handler E event st = (Ok (error_response 500 msg), st).
Proof.
  intros H Hb. open_handler. rewrite H.
  destruct b; try (eexists; reflexivity). destruct (Hb d eq_refl).
Qed.

Lemma handler_text_falsy (E : env) (event : gmap string pyval) (st : state)
    (d : gmap string pyval) :
  decoded_body E event = Ok (PDict d) ->
  truthy (default PNone (d !! "text")) = false ->
  IngestHandler.lambda_handler E event st
  = (Ok (error_response 400 "Missing required field: text"), st).
Proof. intros H Ht. open_handler. rewrite H, Ht. reflexivity. Qed.

Lemma handler_text_not_sliceable (E : env) (event : gmap string pyval) (st : state)
    (d : gmap string pyval) (text : pyval) :
  decoded_body E event = Ok (PDict d) ->
  d !! "text" = Some text ->
  truthy text = true ->
  sliceable text = false ->
  exists msg,
    IngestHandler.lambda_handler E event st = (Ok (error_response 500 msg), st).
Proof.
  intros H Ht Htr Hs. open_handler. rewrite H, Ht. cbn [from_option id].
  rewrite Htr. cbn [negb].
  destruct text; try discriminate Hs; eexists; reflexivity.
Qed.

Lemma handler_embedding_raises (E : env) (event : gmap string pyval) (st st1 : state)
    (d : gmap string pyval) (text : pyval) (e : exn) :
  decoded_body E event = Ok (PDict d) ->
  d !! "text" = Some text ->
  truthy text = true ->
  sliceable text = true ->
  IngestLambda.get_embedding E text st = (Raise e, st1) ->
  IngestHandler.lambda_handler E event st = (Ok (error_response 500 (str_exn e)), st1).
Proof.
  intros H Ht Htr Hs Hemb. open_handler. rewrite H, Ht. cbn [from_option id].
  rewrite Htr. cbn [negb].
  destruct text; try discriminate Hs; cbn beta iota; rewrite Hemb; reflexivity.
Qed.

Lemma handler_embedding_invalid (E : env) (event : gmap string pyval) (st st1 : state)
    (d : gmap string pyval) (text emb : pyval) :
  decoded_body E event = Ok (PDict d) ->
  d !! "text" = Some text ->
  truthy text = true ->
  sliceable text = true ->
  IngestLambda.get_embedding E text st = (Ok emb, st1) ->
  invalid_embedding emb = true ->
  IngestHandler.lambda_handler E event st
  = (Ok (error_response 500 "Invalid embedding returned from SageMaker"), st1).
Proof.
  intros H Ht Htr Hs Hemb Hinv. open_handler. rewrite H, Ht. cbn [from_option id].
  rewrite Htr. cbn [negb].
  destruct text; try discriminate Hs; cbn beta iota; rewrite Hemb, Hinv;
    reflexivity.
Qed.

(** From the store on, the handler is its upsert loop. *)
Lemma handler_at_store (E : env) (event : gmap string pyval) (st st1 : state)
    (d : gmap string pyval) (text metadata emb : pyval) :
  decoded_body E event = Ok (PDict d) ->
  d !! "text" = Some text ->
  truthy text = true ->
  sliceable text = true ->
  default (PDict ∅) (d !! "metadata") = metadata ->
  IngestLambda.get_embedding E text st = (Ok emb, st1) ->
  invalid_embedding emb = false ->
  IngestHandler.lambda_handler E event st
  = match IngestHandler.put_loop E (uuid4 E (ids st1)) emb text metadata
            3 (seq 0 3) 1 (after_uuid st1) with
    | (Ok (Return r), s) => (Ok r, s)
    | (Ok Break, s) => (Ok (indexed_response (uuid4 E (ids st1))), s)
    | (Raise e, s) => (Ok (error_response 500 (str_exn e)), s)
    end.
Proof.
  intros H Ht Htr Hs Hmd Hemb Hinv. open_handler. rewrite H, Ht, Hmd.
  cbn [from_option id]. rewrite Htr. cbn [negb].
  destruct text; try discriminate Hs; cbn beta iota; rewrite Hemb, Hinv;
    unfold new_uuid; fold (after_uuid st1);
    destruct (IngestHandler.put_loop E (uuid4 E (ids st1)) emb _ metadata
                3 (seq 0 3) 1 (after_uuid st1)) as [[[|r]|e] st2]; reflexivity.
Qed.

Lemma put_loop_metadata_not_a_dict (E : env) (vector_id : string)
    (embedding text metadata : pyval) (st : state) :
  (forall md, metadata <> PDict md) ->
  exists msg st',
    IngestHandler.put_loop E vector_id embedding text metadata 3 (seq 0 3) 1 st
    = (Raise (TypeError msg), st')
    /\ s3_calls st' = s3_calls st.
Proof.
  intros Hmd. cbn [seq IngestHandler.put_loop].
  unfold try_except, bind, now_iso, unpack_mapping, raise.
  destruct metadata; try (eexists _, _; split; reflexivity).
  destruct (Hmd d eq_refl).
Qed.

(** The answers of the store from some call on: all [k] transient, or a
    first one that is not. *)
Lemma store_answers_cases (E : env) (st : state) (k : nat) :
  store_fails E st k
  \/ exists n, n < k /\ store_fails E st n
               /\ is_transient_store_error (put_vectors E (s3_calls st + n)) = false.
Proof.
  induction k as [|k [IH|(n & Hn & Hf & He)]].
  - left. intros i Hi. lia.
  - destruct (is_transient_store_error (put_vectors E (s3_calls st + k))) eqn:Hk.
    + left. intros i Hi. destruct (decide (i = k)) as [->|]; [exact Hk|apply IH; lia].
    + right. exists k. auto.
  - right. exists n. split; [lia|auto].
Qed.

Lemma handler_never_raises (E : env) (event : gmap string pyval) (st : state) :
  exists r st', IngestHandler.lambda_handler E event st = (Ok r, st').
Proof.
  unfold IngestHandler.lambda_handler, try_except.
  destruct (IngestHandler.handler_try E event st) as [[r|e] s]; eexists _, _; reflexivity.
Qed.

(** The handler's answer once the store has given the answer that ends the
    upsert loop, after [n < 3] transient failures. *)
Lemma handler_store_decides (E : env) (event : gmap string pyval) (st st1 : state)
    (text emb : pyval) (md : gmap string pyval) (n : nat) :
  reaches_store E event st text md emb st1 ->
  n < 3 ->
  store_fails E st1 n ->
  is_transient_store_error (put_vectors E (s3_calls st1 + n)) = false ->
  fst (IngestHandler.lambda_handler E event st)
  = match store_verdict E (put_vectors E (s3_calls st1 + n)) with
    | Ok (Return r) => Ok r
    | Ok Break => Ok (indexed_response (uuid4 E (ids st1)))
    | Raise e => Ok (error_response 500 (str_exn e))
    end.
Proof.
  intros (d & Hb & Ht & Htr & Hs & Hmd & Hemb & Hinv) Hn Hf He.
  rewrite (handler_at_store E event st st1 d text (PDict md) emb Hb Ht Htr Hs Hmd Hemb Hinv).
  pose proof (put_loop_decides E (uuid4 E (ids st1)) emb text md 3 n 0 1%Z
                (after_uuid st1) ltac:(lia) Hf He) as Hd.
  cbn [Nat.sub] in Hd. rewrite Hd.
  change (s3_calls (after_uuid st1)) with (s3_calls st1).
  destruct (store_verdict E (put_vectors E (s3_calls st1 + n))) as [[|r]|e]; reflexivity.
Qed.

Lemma handler_store_gives_up (E : env) (event : gmap string pyval) (st st1 : state)
    (text emb : pyval) (md : gmap string pyval) :
  reaches_store E event st text md emb st1 ->
  store_fails E st1 3 ->
  exists code msg,
    put_vectors E (s3_calls st1 + 2) = Raise (ClientError code msg)
    /\ fst (IngestHandler.lambda_handler E event st) = Ok (error_response 500 msg).
Proof.
  intros (d & Hb & Ht & Htr & Hs & Hmd & Hemb & Hinv) Hf.
  destruct (put_loop_gives_up E (uuid4 E (ids st1)) emb text md 3 2 0 1%Z
              (after_uuid st1) eq_refl Hf) as (code & msg & Hlast & Hrun).
  exists code, msg. split; [exact Hlast|].
  rewrite (handler_at_store E event st st1 d text (PDict md) emb Hb Ht Htr Hs Hmd Hemb Hinv).
  cbn [Nat.sub] in Hrun. rewrite Hrun. reflexivity.
Qed.

(** A 200 answer comes from a stored record only. *)
Lemma handler_ok_only_when_stored (E : env) (event : gmap string pyval) (st : state)
    (r : response) :
  fst (IngestHandler.lambda_handler E event st) = Ok r ->
  statusCode r = 200%Z ->
  exists text md emb st1 n,
    reaches_store E event st text md emb st1
    /\ n < 3
    /\ store_fails E st1 n
    /\ put_vectors E (s3_calls st1 + n) = Ok tt
    /\ r = indexed_response (uuid4 E (ids st1)).
Proof.
  intros Hr Hst.
  destruct (decoded_body E event) as [b|e] eqn:Hb.
  2: { rewrite (handler_body_undecodable E event st e Hb) in Hr.
       injection Hr as <-. discriminate Hst. }
  assert ((exists d, b = PDict d) \/ forall d, b <> PDict d) as [[d ->]|Hnd]
    by (destruct b; eauto; right; discriminate).
  2: { destruct (handler_body_not_a_dict E event st b Hb Hnd) as [msg Hm].
       rewrite Hm in Hr. injection Hr as <-. discriminate Hst. }
  destruct (truthy (default PNone (d !! "text"))) eqn:Htr.
  2: { rewrite (handler_text_falsy E event st d Hb Htr) in Hr.
       injection Hr as <-. discriminate Hst. }
  destruct (d !! "text") as [text|] eqn:Ht; [|discriminate Htr].
  cbn [from_option id] in Htr.
  destruct (sliceable text) eqn:Hs.
  2: { destruct (handler_text_not_sliceable E event st d text Hb Ht Htr Hs) as [msg Hm].
       rewrite Hm in Hr. injection Hr as <-. discriminate Hst. }
  destruct (IngestLambda.get_embedding E text st) as [[emb|e] st1] eqn:Hemb.
  2: { rewrite (handler_embedding_raises E event st st1 d text e Hb Ht Htr Hs Hemb) in Hr.
       injection Hr as <-. discriminate Hst. }
  destruct (invalid_embedding emb) eqn:Hinv.
  1: { rewrite (handler_embedding_invalid E event st st1 d text emb Hb Ht Htr Hs Hemb Hinv)
         in Hr.
       injection Hr as <-. discriminate Hst. }
  assert ((exists md, default (PDict ∅) (d !! "metadata") = PDict md)
          \/ forall md, default (PDict ∅) (d !! "metadata") <> PDict md) as [[md Hmd]|Hnm]
    by (destruct (default (PDict ∅) (d !! "metadata")); eauto; right; discriminate).
  2: { rewrite (handler_at_store E event st st1 d text _ emb Hb Ht Htr Hs eq_refl Hemb Hinv)
         in Hr.
       destruct (put_loop_metadata_not_a_dict E (uuid4 E (ids st1)) emb text _
                   (after_uuid st1) Hnm) as (msg & s & Hp & _).
       rewrite Hp in Hr. injection Hr as <-. discriminate Hst. }
  assert (reaches_store E event st text md emb st1) as Hreach
    by (exists d; repeat split; assumption).
  destruct (store_answers_cases E st1 3) as [Hall|(n & Hn & Hf & He)].
  - destruct (handler_store_gives_up E event st st1 text emb md Hreach Hall)
      as (code & msg & _ & Hm).
    rewrite Hm in Hr. injection Hr as <-. discriminate Hst.
  - rewrite (handler_store_decides E event st st1 text emb md n Hreach Hn Hf He) in Hr.
    destruct (put_vectors E (s3_calls st1 + n)) as [[]|e] eqn:Hput.
    + injection Hr as <-. exists text, md, emb, st1, n. auto.
    + destruct e as [code msg| | | |]; cbn [store_verdict] in Hr;
        try (injection Hr as <-; discriminate Hst).
      cbn in He.
      destruct (is_not_found code); [injection Hr as <-; discriminate Hst|].
      destruct (is_access_denied code); [injection Hr as <-; discriminate Hst|].
      discriminate He.
Qed.

(** C8: the single-document ingest handler always answers with a response;
    a missing [text] gives 400; an empty or non-list embedding gives 500; a
    store not-found fault gives 404 with a message naming index and bucket;
    an access-denied fault gives 403; any other fault (of the store, of the
    embedding client, or anywhere in the body) gives 500 with the fault's
    message; and 200 with the [document_id] is given exactly when the record
    was stored. *)
Theorem ingest_handler_status_mapping (E : env) (event : gmap string pyval) (st : state) :
  (exists r st', IngestHandler.lambda_handler E event st = (Ok r, st'))
  /\ (forall d,
      decoded_body E event = Ok (PDict d) ->
      d !! "text" = None ->
      IngestHandler.lambda_handler E event st
      = (Ok (error_response 400 "Missing required field: text"), st))
  /\ (forall d text emb st1,
      decoded_body E event = Ok (PDict d) ->
      d !! "text" = Some text -> truthy text = true -> sliceable text = true ->
      IngestLambda.get_embedding E text st = (Ok emb, st1) ->
      isinstance_list emb = false \/ py_len emb = 0 ->
      IngestHandler.lambda_handler E event st
      = (Ok (error_response 500 "Invalid embedding returned from SageMaker"), st1))
  /\ (forall text md emb st1 n,
      reaches_store E event st text md emb st1 ->
      n < 3 ->
      store_fails E st1 n ->
      (forall code msg,
          put_vectors E (s3_calls st1 + n) = Raise (ClientError code msg) ->
          is_not_found code = true ->
          fst (IngestHandler.lambda_handler E event st)
          = Ok (error_response 404
                  ("Index '" +:+ INDEX_NAME E +:+ "' not found in bucket '"
                   +:+ VECTOR_BUCKET E +:+ "'")))
      /\ (forall code msg,
          put_vectors E (s3_calls st1 + n) = Raise (ClientError code msg) ->
          is_not_found code = false ->
          is_access_denied code = true ->
          fst (IngestHandler.lambda_handler E event st)
          = Ok (error_response 403 access_denied_msg))
      /\ (forall e,
          put_vectors E (s3_calls st1 + n) = Raise e ->
          is_client_error (Raise (A:=unit) e) = false ->
          fst (IngestHandler.lambda_handler E event st)
          = Ok (error_response 500 (str_exn e)))
      /\ (put_vectors E (s3_calls st1 + n) = Ok tt ->
          fst (IngestHandler.lambda_handler E event st)
          = Ok (indexed_response (uuid4 E (ids st1)))
          /\ statusCode (indexed_response (uuid4 E (ids st1))) = 200%Z
          /\ body (indexed_response (uuid4 E (ids st1))) !! "document_id"
             = Some (PStr (uuid4 E (ids st1)))))
  /\ (forall text md emb st1,
      reaches_store E event st text md emb st1 ->
      store_fails E st1 3 ->
      exists code msg,
        put_vectors E (s3_calls st1 + 2) = Raise (ClientError code msg)
        /\ fst (IngestHandler.lambda_handler E event st) = Ok (error_response 500 msg))
  /\ (forall d text e st1,
      decoded_body E event = Ok (PDict d) ->
      d !! "text" = Some text -> truthy text = true -> sliceable text = true ->
      IngestLambda.get_embedding E text st = (Raise e, st1) ->
      IngestHandler.lambda_handler E event st
      = (Ok (error_response 500 (str_exn e)), st1))
  /\ (forall e st1,
      IngestHandler.handler_try E event st = (Raise e, st1) ->
      IngestHandler.lambda_handler E event st
      = (Ok (error_response 500 (str_exn e)), st1))
  /\ (forall r,
      fst (IngestHandler.lambda_handler E event st) = Ok r ->
      statusCode r = 200%Z ->
      exists text md emb st1 n,
        reaches_store E event st text md emb st1
        /\ n < 3
        /\ store_fails E st1 n
        /\ put_vectors E (s3_calls st1 + n) = Ok tt
        /\ r = indexed_response (uuid4 E (ids st1))).
Proof.
  split; [apply handler_never_raises|].
  split.
  { intros d Hb Ht. apply (handler_text_falsy E event st d Hb). rewrite Ht. reflexivity. }
  split.
  { intros d text emb st1 Hb Ht Htr Hs Hemb Hinv.
    apply (handler_embedding_invalid E event st st1 d text emb Hb Ht Htr Hs Hemb).
    unfold invalid_embedding. destruct Hinv as [-> | ->]; [reflexivity|].
    apply orb_true_r. }
  split.
  { intros text md emb st1 n Hreach Hn Hf. split; [|split; [|split]].
    - intros code msg Hput Hnf.
      rewrite (handler_store_decides E event st st1 text emb md n Hreach Hn Hf), Hput.
      + cbn [store_verdict]. rewrite Hnf. reflexivity.
      + rewrite Hput. cbn. rewrite Hnf. reflexivity.
    - intros code msg Hput Hnf Had.
      rewrite (handler_store_decides E event st st1 text emb md n Hreach Hn Hf), Hput.
      + cbn [store_verdict]. rewrite Hnf, Had. reflexivity.
      + rewrite Hput. cbn. rewrite Hnf, Had. reflexivity.
    - intros e Hput Hce.
      rewrite (handler_store_decides E event st st1 text emb md n Hreach Hn Hf), Hput.
      + destruct e; try discriminate Hce; reflexivity.
      + rewrite Hput. destruct e; try discriminate Hce; reflexivity.
    - intros Hput. split; [|split; [reflexivity|]].
      + rewrite (handler_store_decides E event st st1 text emb md n Hreach Hn Hf), Hput.
        * reflexivity.
        * rewrite Hput. reflexivity.
      + unfold indexed_response. cbn [body].
        rewrite lookup_insert_ne by discriminate. apply lookup_insert_eq. }
  split.
  { intros text md emb st1 Hreach Hf.
    exact (handler_store_gives_up E event st st1 text emb md Hreach Hf). }
  split.
  { intros d text e st1 Hb Ht Htr Hs Hemb.
    exact (handler_embedding_raises E event st st1 d text e Hb Ht Htr Hs Hemb). }
  split.
  { intros e st1 Hrun. unfold IngestHandler.lambda_handler, try_except.
    rewrite Hrun. reflexivity. }
  apply handler_ok_only_when_stored.
Qed.

(** A request whose index is missing in the store: 404 naming both. *)
Lemma ingest_handler_status_mapping_witness :
  let W := Fixtures.world Fixtures.sm_nested (fun _ => Raise Fixtures.missing)
             Fixtures.q_none in
  let event := Fixtures.event_of {[ "text" := PStr "Gru" ]} in
  fst (IngestHandler.lambda_handler W event init_state)
  = Ok (error_response 404 "Index 'index' not found in bucket 'bucket'").
Proof.
  cbv zeta.
  refine (proj1 (proj1 (proj2 (proj2 (proj2 (ingest_handler_status_mapping _ _ init_state))))
                  (PStr "Gru") ∅ Fixtures.vec
                  (snd (IngestLambda.get_embedding
                          (Fixtures.world Fixtures.sm_nested (fun _ => Raise Fixtures.missing)
                             Fixtures.q_none) (PStr "Gru") init_state))
                  0 _ _ _) (Some "NotFoundException") "no such index" _ _).
  - exists {[ "text" := PStr "Gru" ]}. repeat split; reflexivity.
  - lia.
  - intros i Hi. lia.
  - reflexivity.
  - reflexivity.
Defined.

(** ** Caller metadata is merged last *)

Lemma record_metadata_caller_wins (text : pyval) (ts : string) (md : gmap string pyval)
    (k : string) (v : pyval) :
  md !! k = Some v ->
  IngestHandler.record_metadata text ts md !! k = Some v.
Proof.
  intros H. unfold IngestHandler.record_metadata, dict_update.
  apply lookup_union_Some_l. exact H.
Qed.

Lemma record_metadata_injected (text : pyval) (ts : string) (md : gmap string pyval) :
  (md !! "text" = None -> IngestHandler.record_metadata text ts md !! "text" = Some text)
  /\ (md !! "timestamp" = None ->
      IngestHandler.record_metadata text ts md !! "timestamp" = Some (PStr ts)).
Proof.
  unfold IngestHandler.record_metadata, dict_update. split; intros H.
  - rewrite lookup_union_r by exact H.
    rewrite lookup_insert_ne by discriminate. apply lookup_insert_eq.
  - rewrite lookup_union_r by exact H. apply lookup_insert_eq.
Qed.

(** Every record the upsert loop sends carries [record_metadata] of the
    caller's map. *)
Lemma put_loop_records (E : env) (vector_id : string) (embedding text : pyval)
    (md : gmap string pyval) (attempts : nat) :
  forall (range : list nat) (delay : Z) (st : state),
    exists new,
      puts (snd (IngestHandler.put_loop E vector_id embedding text (PDict md)
                   attempts range delay st)) = puts st ++ new
      /\ Forall (fun r => exists ts,
                     rec_metadata r = IngestHandler.record_metadata text ts md) new.
Proof.
  induction range as [|attempt rest IH]; intros delay st.
  - exists []. cbn. rewrite app_nil_r. auto.
  - cbn [IngestHandler.put_loop].
    unfold try_except at 1. unfold bind at 1 2 3.
    unfold now_iso at 1. unfold unpack_mapping at 1. unfold ret at 1.
    unfold call_put_vectors at 1. cbn beta iota. cbn [s3_calls].
    set (r0 := {| rec_key := vector_id; rec_data := embedding;
                  rec_metadata :=
                    IngestHandler.record_metadata text (utcnow E (ticks st)) md |}).
    assert (Forall (fun r => exists ts,
                        rec_metadata r = IngestHandler.record_metadata text ts md) [r0])
      as Hr0 by (constructor; [eexists; reflexivity|constructor]).
    destruct (put_vectors E (s3_calls st)) as [[]|e]; [exists [r0]; auto|].
    destruct e as [code msg| | | |]; try (exists [r0]; auto; fail).
    destruct (is_not_found code); [exists [r0]; auto|].
    destruct (is_access_denied code); [exists [r0]; auto|].
    destruct (Z.of_nat attempt <? Z.of_nat attempts - 1)%Z; [|exists [r0]; auto].
    unfold bind at 1. unfold sleep at 1.
    match goal with |- context [IngestHandler.put_loop _ _ _ _ _ _ _ ?d ?s] =>
      destruct (IH d s) as (new & Hnew & Hall) end.
    exists (r0 :: new). split.
    + rewrite Hnew. cbn [puts]. rewrite <- app_assoc. reflexivity.
    + constructor; [eexists; reflexivity|exact Hall].
Qed.

Lemma get_embedding_keeps_puts (E : env) (text : pyval) (st : state) :
  puts (snd (IngestLambda.get_embedding E text st)) = puts st.
Proof.
  unfold IngestLambda.get_embedding.
  pose proof (embedding_loop_frame E normalize_lambda 3 (seq 0 3) 1%Z st) as H.
  cbn zeta in H. tauto.
Qed.

(** The records the ingest handler sends for a request whose metadata is the
    dict [md]. *)
Lemma handler_records (E : env) (event : gmap string pyval) (st : state)
    (d md : gmap string pyval) :
  decoded_body E event = Ok (PDict d) ->
  d !! "metadata" = Some (PDict md) ->
  exists new,
    puts (snd (IngestHandler.lambda_handler E event st)) = puts st ++ new
    /\ Forall (fun r => exists ts,
                   rec_metadata r
                   = IngestHandler.record_metadata (default PNone (d !! "text")) ts md)
         new.
Proof.
  intros Hb Hmd.
  assert (forall s : state, puts s = puts st ->
          exists new, puts s = puts st ++ new
            /\ Forall (fun r => exists ts,
                   rec_metadata r
                   = IngestHandler.record_metadata (default PNone (d !! "text")) ts md)
                 new) as Hnone
    by (intros s Hs; exists []; rewrite app_nil_r; auto).
  destruct (truthy (default PNone (d !! "text"))) eqn:Htr.
  2: { rewrite (handler_text_falsy E event st d Hb Htr). apply Hnone. reflexivity. }
  destruct (d !! "text") as [text|] eqn:Ht; [|discriminate Htr].
  cbn [from_option id] in *.
  destruct (sliceable text) eqn:Hs.
  2: { destruct (handler_text_not_sliceable E event st d text Hb Ht Htr Hs) as [msg Hm].
       rewrite Hm. apply Hnone. reflexivity. }
  pose proof (get_embedding_keeps_puts E text st) as Hkeep.
  destruct (IngestLambda.get_embedding E text st) as [[emb|e] st1] eqn:Hemb;
    cbn [snd] in Hkeep.
  2: { rewrite (handler_embedding_raises E event st st1 d text e Hb Ht Htr Hs Hemb).
       apply Hnone. exact Hkeep. }
  destruct (invalid_embedding emb) eqn:Hinv.
  1: { rewrite (handler_embedding_invalid E event st st1 d text emb Hb Ht Htr Hs Hemb Hinv).
       apply Hnone. exact Hkeep. }
  rewrite (handler_at_store E event st st1 d text (PDict md) emb Hb Ht Htr Hs
             ltac:(rewrite Hmd; reflexivity) Hemb Hinv).
  destruct (put_loop_records E (uuid4 E (ids st1)) emb text md 3 (seq 0 3) 1%Z
              (after_uuid st1)) as (new & Hnew & Hall).
  exists new. split; [|exact Hall].
  destruct (IngestHandler.put_loop E (uuid4 E (ids st1)) emb text (PDict md) 3
              (seq 0 3) 1 (after_uuid st1)) as [[[|r]|e] s2];
    cbn [snd] in *; rewrite Hnew; cbn [after_uuid puts]; rewrite Hkeep; reflexivity.
Qed.

(** The metadata the handler builds is the merge of the statement. *)
Lemma record_metadata_merged (text : pyval) (ts : string) (md : gmap string pyval) :
  merged_metadata text ts md (IngestHandler.record_metadata text ts md).
Proof.
  split; [intros key v Hv; apply record_metadata_caller_wins; exact Hv|].
  split; [apply record_metadata_injected|].
  split; [apply record_metadata_injected|].
  intros key Ht Hs Hmd. unfold IngestHandler.record_metadata, dict_update.
  apply lookup_union_None. split; [exact Hmd|].
  rewrite lookup_insert_ne by congruence. rewrite lookup_insert_ne by congruence.
  apply lookup_empty.
Qed.

(** The upsert loop against any store: [k + 1 <= 3] calls, one clock reading
    and one record per call, the first [k] backoff delays. *)
Lemma put_loop_effects (E : env) (vector_id : string) (embedding text : pyval)
    (md : gmap string pyval) (st : state) :
  exists k,
    k <= 2
    /\ snd (IngestHandler.put_loop E vector_id embedding text (PDict md) 3 (seq 0 3) 1 st)
       = after_store st (k + 1) (k + 1) (backoff 1 k)
           (attempted_records E vector_id embedding text md (ticks st) (k + 1)).
Proof.
  destruct (store_answers_cases E st 3) as [Hall|(n & Hn & Hf & He)].
  - destruct (put_loop_gives_up E vector_id embedding text md 3 2 0 1%Z st eq_refl Hall)
      as (code & msg & _ & Hrun).
    cbn [Nat.sub] in Hrun. exists 2. split; [lia|]. rewrite Hrun. reflexivity.
  - pose proof (put_loop_decides E vector_id embedding text md 3 n 0 1%Z st
                  ltac:(lia) Hf He) as Hrun.
    cbn [Nat.sub] in Hrun. exists n. split; [lia|]. rewrite Hrun. reflexivity.
Qed.

(** A request that reaches the store: the records sent are those of one to
    three attempts, the i-th with the clock reading of its attempt. *)
Lemma handler_sends_attempted_records (E : env) (event : gmap string pyval)
    (st st1 : state) (d md : gmap string pyval) (text emb : pyval) :
  decoded_body E event = Ok (PDict d) ->
  d !! "metadata" = Some (PDict md) ->
  d !! "text" = Some text -> truthy text = true -> sliceable text = true ->
  IngestLambda.get_embedding E text st = (Ok emb, st1) ->
  invalid_embedding emb = false ->
  exists k,
    k <= 2
    /\ puts (snd (IngestHandler.lambda_handler E event st))
       = puts st ++ attempted_records E (uuid4 E (ids st1)) emb text md (ticks st) (k + 1).
Proof.
  intros Hb Hmd Ht Htr Hsl Hemb Hinv.
  pose proof (embedding_loop_frame E normalize_lambda 3 (seq 0 3) 1%Z st) as Hframe.
  cbv zeta in Hframe.
  change (embedding_loop E normalize_lambda 3 (seq 0 3) 1 st)
    with (IngestLambda.get_embedding E text st) in Hframe.
  rewrite Hemb in Hframe. cbn [snd] in Hframe.
  destruct Hframe as (_ & _ & _ & Hticks & Hputs & _).
  rewrite (handler_at_store E event st st1 d text (PDict md) emb Hb Ht Htr Hsl
             ltac:(rewrite Hmd; reflexivity) Hemb Hinv).
  destruct (put_loop_effects E (uuid4 E (ids st1)) emb text md (after_uuid st1))
    as (k & Hk & Heff).
  exists k. split; [exact Hk|].
  destruct (IngestHandler.put_loop E (uuid4 E (ids st1)) emb text (PDict md) 3
              (seq 0 3) 1 (after_uuid st1)) as [[[]|e] st2];
    cbn [snd] in Heff |- *; subst st2;
    cbn [after_store after_uuid puts ticks]; rewrite Hputs, Hticks; reflexivity.
Qed.

(** The test script's [ingest_document] sends, when the endpoint answers,
    one record with the metadata of the handler. *)
Lemma script_ingest_document_record (E : env) (text result : pyval)
    (md : gmap string pyval) (st : state) :
  invoke_endpoint E (sm_calls st) = Ok result ->
  exists r,
    puts (snd (Scripts.ingest_document E text (PDict md) st)) = puts st ++ [r]
    /\ rec_metadata r = IngestHandler.record_metadata text (utcnow E (ticks st)) md.
Proof.
  intros Hans.
  assert (exists md', unpack_mapping (if truthy (PDict md) then PDict md else PDict ∅)
                      = ret md'
                      /\ IngestHandler.record_metadata text (utcnow E (ticks st)) md'
                         = IngestHandler.record_metadata text (utcnow E (ticks st)) md)
    as (md' & Hunpack & Hsame).
  { cbn [truthy]. destruct (Nat.eqb_spec (size md) 0) as [Hsz|Hsz]; cbn [negb].
    - exists ∅. split; [reflexivity|]. apply map_size_empty_iff in Hsz. subst md.
      reflexivity.
    - exists md. split; reflexivity. }
  unfold Scripts.ingest_document, Scripts.get_embedding, bind, py_get, ret,
    call_invoke_endpoint, new_uuid, now_iso, call_put_vectors.
  rewrite Hunpack, Hans. unfold ret. cbn. rewrite Hsame.
  destruct (put_vectors E (s3_calls st)) as [[]|e]; cbn; eexists; split; reflexivity.
Qed.

(** C10: the caller's metadata is merged after the injected [text] and
    [timestamp].  Every record the ingest handler sends carries each of the
    caller's keys with the caller's value.  A request that reaches the store
    sends one to three records (one per attempt), and the metadata of the
    i-th is [{text, timestamp}], with the request's text and the clock
    reading of that attempt, overlaid with the caller's map: a caller's
    [text] or [timestamp] replaces the injected one, an absent one leaves the
    injected value, and there is no other key.  [ingest_document] of the test
    script sends one record with the same merge. *)
Theorem caller_metadata_overrides_injected (E : env) (event : gmap string pyval)
    (st : state) (d md : gmap string pyval) :
  decoded_body E event = Ok (PDict d) ->
  d !! "metadata" = Some (PDict md) ->
  (exists new,
      puts (snd (IngestHandler.lambda_handler E event st)) = puts st ++ new
      /\ Forall (fun r => forall key v, md !! key = Some v ->
                                        rec_metadata r !! key = Some v) new)
  /\ (forall text emb st1,
      d !! "text" = Some text -> truthy text = true -> sliceable text = true ->
      IngestLambda.get_embedding E text st = (Ok emb, st1) ->
      invalid_embedding emb = false ->
      exists recs,
        puts (snd (IngestHandler.lambda_handler E event st)) = puts st ++ recs
        /\ 1 <= length recs <= 3
        /\ forall i r,
            recs !! i = Some r ->
            merged_metadata text (utcnow E (i + ticks st)) md (rec_metadata r))
  /\ (forall text result st2,
      invoke_endpoint E (sm_calls st2) = Ok result ->
      exists r,
        puts (snd (Scripts.ingest_document E text (PDict md) st2)) = puts st2 ++ [r]
        /\ merged_metadata text (utcnow E (ticks st2)) md (rec_metadata r)).
Proof.
  intros Hb Hmd. split; [|split].
  - destruct (handler_records E event st d md Hb Hmd) as (new & Hnew & Hall).
    exists new. split; [exact Hnew|].
    eapply Forall_impl; [exact Hall|].
    intros r [ts ->] key v Hv. apply record_metadata_caller_wins. exact Hv.
  - intros text emb st1 Ht Htr Hsl Hemb Hinv.
    destruct (handler_sends_attempted_records E event st st1 d md text emb
                Hb Hmd Ht Htr Hsl Hemb Hinv) as (k & Hk & Hputs).
    eexists. split; [exact Hputs|].
    unfold attempted_records. rewrite length_map, length_seq.
    split; [lia|].
    intros i r Hi. rewrite list_lookup_fmap in Hi.
    destruct (seq 0 (k + 1) !! i) as [j|] eqn:Hj; [|discriminate Hi].
    apply lookup_seq in Hj as [-> _]. cbn in Hi. injection Hi as <-.
    cbn [rec_metadata]. apply record_metadata_merged.
  - intros text result st2 Hans.
    destruct (script_ingest_document_record E text result md st2 Hans) as (r & Hputs & Hr).
    exists r. split; [exact Hputs|]. rewrite Hr. apply record_metadata_merged.
Qed.

(** A request whose metadata names its own [text] and no [timestamp]: the
    stored record holds the caller's ["override"], not the ingested ["Gru"],
    and the clock reading of the attempt. *)
Lemma caller_metadata_overrides_injected_witness :
  let W := Fixtures.world Fixtures.sm_nested Fixtures.s3_ok Fixtures.q_none in
  let md : gmap string pyval := {[ "text" := PStr "override" ]} in
  let event := Fixtures.event_of {[ "text" := PStr "Gru"; "metadata" := PDict md ]} in
  (exists r, puts (snd (IngestHandler.lambda_handler W event init_state)) = [r]
             /\ rec_metadata r !! "text" = Some (PStr "override")
             /\ rec_metadata r !! "timestamp" = Some (PStr (utcnow W 0)))
  /\ exists recs,
      puts (snd (IngestHandler.lambda_handler W event init_state))
      = puts init_state ++ recs
      /\ 1 <= length recs <= 3
      /\ forall i r,
          recs !! i = Some r ->
          merged_metadata (PStr "Gru") (utcnow W (i + ticks init_state)) md
            (rec_metadata r).
Proof.
  cbv zeta. split.
  - eexists. split; [reflexivity|]. split; reflexivity.
  - refine (proj1 (proj2 (caller_metadata_overrides_injected
                            (Fixtures.world Fixtures.sm_nested Fixtures.s3_ok Fixtures.q_none)
                            (Fixtures.event_of
                               {[ "text" := PStr "Gru";
                                  "metadata" := PDict {[ "text" := PStr "override" ]} ]})
                            init_state
                            {[ "text" := PStr "Gru";
                               "metadata" := PDict {[ "text" := PStr "override" ]} ]}
                            {[ "text" := PStr "override" ]} _ _))
              (PStr "Gru") Fixtures.vec (after_embedding init_state 1 []) _ _ _ _ _);
      reflexivity.
Defined.

(** ** Batch ingestion *)

Lemma file_get_embedding_keeps_printed (E : env) (text : pyval) (st : state) :
  printed (snd (IngestFromFile.get_embedding E text st)) = printed st.
Proof.
  unfold IngestFromFile.get_embedding, IngestFromFile.get_embedding_with.
  pose proof (embedding_loop_frame E normalize_file 3 (seq 0 3) 1%Z st) as H.
  cbn zeta in H. tauto.
Qed.

Lemma put_vector_loop_keeps_printed (E : env) (vector_id : string) (embedding : pyval)
    (md : gmap string pyval) (attempts : nat) :
  forall (range : list nat) (delay : Z) (st : state),
    printed (snd (IngestFromFile.put_vector_loop E vector_id embedding md attempts
                    range delay st)) = printed st.
Proof.
  induction range as [|attempt rest IH]; intros delay st; [reflexivity|].
  cbn [IngestFromFile.put_vector_loop].
  unfold try_except at 1. unfold call_put_vectors at 1.
  destruct (put_vectors E (s3_calls st)) as [[]|e]; [reflexivity|].
  destruct e as [code msg| | | |]; try reflexivity.
  destruct (is_not_found code); [reflexivity|].
  destruct (Z.of_nat attempt <? Z.of_nat attempts - 1)%Z; [|reflexivity].
  unfold bind at 1. unfold sleep at 1. rewrite IH. reflexivity.
Qed.

(** One iteration's [try] with its [except]: the counters move by one, on
    one side or the other, and one result line is printed. *)
Lemma ingest_item_outcome (E : env) (text metadata : pyval) (s f : nat) (st : state) :
  exists c st' l,
    try_except (IngestFromFile.ingest_try E text metadata s f)
      (fun e => print (LFailed (str_exn e)) ;;; ret (s, f + 1)) st
    = (Ok c, st')
    /\ printed st' = printed st ++ [l]
    /\ ((c = (s + 1, f) /\ is_success_line l = true /\ is_failure_line l = false)
        \/ (c = (s, f + 1) /\ is_failure_line l = true /\ is_success_line l = false)).
Proof.
  destruct (try_except (IngestFromFile.ingest_try E text metadata s f)
              (fun e => print (LFailed (str_exn e)) ;;; ret (s, f + 1)) st)
    as [out st'] eqn:Hrun.
  unfold try_except, IngestFromFile.ingest_try, bind, ret, raise, print, new_uuid,
    now_iso, unpack_mapping in Hrun.
  pose proof (file_get_embedding_keeps_printed E text st) as Hp.
  destruct (IngestFromFile.get_embedding E text st) as [[emb|e] st1]; cbn [snd] in Hp.
  2: { injection Hrun as <- <-. eexists _, _, _. split; [reflexivity|].
       cbn. rewrite Hp. split; [reflexivity|]. right. auto. }
  destruct (invalid_embedding emb).
  1: { injection Hrun as <- <-. eexists _, _, _. split; [reflexivity|].
       cbn. rewrite Hp. split; [reflexivity|]. right. auto. }
  destruct metadata as [| | | | | |md];
    try (injection Hrun as <- <-; eexists _, _, _; split; [reflexivity|];
         cbn; rewrite Hp; split; [reflexivity|]; right; auto; fail).
  cbv beta iota zeta delta [ret] in Hrun.
  match type of Hrun with
  | context [IngestFromFile.put_vector ?a ?b ?c ?d ?s0] =>
      pose proof (put_vector_loop_keeps_printed a b c d 3 (seq 0 3) 1%Z s0) as Hq;
      change (IngestFromFile.put_vector_loop a b c d 3 (seq 0 3) 1 s0)
        with (IngestFromFile.put_vector a b c d s0) in Hq;
      destruct (IngestFromFile.put_vector a b c d s0) as [[[]|e0] st2]
  end; cbn [snd printed] in Hq.
  - injection Hrun as <- <-. eexists _, _, _. split; [reflexivity|].
    cbn. rewrite Hq, Hp. split; [reflexivity|]. left. auto.
  - injection Hrun as <- <-. eexists _, _, _. split; [reflexivity|].
    cbn. rewrite Hq, Hp. split; [reflexivity|]. right. auto.
Qed.

(** One turn of the loop on a well-formed document: the [LGetting] line, the
    [try] with its [except], then the rest of the documents. *)
Lemma ingest_loop_step (E : env) (n i : nat) (d : gmap string pyval) (rest : list pyval)
    (s f : nat) (st : state) :
  well_formed_doc (PDict d) = true ->
  IngestFromFile.ingest_loop E n i (PDict d :: rest) s f st
  = match try_except
            (IngestFromFile.ingest_try E (doc_text (PDict d))
               (default (PDict ∅) (d !! "metadata")) s f)
            (fun e => print (LFailed (str_exn e)) ;;; ret (s, f + 1))
            (after_print st (LGetting i n (doc_len (PDict d)))) with
    | (Ok c, st1) => IngestFromFile.ingest_loop E n (S i) rest (fst c) (snd c) st1
    | (Raise e, st1) => (Raise e, st1)
    end.
Proof.
  intros Hwf. cbn [IngestFromFile.ingest_loop].
  unfold well_formed_doc, doc_len in *. cbn [doc_text] in *.
  unfold bind at 1. unfold py_get at 1. unfold ret at 1.
  unfold bind at 1. unfold py_get at 1. unfold ret at 1.
  unfold bind at 1.
  destruct (truthy (default PNone (d !! "text"))) eqn:Htr; cbn [negb orb] in Hwf.
  - destruct (default PNone (d !! "text")) eqn:Ht; try discriminate Hwf;
      cbn [py_len_checked]; unfold ret at 1; unfold bind at 1 2;
      unfold print at 1; reflexivity.
  - cbn [py_len_checked]. unfold ret at 1. unfold bind at 1 2.
    unfold print at 1. reflexivity.
Qed.

(** A document whose embedding call raises is counted as failed. *)
Lemma ingest_item_embedding_raises (E : env) (text metadata : pyval) (s f : nat)
    (st st1 : state) (e : exn) :
  IngestFromFile.get_embedding E text st = (Raise e, st1) ->
  try_except (IngestFromFile.ingest_try E text metadata s f)
    (fun e => print (LFailed (str_exn e)) ;;; ret (s, f + 1)) st
  = (Ok (s, f + 1), after_print st1 (LFailed (str_exn e))).
Proof.
  intros H. unfold try_except, IngestFromFile.ingest_try, bind.
  rewrite H. reflexivity.
Qed.

(** A document whose embedding is empty or not a list is counted as failed. *)
Lemma ingest_item_embedding_invalid (E : env) (text metadata emb : pyval) (s f : nat)
    (st st1 : state) :
  IngestFromFile.get_embedding E text st = (Ok emb, st1) ->
  invalid_embedding emb = true ->
  try_except (IngestFromFile.ingest_try E text metadata s f)
    (fun e => print (LFailed (str_exn e)) ;;; ret (s, f + 1)) st
  = (Ok (s, f + 1), after_print st1 LInvalid).
Proof.
  intros H Hinv. unfold try_except, IngestFromFile.ingest_try, bind.
  rewrite H, Hinv. reflexivity.
Qed.

(** A document whose upsert raises is counted as failed as well. *)
Lemma ingest_item_store_raises (E : env) (text emb : pyval) (md : gmap string pyval)
    (s f : nat) (st st1 st2 : state) (e : exn) :
  IngestFromFile.get_embedding E text st = (Ok emb, st1) ->
  invalid_embedding emb = false ->
  IngestFromFile.put_vector E (uuid4 E (ids st1)) emb
    (<["timestamp" := PStr (utcnow E (ticks st1))]> md)
    (after_tick (after_uuid st1)) = (Raise e, st2) ->
  try_except (IngestFromFile.ingest_try E text (PDict md) s f)
    (fun e => print (LFailed (str_exn e)) ;;; ret (s, f + 1)) st
  = (Ok (s, f + 1), after_print st2 (LFailed (str_exn e))).
Proof.
  intros H Hinv Hput.
  unfold try_except, IngestFromFile.ingest_try, bind, new_uuid, now_iso, unpack_mapping,
    ret.
  rewrite H, Hinv.
  match goal with
  | |- context [IngestFromFile.put_vector ?a ?b ?c ?d ?s0] =>
      change (IngestFromFile.put_vector a b c d s0)
        with (IngestFromFile.put_vector E (uuid4 E (ids st1)) emb
                (<["timestamp" := PStr (utcnow E (ticks st1))]> md)
                (after_tick (after_uuid st1)))
  end.
  rewrite Hput. reflexivity.
Qed.

(** C9, counterexample: one document whose embedding is returned and valid,
    so that no document fails embedding or validation (N = 1, M = 0), while
    the store refuses the upsert: the summary reports no success and one
    failure, not N - M = 1 success and M = 0 failures. *)
Lemma batch_counts_store_failures :
  let W := Fixtures.world (fun _ => Ok Fixtures.vec) (fun _ => Raise Fixtures.denied)
             Fixtures.q_none in
  let docs := [PDict {[ "text" := PStr "Gru" ]}] in
  fst (IngestFromFile.get_embedding W (PStr "Gru") init_state) = Ok Fixtures.vec
  /\ invalid_embedding Fixtures.vec = false
  /\ fst (IngestFromFile.ingest_docs W docs init_state) = Ok (0, 1)
  /\ last (printed (snd (IngestFromFile.ingest_docs W docs init_state)))
     = Some (LFinished 0 1).
Proof. cbv zeta. repeat split; reflexivity. Qed.

(** *** The batch against the fates of its documents *)

Lemma with_printed_same (st : state) : with_printed st (printed st) = st.
Proof. destruct st; reflexivity. Qed.

(** What the retry loops do and return does not depend on the print log. *)
Lemma embedding_loop_with_printed (E : env) (normalize : pyval -> pyval) (attempts : nat) :
  forall (range : list nat) (delay : Z) (st : state) (ls : list line),
    embedding_loop E normalize attempts range delay (with_printed st ls)
    = (fst (embedding_loop E normalize attempts range delay st),
       with_printed (snd (embedding_loop E normalize attempts range delay st)) ls).
Proof.
  induction range as [|attempt rest IH]; intros delay st ls; [reflexivity|].
  cbn [embedding_loop]. unfold try_except, bind, call_invoke_endpoint, ret, raise.
  cbn [with_printed sm_calls].
  destruct (invoke_endpoint E (sm_calls st)) as [result|e]; [reflexivity|].
  destruct e as [code msg| | | |]; try reflexivity.
  destruct (Z.of_nat attempt <? Z.of_nat attempts - 1)%Z; [|reflexivity].
  unfold sleep. cbn beta iota.
  match goal with
  | |- _ = (fst (embedding_loop _ _ _ _ _ ?s1), _) =>
      exact (IH (delay * 2)%Z s1 ls)
  end.
Qed.

Lemma put_vector_loop_with_printed (E : env) (vector_id : string) (embedding : pyval)
    (md : gmap string pyval) (attempts : nat) :
  forall (range : list nat) (delay : Z) (st : state) (ls : list line),
    IngestFromFile.put_vector_loop E vector_id embedding md attempts range delay
      (with_printed st ls)
    = (fst (IngestFromFile.put_vector_loop E vector_id embedding md attempts range delay st),
       with_printed
         (snd (IngestFromFile.put_vector_loop E vector_id embedding md attempts range
                 delay st)) ls).
Proof.
  induction range as [|attempt rest IH]; intros delay st ls; [reflexivity|].
  cbn [IngestFromFile.put_vector_loop].
  unfold try_except, bind, call_put_vectors, ret, raise.
  cbn [with_printed s3_calls].
  destruct (put_vectors E (s3_calls st)) as [[]|e]; [reflexivity|].
  destruct e as [code msg| | | |]; try reflexivity.
  destruct (is_not_found code); [reflexivity|].
  destruct (Z.of_nat attempt <? Z.of_nat attempts - 1)%Z; [|reflexivity].
  unfold sleep. cbn beta iota.
  match goal with
  | |- _ = (fst (IngestFromFile.put_vector_loop _ _ _ _ _ _ _ ?s1), _) =>
      exact (IH (delay * 2)%Z s1 ls)
  end.
Qed.

Lemma document_fate_with_printed (E : env) (doc : pyval) (st : state) (ls : list line) :
  document_fate E doc (with_printed st ls)
  = (fst (document_fate E doc st), with_printed (snd (document_fate E doc st)) ls).
Proof.
  unfold document_fate, IngestFromFile.get_embedding, IngestFromFile.get_embedding_with.
  rewrite embedding_loop_with_printed.
  destruct (embedding_loop E normalize_file 3 (seq 0 3) 1 st) as [[emb|e] st1];
    cbn [fst snd]; [|reflexivity].
  destruct (invalid_embedding emb); [reflexivity|].
  destruct (doc_metadata doc) as [| | | | | |md]; try reflexivity.
  unfold IngestFromFile.put_vector, IngestFromFile.put_vector_with.
  change (after_tick (after_uuid (with_printed st1 ls)))
    with (with_printed (after_tick (after_uuid st1)) ls).
  cbn [with_printed ids ticks].
  rewrite put_vector_loop_with_printed.
  destruct (IngestFromFile.put_vector_loop E (uuid4 E (ids st1)) emb
              (<["timestamp":=PStr (utcnow E (ticks st1))]> md) 3 (seq 0 3) 1
              (after_tick (after_uuid st1))) as [[[]|e] st2]; reflexivity.
Qed.

Lemma batch_fates_with_printed (E : env) :
  forall (docs : list pyval) (st : state) (ls : list line),
    batch_fates E docs (with_printed st ls)
    = (fst (batch_fates E docs st), with_printed (snd (batch_fates E docs st)) ls).
Proof.
  induction docs as [|doc rest IH]; intros st ls; [reflexivity|].
  cbn [batch_fates]. cbv zeta.
  rewrite document_fate_with_printed. cbn [fst snd]. rewrite IH. reflexivity.
Qed.

Lemma batch_fates_keep_printed (E : env) (docs : list pyval) (st : state) :
  with_printed (snd (batch_fates E docs st)) (printed st) = snd (batch_fates E docs st).
Proof.
  pose proof (batch_fates_with_printed E docs st (printed st)) as H.
  rewrite with_printed_same in H.
  apply (f_equal snd) in H. cbn [snd] in H. symmetry. exact H.
Qed.

Lemma batch_fates_length (E : env) :
  forall (docs : list pyval) (st : state), length (fst (batch_fates E docs st)) = length docs.
Proof.
  induction docs as [|doc rest IH]; intros st; [reflexivity|].
  cbn [batch_fates]. cbv zeta. cbn [fst length]. rewrite IH. reflexivity.
Qed.

Lemma stored_failed_length (fs : list fate) : stored fs + failed fs = length fs.
Proof.
  unfold stored, failed. induction fs as [|f fs IH]; [reflexivity|].
  cbn [List.filter]. destruct (is_stored f); cbn [negb length]; lia.
Qed.

(** One iteration's [try] with its [except], told by the fate of the
    document: the counters move as the fate says and one result line of that
    kind is printed after what the clients did. *)
Lemma ingest_item_fate (E : env) (doc : pyval) (s f : nat) (st : state) :
  exists l,
    try_except (IngestFromFile.ingest_try E (doc_text doc) (doc_metadata doc) s f)
      (fun e => print (LFailed (str_exn e)) ;;; ret (s, f + 1)) st
    = (Ok (if is_stored (fst (document_fate E doc st)) then (s + 1, f) else (s, f + 1)),
       after_print (snd (document_fate E doc st)) l)
    /\ is_success_line l = is_stored (fst (document_fate E doc st))
    /\ is_failure_line l = negb (is_stored (fst (document_fate E doc st))).
Proof.
  unfold document_fate, try_except, IngestFromFile.ingest_try, bind, ret, raise, print,
    new_uuid, now_iso, unpack_mapping, after_print.
  destruct (IngestFromFile.get_embedding E (doc_text doc) st) as [[emb|e] st1].
  2: { eexists. split; [reflexivity|]. split; reflexivity. }
  destruct (invalid_embedding emb).
  1: { eexists. split; [reflexivity|]. split; reflexivity. }
  destruct (doc_metadata doc) as [| | | | | |md];
    try (eexists; split; [reflexivity|]; split; reflexivity).
  cbv beta iota zeta delta [ret].
  match goal with
  | |- context [IngestFromFile.put_vector ?a ?b ?c ?d ?s0] =>
      change (IngestFromFile.put_vector a b c d s0)
        with (IngestFromFile.put_vector E (uuid4 E (ids st1)) emb
                (<["timestamp" := PStr (utcnow E (ticks st1))]> md)
                (after_tick (after_uuid st1)))
  end.
  destruct (IngestFromFile.put_vector E (uuid4 E (ids st1)) emb
              (<["timestamp":=PStr (utcnow E (ticks st1))]> md)
              (after_tick (after_uuid st1))) as [[[]|e] st2];
    (eexists; split; [reflexivity|]; split; reflexivity).
Qed.

(** The loop over a well-formed beginning [pre] of the batch: it reaches the
    rest of the batch with the counters, and in the state, that the fates of
    [pre] give; each document of [pre] was announced in turn and got one
    result line of the kind of its fate. *)
Lemma ingest_loop_prefix (E : env) (n : nat) (rest : list pyval) :
  forall (pre : list pyval) (i s f : nat) (st : state),
    forallb well_formed_doc pre = true ->
    exists lines,
      IngestFromFile.ingest_loop E n i (pre ++ rest) s f st
      = IngestFromFile.ingest_loop E n (length pre + i) rest
          (s + stored (fst (batch_fates E pre st)))
          (f + failed (fst (batch_fates E pre st)))
          (with_printed (snd (batch_fates E pre st)) (printed st ++ lines))
      /\ announced lines = map (fun j => (j, n)) (seq i (length pre))
      /\ reported lines = map is_stored (fst (batch_fates E pre st))
      /\ existsb is_summary_line lines = false.
Proof.
  induction pre as [|doc pre IH]; intros i s f st Hwf.
  - exists []. cbn. rewrite app_nil_r, with_printed_same, !Nat.add_0_r. auto.
  - cbn [forallb] in Hwf. apply andb_true_iff in Hwf as [Hdoc Hrest].
    destruct doc as [| | | | | |d]; try discriminate Hdoc.
    cbn [app]. rewrite (ingest_loop_step E n i d (pre ++ rest) s f st Hdoc).
    change (default (PDict ∅) (d !! "metadata")) with (doc_metadata (PDict d)).
    destruct (ingest_item_fate E (PDict d) s f
                (after_print st (LGetting i n (doc_len (PDict d)))))
      as (l & Hrun & Hsucc & Hfail).
    rewrite Hrun. clear Hrun.
    change (after_print st (LGetting i n (doc_len (PDict d))))
      with (with_printed st (printed st ++ [LGetting i n (doc_len (PDict d))]))
      in Hsucc, Hfail |- *.
    rewrite document_fate_with_printed in Hsucc, Hfail |- *.
    cbn [batch_fates]. cbv zeta.
    destruct (document_fate E (PDict d) st) as [ft st2].
    cbn [fst snd] in Hsucc, Hfail |- *.
    match goal with
    | |- context [IngestFromFile.ingest_loop E n (S i) (pre ++ rest) ?s1 ?f1 ?st1] =>
        destruct (IH (S i) s1 f1 st1 Hrest) as (lines2 & Hloop & Hann & Hrep & Hsum);
        rewrite Hloop; clear Hloop
    end.
    change (after_print
              (with_printed st2 (printed st ++ [LGetting i n (doc_len (PDict d))])) l)
      with (with_printed st2
              ((printed st ++ [LGetting i n (doc_len (PDict d))]) ++ [l]))
      in Hrep |- *.
    rewrite batch_fates_with_printed in Hrep |- *. cbn [fst snd] in Hrep |- *.
    exists (LGetting i n (doc_len (PDict d)) :: l :: lines2).
    assert (announced (LGetting i n (doc_len (PDict d)) :: l :: lines2)
            = (i, n) :: announced lines2
            /\ reported (LGetting i n (doc_len (PDict d)) :: l :: lines2)
               = is_stored ft :: reported lines2
            /\ existsb is_summary_line (LGetting i n (doc_len (PDict d)) :: l :: lines2)
               = existsb is_summary_line lines2) as (Ha & Hr & Hs).
    { destruct l; destruct (is_stored ft); cbn in Hsucc, Hfail;
        try discriminate Hsucc; try discriminate Hfail; auto. }
    rewrite Ha, Hr, Hs, Hann, Hrep. cbn [length seq map].
    split; [|auto].
    unfold stored, failed. cbn [List.filter].
    destruct (is_stored ft); cbn [negb length fst snd with_printed printed];
      f_equal; try lia; rewrite <- !app_assoc; reflexivity.
Qed.

(** C9 (amended): for a batch of N well-formed documents of which M fail (the
    embedding call raises, the embedding is empty or not a list, the metadata
    is not an object, or the upsert raises), batch ingestion handles all N in
    input order, each in the state the previous one left, announcing each in
    turn and printing one result line of the kind of its fate, goes on after
    every failure, and reports exactly N - M successes and M failures in its
    last line. *)
Theorem batch_ingest_summary (E : env) (docs : list pyval) (st : state) :
  forallb well_formed_doc docs = true ->
  exists lines st',
    IngestFromFile.ingest_docs E docs st
    = (Ok (length docs - failed (fst (batch_fates E docs st)),
           failed (fst (batch_fates E docs st))), st')
    /\ length (fst (batch_fates E docs st)) = length docs
    /\ failed (fst (batch_fates E docs st)) <= length docs
    /\ stored (fst (batch_fates E docs st))
       = length docs - failed (fst (batch_fates E docs st))
    /\ printed st'
       = printed st ++ lines
         ++ [LFinished (length docs - failed (fst (batch_fates E docs st)))
                       (failed (fst (batch_fates E docs st)))]
    /\ announced lines = map (fun i => (i, length docs)) (seq 1 (length docs))
    /\ reported lines = map is_stored (fst (batch_fates E docs st))
    /\ existsb is_summary_line lines = false
    /\ with_printed st' (printed st) = snd (batch_fates E docs st).
Proof.
  intros Hwf.
  pose proof (batch_fates_length E docs st) as Hlen.
  pose proof (stored_failed_length (fst (batch_fates E docs st))) as Hsf.
  pose proof (batch_fates_keep_printed E docs st) as Hkeep.
  destruct (ingest_loop_prefix E (length docs) [] docs 1 0 0
              (after_print st (LIngesting (length docs))) Hwf)
    as (lines & Hloop & Hann & Hrep & Hsum).
  rewrite app_nil_r in Hloop.
  change (after_print st (LIngesting (length docs)))
    with (with_printed st (printed st ++ [LIngesting (length docs)])) in Hloop, Hrep.
  rewrite batch_fates_with_printed in Hloop, Hrep. cbn [fst snd] in Hloop, Hrep.
  cbn [IngestFromFile.ingest_loop with_printed printed Nat.add] in Hloop.
  exists (LIngesting (length docs) :: lines).
  unfold IngestFromFile.ingest_docs. unfold bind at 1. unfold print at 1.
  cbv zeta. unfold bind at 1.
  change {| sm_calls := sm_calls st; s3_calls := s3_calls st; q_calls := q_calls st;
            ids := ids st; ticks := ticks st; slept := slept st; puts := puts st;
            queries := queries st; printed := printed st ++ [LIngesting (length docs)] |}
    with (with_printed st (printed st ++ [LIngesting (length docs)])).
  rewrite Hloop. unfold ret at 1. unfold bind at 1. unfold print at 1. unfold ret.
  cbn [fst snd with_printed sm_calls s3_calls q_calls ids ticks slept puts queries printed].
  replace (stored (fst (batch_fates E docs st)))
    with (length docs - failed (fst (batch_fates E docs st))) by lia.
  eexists. split; [reflexivity|].
  split; [exact Hlen|]. split; [lia|]. split; [lia|].
  cbn [printed].
  split; [rewrite <- !app_assoc; reflexivity|].
  split; [exact Hann|]. split; [exact Hrep|]. split; [exact Hsum|].
  etrans; [|exact Hkeep]. reflexivity.
Qed.

(** Two documents, the second of which the endpoint refuses three times. *)
Lemma batch_ingest_summary_witness :
  let sm := fun i => match i with 0 => Ok Fixtures.vec | _ => Raise Fixtures.throttled end in
  let W := Fixtures.world sm Fixtures.s3_ok Fixtures.q_none in
  let docs := [PDict {[ "text" := PStr "Gru" ]}; PDict {[ "text" := PStr "Lucy" ]}] in
  map is_stored (fst (batch_fates W docs init_state)) = [true; false]
  /\ fst (IngestFromFile.ingest_docs W docs init_state) = Ok (1, 1)
  /\ exists lines st',
      IngestFromFile.ingest_docs W docs init_state
      = (Ok (length docs - failed (fst (batch_fates W docs init_state)),
             failed (fst (batch_fates W docs init_state))), st')
      /\ length (fst (batch_fates W docs init_state)) = length docs
      /\ failed (fst (batch_fates W docs init_state)) <= length docs
      /\ stored (fst (batch_fates W docs init_state))
         = length docs - failed (fst (batch_fates W docs init_state))
      /\ printed st'
         = printed init_state ++ lines
           ++ [LFinished (length docs - failed (fst (batch_fates W docs init_state)))
                         (failed (fst (batch_fates W docs init_state)))]
      /\ announced lines = map (fun i => (i, length docs)) (seq 1 (length docs))
      /\ reported lines = map is_stored (fst (batch_fates W docs init_state))
      /\ existsb is_summary_line lines = false
      /\ with_printed st' (printed init_state) = snd (batch_fates W docs init_state).
Proof.
  cbv zeta. split; [reflexivity|]. split; [reflexivity|].
  apply (batch_ingest_summary _ _ init_state). reflexivity.
Defined.

(** Outside the data model: an entry that is not a JSON object stops the
    whole batch, since [doc.get] stands before the [try]. *)
Example batch_stops_on_non_object :
  let W := Fixtures.world Fixtures.sm_nested Fixtures.s3_ok Fixtures.q_none in
  fst (IngestFromFile.ingest_docs W [PInt 3; PDict {[ "text" := PStr "Gru" ]}] init_state)
  = Raise (AttributeError "object has no attribute 'get'").
Proof. reflexivity. Qed.

(** * Further properties of the code *)

(** ** The embedding client against any endpoint *)

(** Whatever the endpoint answers, the loop started with [S n] attempts left
    makes [k + 1 <= S n] calls, sleeps the first [k] backoff delays and
    touches nothing else. *)
Lemma embedding_loop_effects (E : env) (normalize : pyval -> pyval) (attempts : nat) :
  forall (n a : nat) (delay : Z) (st : state),
    a + S n = attempts ->
    exists k,
      k <= n
      /\ snd (embedding_loop E normalize attempts (seq a (attempts - a)) delay st)
         = after_embedding st (k + 1) (backoff delay k).
Proof.
  induction n as [|n IH]; intros a delay st Ha.
  - exists 0. split; [lia|].
    replace (attempts - a) with 1 by lia. cbn [seq embedding_loop].
    unfold try_except, bind, call_invoke_endpoint, ret.
    replace (Z.of_nat a <? Z.of_nat attempts - 1)%Z with false
      by (symmetry; apply Z.ltb_ge; lia).
    unfold after_embedding, backoff. cbn [seq map Nat.add].
    destruct (invoke_endpoint E (sm_calls st)) as [r|[]]; cbn; rewrite app_nil_r;
      reflexivity.
  - rewrite seq_open by lia. cbn [embedding_loop].
    unfold try_except at 1. unfold bind at 1. unfold call_invoke_endpoint at 1.
    assert (after_embedding st (0 + 1) (backoff delay 0)
            = {| sm_calls := S (sm_calls st); s3_calls := s3_calls st;
                 q_calls := q_calls st; ids := ids st; ticks := ticks st;
                 slept := slept st; puts := puts st; queries := queries st;
                 printed := printed st |}) as Hone
      by (unfold after_embedding, backoff; cbn; rewrite app_nil_r; reflexivity).
    destruct (invoke_endpoint E (sm_calls st)) as [r|e].
    { exists 0. split; [lia|]. rewrite Hone. reflexivity. }
    destruct e as [code msg| | | |];
      try (exists 0; split; [lia|]; rewrite Hone; reflexivity).
    replace (Z.of_nat a <? Z.of_nat attempts - 1)%Z with true
      by (symmetry; apply Z.ltb_lt; lia).
    unfold bind at 1. unfold sleep at 1.
    match goal with |- context [embedding_loop _ _ _ _ _ ?s] =>
      change s with (after_embedding st 1 [delay]) end.
    destruct (IH (S a) (delay * 2)%Z (after_embedding st 1 [delay]) ltac:(lia))
      as (k & Hk & Hrun).
    exists (S k). split; [lia|].
    rewrite Hrun, after_embedding_step, <- backoff_cons.
    replace (S (k + 1)) with (S k + 1) by lia. reflexivity.
Qed.

(** X1: whatever the endpoint answers (success, retryable fault or any other
    exception), each of the three [get_embedding] functions makes between one
    and three calls, sleeps exactly the first calls-1 delays of 1, 2, and
    changes nothing else: no store call, no query, no identifier drawn. *)
Theorem embedding_client_effects (E : env) (text : pyval) (st : state) :
  (exists k, k <= 2
     /\ snd (IngestLambda.get_embedding E text st)
        = after_embedding st (k + 1) (backoff 1 k))
  /\ (exists k, k <= 2
     /\ snd (SearchLambda.get_embedding E text st)
        = after_embedding st (k + 1) (backoff 1 k))
  /\ (exists k, k <= 2
     /\ snd (IngestFromFile.get_embedding E text st)
        = after_embedding st (k + 1) (backoff 1 k)).
Proof.
  split; [|split].
  - exact (embedding_loop_effects E normalize_lambda 3 2 0 1%Z st eq_refl).
  - exact (embedding_loop_effects E normalize_lambda 3 2 0 1%Z st eq_refl).
  - exact (embedding_loop_effects E normalize_file 3 2 0 1%Z st eq_refl).
Qed.

(** An exception that is not a [ClientError], after [n] retried failures:
    raised at once. *)
Lemma embedding_loop_other_fault (E : env) (normalize : pyval -> pyval) (attempts : nat)
    (e : exn) :
  forall (n a : nat) (delay : Z) (st : state),
    a + n < attempts ->
    endpoint_fails E st n ->
    invoke_endpoint E (sm_calls st + n) = Raise e ->
    is_client_error (Raise (A:=pyval) e) = false ->
    embedding_loop E normalize attempts (seq a (attempts - a)) delay st
    = (Raise e, after_embedding st (n + 1) (backoff delay n)).
Proof.
  induction n as [|n IH]; intros a delay st Ha Hfail Hcall Hother.
  - rewrite seq_open by lia. cbn [embedding_loop].
    unfold try_except, bind, call_invoke_endpoint, ret.
    rewrite Nat.add_0_r in Hcall. rewrite Hcall.
    unfold raise, after_embedding, backoff. cbn [seq map Nat.add].
    destruct e; try discriminate Hother; cbn; rewrite app_nil_r; reflexivity.
  - rewrite seq_open by lia. cbn [embedding_loop].
    unfold try_except at 1. unfold bind at 1. unfold call_invoke_endpoint at 1.
    pose proof (Hfail 0 ltac:(lia)) as H0. rewrite Nat.add_0_r in H0.
    destruct (invoke_endpoint E (sm_calls st)) as [?|[code msg| | | |]] eqn:Hfirst;
      try discriminate.
    replace (Z.of_nat a <? Z.of_nat attempts - 1)%Z with true
      by (symmetry; apply Z.ltb_lt; lia).
    unfold bind at 1. unfold sleep at 1.
    match goal with |- embedding_loop _ _ _ _ _ ?s = _ =>
      change s with (after_embedding st 1 [delay]) end.
    rewrite (IH (S a) (delay * 2)%Z (after_embedding st 1 [delay])).
    + rewrite after_embedding_step, backoff_cons.
      replace (S (n + 1)) with (S n + 1) by lia. reflexivity.
    + lia.
    + intros i Hi. cbn [after_embedding sm_calls Nat.add].
      rewrite <- Nat.add_succ_r. apply Hfail. lia.
    + cbn [after_embedding sm_calls Nat.add].
      rewrite <- Nat.add_succ_r. exact Hcall.
    + exact Hother.
Qed.

(** X2: a fault of the embedding call that is not a [ClientError] (for
    instance a response body that does not decode) is never retried: after
    [n <= 2] retried failures it is raised at once, with no further call and
    no further sleep. *)
Theorem embedding_other_fault_not_retried (E : env) (text : pyval) (st : state)
    (n : nat) (e : exn) :
  n < 3 ->
  endpoint_fails E st n ->
  invoke_endpoint E (sm_calls st + n) = Raise e ->
  is_client_error (Raise (A:=pyval) e) = false ->
  IngestLambda.get_embedding E text st
  = (Raise e, after_embedding st (n + 1) (backoff 1 n))
  /\ SearchLambda.get_embedding E text st
     = (Raise e, after_embedding st (n + 1) (backoff 1 n))
  /\ IngestFromFile.get_embedding E text st
     = (Raise e, after_embedding st (n + 1) (backoff 1 n)).
Proof.
  intros Hn Hfail Hcall Hother. repeat split.
  - apply (embedding_loop_other_fault E normalize_lambda 3 e n 0); [lia|assumption..].
  - apply (embedding_loop_other_fault E normalize_lambda 3 e n 0); [lia|assumption..].
  - apply (embedding_loop_other_fault E normalize_file 3 e n 0); [lia|assumption..].
Qed.

Lemma embedding_other_fault_not_retried_witness :
  let sm := fun i => match i with
                     | 0 => Raise Fixtures.throttled
                     | _ => Raise (OtherException "Expecting value")
                     end in
  let W := Fixtures.world sm Fixtures.s3_ok Fixtures.q_none in
  IngestLambda.get_embedding W (PStr "Gru") init_state
  = (Raise (OtherException "Expecting value"), after_embedding init_state 2 [1%Z]).
Proof.
  cbv zeta.
  refine (proj1 (embedding_other_fault_not_retried _ (PStr "Gru") init_state 1
                   (OtherException "Expecting value") _ _ _ _)).
  - lia.
  - intros i Hi. assert (i = 0) as -> by lia. reflexivity.
  - reflexivity.
  - reflexivity.
Defined.

(** ** The Lambda ingest handler: what one invocation does to the world *)

Lemma total_sleep_app (xs ys : list Z) :
  total_sleep (xs ++ ys) = (total_sleep xs + total_sleep ys)%Z.
Proof.
  unfold total_sleep. induction xs as [|x xs IH]; cbn; [reflexivity|].
  rewrite IH. lia.
Qed.

Lemma total_sleep_backoff_bound (k : nat) :
  k <= 2 -> (0 <= total_sleep (backoff 1 k) <= 3)%Z.
Proof.
  intros Hk. destruct k as [|[|[|k]]]; [cbn; lia..|lia].
Qed.

Lemma put_loop_metadata_not_a_dict_state (E : env) (vector_id : string)
    (embedding text metadata : pyval) (st : state) :
  (forall md, metadata <> PDict md) ->
  exists msg,
    IngestHandler.put_loop E vector_id embedding text metadata 3 (seq 0 3) 1 st
    = (Raise (TypeError msg), after_tick st).
Proof.
  intros Hmd. cbn [seq IngestHandler.put_loop].
  unfold try_except, bind, now_iso, unpack_mapping, raise, after_tick.
  destruct metadata; try (eexists; reflexivity).
  destruct (Hmd d eq_refl).
Qed.

Lemma attempted_records_facts (E : env) (vector_id : string) (embedding text : pyval)
    (md : gmap string pyval) (t n : nat) :
  length (attempted_records E vector_id embedding text md t n) = n
  /\ Forall (fun r => rec_key r = vector_id /\ rec_data r = embedding)
       (attempted_records E vector_id embedding text md t n).
Proof.
  unfold attempted_records. split.
  - rewrite length_map, length_seq. reflexivity.
  - apply Forall_map. apply Forall_forall. intros i _. cbn. auto.
Qed.

(** Where an invocation of the ingest handler leaves the world: untouched;
    after the embedding calls only; after one identifier and one clock
    reading more; or after the upsert attempts. *)
Lemma handler_final_state (E : env) (event : gmap string pyval) (st : state) :
  snd (IngestHandler.lambda_handler E event st) = st
  \/ exists k,
      k <= 2
      /\ (snd (IngestHandler.lambda_handler E event st)
          = after_embedding st (k + 1) (backoff 1 k)
          \/ snd (IngestHandler.lambda_handler E event st)
             = after_tick (after_uuid (after_embedding st (k + 1) (backoff 1 k)))
          \/ exists j emb recs,
              j <= 2
              /\ length recs = j + 1
              /\ Forall (fun r => rec_key r = uuid4 E (ids st) /\ rec_data r = emb) recs
              /\ snd (IngestHandler.lambda_handler E event st)
                 = after_store (after_uuid (after_embedding st (k + 1) (backoff 1 k)))
                     (j + 1) (j + 1) (backoff 1 j) recs).
Proof.
  destruct (decoded_body E event) as [b|e] eqn:Hb.
  2: { left. rewrite (handler_body_undecodable E event st e Hb). reflexivity. }
  assert ((exists d, b = PDict d) \/ forall d, b <> PDict d) as [[d ->]|Hnd]
    by (destruct b; eauto; right; discriminate).
  2: { left. destruct (handler_body_not_a_dict E event st b Hb Hnd) as [msg Hm].
       rewrite Hm. reflexivity. }
  destruct (truthy (default PNone (d !! "text"))) eqn:Htr.
  2: { left. rewrite (handler_text_falsy E event st d Hb Htr). reflexivity. }
  destruct (d !! "text") as [text|] eqn:Ht; [|discriminate Htr].
  cbn [from_option id] in Htr.
  destruct (sliceable text) eqn:Hs.
  2: { left. destruct (handler_text_not_sliceable E event st d text Hb Ht Htr Hs)
         as [msg Hm]. rewrite Hm. reflexivity. }
  right.
  destruct (embedding_loop_effects E normalize_lambda 3 2 0 1%Z st eq_refl)
    as (k & Hk & Heff).
  change (embedding_loop E normalize_lambda 3 (seq 0 (3 - 0)) 1 st)
    with (IngestLambda.get_embedding E text st) in Heff.
  exists k. split; [exact Hk|].
  destruct (IngestLambda.get_embedding E text st) as [[emb|e] st1] eqn:Hemb;
    cbn [snd] in Heff; subst st1.
  2: { left. rewrite (handler_embedding_raises E event st _ d text e Hb Ht Htr Hs Hemb).
       reflexivity. }
  destruct (invalid_embedding emb) eqn:Hinv.
  1: { left.
       rewrite (handler_embedding_invalid E event st _ d text emb Hb Ht Htr Hs Hemb Hinv).
       reflexivity. }
  right.
  rewrite (handler_at_store E event st _ d text _ emb Hb Ht Htr Hs eq_refl Hemb Hinv).
  assert ((exists md, default (PDict ∅) (d !! "metadata") = PDict md)
          \/ forall md, default (PDict ∅) (d !! "metadata") <> PDict md) as [[md Hmd]|Hnm]
    by (destruct (default (PDict ∅) (d !! "metadata")); eauto; right; discriminate).
  - right. rewrite Hmd.
    match goal with |- context [IngestHandler.put_loop ?a ?b ?c ?t ?m _ _ _ ?s0] =>
      destruct (put_loop_effects a b c t md s0) as (j & Hj & Hput);
      pose proof (attempted_records_facts a b c t md (ticks s0) (j + 1)) as [Hlen Hall];
      destruct (IngestHandler.put_loop a b c t m 3 (seq 0 3) 1 s0) as [[[|r]|e] s2]
    end; cbn [snd] in Hput; subst s2;
      eexists j, emb, _; (split; [exact Hj|]); (split; [exact Hlen|]);
      (split; [exact Hall|reflexivity]).
  - left.
    match goal with |- context [IngestHandler.put_loop ?a ?b ?c ?t ?m _ _ _ ?s0] =>
      destruct (put_loop_metadata_not_a_dict_state a b c t m s0 Hnm) as [msg Hp]
    end.
    rewrite Hp. reflexivity.
Qed.

(** X3: one invocation of the ingest handler, whatever the request and the
    services do, makes at most three endpoint calls and at most three store
    calls, logs one record per store call, draws at most one identifier,
    never queries the store, and sleeps at most 6 time units in all. *)
Theorem ingest_handler_effects (E : env) (event : gmap string pyval) (st : state) :
  sm_calls st <= sm_calls (snd (IngestHandler.lambda_handler E event st)) <= sm_calls st + 3
  /\ s3_calls st <= s3_calls (snd (IngestHandler.lambda_handler E event st))
     <= s3_calls st + 3
  /\ length (puts (snd (IngestHandler.lambda_handler E event st)))
     = length (puts st)
       + (s3_calls (snd (IngestHandler.lambda_handler E event st)) - s3_calls st)
  /\ ids (snd (IngestHandler.lambda_handler E event st)) <= ids st + 1
  /\ q_calls (snd (IngestHandler.lambda_handler E event st)) = q_calls st
  /\ queries (snd (IngestHandler.lambda_handler E event st)) = queries st
  /\ exists ds,
      slept (snd (IngestHandler.lambda_handler E event st)) = slept st ++ ds
      /\ (0 <= total_sleep ds <= 6)%Z.
Proof.
  destruct (handler_final_state E event st)
    as [->|(k & Hk & [->|[->|(j & emb & recs & Hj & Hlen & _ & ->)]])].
  - repeat split; try lia. exists []. rewrite app_nil_r. cbn. split; [reflexivity|lia].
  - cbn [after_embedding sm_calls s3_calls puts ids q_calls queries slept].
    repeat split; try lia. exists (backoff 1 k). split; [reflexivity|].
    pose proof (total_sleep_backoff_bound k Hk). lia.
  - cbn [after_tick after_uuid after_embedding sm_calls s3_calls puts ids q_calls
           queries slept].
    repeat split; try lia. exists (backoff 1 k). split; [reflexivity|].
    pose proof (total_sleep_backoff_bound k Hk). lia.
  - cbn [after_store after_uuid after_embedding sm_calls s3_calls puts ids q_calls
           queries slept].
    repeat split; try lia.
    + rewrite length_app, Hlen. lia.
    + exists (backoff 1 k ++ backoff 1 j). split; [rewrite app_assoc; reflexivity|].
      rewrite total_sleep_app.
      pose proof (total_sleep_backoff_bound k Hk).
      pose proof (total_sleep_backoff_bound j Hj). lia.
Qed.

Lemma handler_store_decides_state (E : env) (event : gmap string pyval) (st st1 : state)
    (text emb : pyval) (md : gmap string pyval) (n : nat) :
  reaches_store E event st text md emb st1 ->
  n < 3 ->
  store_fails E st1 n ->
  is_transient_store_error (put_vectors E (s3_calls st1 + n)) = false ->
  snd (IngestHandler.lambda_handler E event st)
  = after_store (after_uuid st1) (n + 1) (n + 1) (backoff 1 n)
      (attempted_records E (uuid4 E (ids st1)) emb text md (ticks st1) (n + 1)).
Proof.
  intros (d & Hb & Ht & Htr & Hs & Hmd & Hemb & Hinv) Hn Hf He.
  rewrite (handler_at_store E event st st1 d text (PDict md) emb Hb Ht Htr Hs Hmd Hemb Hinv).
  pose proof (put_loop_decides E (uuid4 E (ids st1)) emb text md 3 n 0 1%Z
                (after_uuid st1) ltac:(lia) Hf He) as Hd.
  cbn [Nat.sub] in Hd. rewrite Hd.
  destruct (store_verdict E (put_vectors E (s3_calls (after_uuid st1) + n))) as [[|r]|e];
    reflexivity.
Qed.

(** X4: a 200 answer is backed by the store: the [document_id] it returns is
    the key of every record sent during the invocation (one to three, all
    with the same key and the same valid embedding, so that a retry can only
    overwrite), and the last of these store calls succeeded. *)
Theorem ingest_success_is_stored (E : env) (event : gmap string pyval) (st : state)
    (r : response) :
  fst (IngestHandler.lambda_handler E event st) = Ok r ->
  statusCode r = 200%Z ->
  exists vector_id emb new,
    body r !! "document_id" = Some (PStr vector_id)
    /\ invalid_embedding emb = false
    /\ puts (snd (IngestHandler.lambda_handler E event st)) = puts st ++ new
    /\ 1 <= length new <= 3
    /\ Forall (fun rec => rec_key rec = vector_id /\ rec_data rec = emb) new
    /\ put_vectors E (s3_calls (snd (IngestHandler.lambda_handler E event st)) - 1) = Ok tt.
Proof.
  intros Hr Hst.
  destruct (handler_ok_only_when_stored E event st r Hr Hst)
    as (text & md & emb & st1 & n & Hreach & Hn & Hf & Hput & ->).
  assert (is_transient_store_error (put_vectors E (s3_calls st1 + n)) = false) as He
    by (rewrite Hput; reflexivity).
  rewrite (handler_store_decides_state E event st st1 text emb md n Hreach Hn Hf He).
  destruct Hreach as (d & Hb & Ht & Htr & Hs & Hmd & Hemb & Hinv).
  pose proof (get_embedding_keeps_puts E text st) as Hkeep.
  rewrite Hemb in Hkeep. cbn [snd] in Hkeep.
  pose proof (attempted_records_facts E (uuid4 E (ids st1)) emb text md (ticks st1) (n + 1))
    as [Hlen Hall].
  exists (uuid4 E (ids st1)), emb,
    (attempted_records E (uuid4 E (ids st1)) emb text md (ticks st1) (n + 1)).
  split.
  { unfold indexed_response. cbn [body].
    rewrite lookup_insert_ne by discriminate. apply lookup_insert_eq. }
  split; [exact Hinv|].
  cbn [after_store after_uuid puts s3_calls]. rewrite Hkeep.
  split; [reflexivity|]. split; [rewrite Hlen; lia|]. split; [exact Hall|].
  replace (n + 1 + s3_calls st1 - 1) with (s3_calls st1 + n) by lia. exact Hput.
Qed.

Lemma ingest_success_is_stored_witness :
  let s3 := fun i => match i with 0 => Raise Fixtures.throttled | _ => Ok tt end in
  let W := Fixtures.world Fixtures.sm_nested s3 Fixtures.q_none in
  let event := Fixtures.event_of {[ "text" := PStr "Gru" ]} in
  exists vector_id emb new,
    body (indexed_response "id-0") !! "document_id" = Some (PStr vector_id)
    /\ invalid_embedding emb = false
    /\ puts (snd (IngestHandler.lambda_handler W event init_state)) = puts init_state ++ new
    /\ 1 <= length new <= 3
    /\ Forall (fun rec => rec_key rec = vector_id /\ rec_data rec = emb) new
    /\ put_vectors W (s3_calls (snd (IngestHandler.lambda_handler W event init_state)) - 1)
       = Ok tt.
Proof.
  cbv zeta.
  refine (ingest_success_is_stored _ _ init_state (indexed_response "id-0") _ _);
    reflexivity.
Defined.

(** X5: a [text] that is present but empty (the empty string, null, 0,
    false, an empty list or object) is answered like a missing one: 400, and
    no service is called. *)
Theorem ingest_empty_text_is_missing (E : env) (event : gmap string pyval) (st : state)
    (d : gmap string pyval) (text : pyval) :
  decoded_body E event = Ok (PDict d) ->
  d !! "text" = Some text ->
  text = PStr "" \/ text = PNone \/ text = PInt 0 \/ text = PBool false
  \/ text = PList [] \/ text = PDict ∅ ->
  IngestHandler.lambda_handler E event st
  = (Ok (error_response 400 "Missing required field: text"), st).
Proof.
  intros Hb Ht Hcases.
  apply (handler_text_falsy E event st d Hb). rewrite Ht. cbn [from_option id].
  destruct Hcases as [->|[->|[->|[->|[->| ->]]]]]; reflexivity.
Qed.

Lemma ingest_empty_text_is_missing_witness :
  let W := Fixtures.world Fixtures.sm_nested Fixtures.s3_ok Fixtures.q_none in
  IngestHandler.lambda_handler W (Fixtures.event_of {[ "text" := PStr "" ]}) init_state
  = (Ok (error_response 400 "Missing required field: text"), init_state).
Proof.
  cbv zeta.
  refine (ingest_empty_text_is_missing _ _ init_state {[ "text" := PStr "" ]} (PStr "")
            _ _ _); [reflexivity|reflexivity|left; reflexivity].
Defined.

(** X6: a [metadata] that is present but not an object (null, a string, a
    list, a number) makes the ingest handler answer 500 after the embedding
    was computed: the store is never called, although an identifier and a
    clock reading have been consumed. *)
Theorem ingest_metadata_not_an_object (E : env) (event : gmap string pyval)
    (st st1 : state) (d : gmap string pyval) (text metadata emb : pyval) :
  decoded_body E event = Ok (PDict d) ->
  d !! "text" = Some text -> truthy text = true -> sliceable text = true ->
  d !! "metadata" = Some metadata ->
  (forall md, metadata <> PDict md) ->
  IngestLambda.get_embedding E text st = (Ok emb, st1) ->
  invalid_embedding emb = false ->
  exists msg,
    IngestHandler.lambda_handler E event st
    = (Ok (error_response 500 msg), after_tick (after_uuid st1))
    /\ s3_calls (after_tick (after_uuid st1)) = s3_calls st1
    /\ puts (after_tick (after_uuid st1)) = puts st1.
Proof.
  intros Hb Ht Htr Hs Hm Hnd Hemb Hinv.
  rewrite (handler_at_store E event st st1 d text metadata emb Hb Ht Htr Hs
             ltac:(rewrite Hm; reflexivity) Hemb Hinv).
  destruct (put_loop_metadata_not_a_dict_state E (uuid4 E (ids st1)) emb text metadata
              (after_uuid st1) Hnd) as [msg Hp].
  rewrite Hp. exists msg. repeat split.
Qed.

Lemma ingest_metadata_not_an_object_witness :
  let W := Fixtures.world Fixtures.sm_nested Fixtures.s3_ok Fixtures.q_none in
  let event := Fixtures.event_of {[ "text" := PStr "Gru"; "metadata" := PNone ]} in
  exists msg,
    IngestHandler.lambda_handler W event init_state
    = (Ok (error_response 500 msg),
       after_tick (after_uuid (after_embedding init_state 1 [])))
    /\ s3_calls (after_tick (after_uuid (after_embedding init_state 1 []))) = 0
    /\ puts (after_tick (after_uuid (after_embedding init_state 1 []))) = [].
Proof.
  cbv zeta.
  refine (ingest_metadata_not_an_object _ _ init_state (after_embedding init_state 1 [])
            {[ "text" := PStr "Gru"; "metadata" := PNone ]} (PStr "Gru") PNone
            Fixtures.vec _ _ _ _ _ _ _ _); try reflexivity.
  intros md. discriminate.
Defined.

(** ** The Lambda search handler *)

Ltac open_search :=
  unfold SearchHandler.lambda_handler, parse_body, try_except, bind, py_get, ret, raise,
    call_query_vectors.

Lemma search_body_undecodable (E : env) (event : gmap string pyval) (st : state) (e : exn) :
  decoded_body E event = Raise e ->
  SearchHandler.lambda_handler E event st = (Raise e, st).
Proof. intros H. open_search. rewrite H. reflexivity. Qed.

Lemma search_body_not_a_dict (E : env) (event : gmap string pyval) (st : state) (b : pyval) :
  decoded_body E event = Ok b ->
  (forall d, b <> PDict d) ->
  exists msg, SearchHandler.lambda_handler E event st = (Raise (AttributeError msg), st).
Proof.
  intros H Hb. open_search. rewrite H.
  destruct b; try (eexists; reflexivity). destruct (Hb d eq_refl).
Qed.

Lemma search_query_falsy (E : env) (event : gmap string pyval) (st : state)
    (d : gmap string pyval) :
  decoded_body E event = Ok (PDict d) ->
  truthy (default PNone (d !! "query")) = false ->
  SearchHandler.lambda_handler E event st
  = (Ok (error_response 400 "Missing required field: query"), st).
Proof. intros H Hq. open_search. rewrite H, Hq. reflexivity. Qed.

Lemma search_embedding_raises (E : env) (event : gmap string pyval) (st st1 : state)
    (d : gmap string pyval) (e : exn) :
  decoded_body E event = Ok (PDict d) ->
  truthy (default PNone (d !! "query")) = true ->
  SearchLambda.get_embedding E (default PNone (d !! "query")) st = (Raise e, st1) ->
  SearchHandler.lambda_handler E event st = (Raise e, st1).
Proof. intros H Hq Hemb. open_search. rewrite H, Hq. cbn [negb]. rewrite Hemb. reflexivity. Qed.

Lemma search_embedding_invalid (E : env) (event : gmap string pyval) (st st1 : state)
    (d : gmap string pyval) (emb : pyval) :
  decoded_body E event = Ok (PDict d) ->
  truthy (default PNone (d !! "query")) = true ->
  SearchLambda.get_embedding E (default PNone (d !! "query")) st = (Ok emb, st1) ->
  invalid_embedding emb = true ->
  SearchHandler.lambda_handler E event st
  = (Ok (error_response 500 "Invalid embedding returned from SageMaker"), st1).
Proof.
  intros H Hq Hemb Hinv. open_search. rewrite H, Hq. cbn [negb].
  rewrite Hemb, Hinv. reflexivity.
Qed.

(** With a valid embedding the handler queries the store once, with the
    validated count, and maps the answer. *)
Lemma search_at_store (E : env) (event : gmap string pyval) (st st1 : state)
    (d : gmap string pyval) (emb : pyval) :
  decoded_body E event = Ok (PDict d) ->
  truthy (default PNone (d !! "query")) = true ->
  SearchLambda.get_embedding E (default PNone (d !! "query")) st = (Ok emb, st1) ->
  invalid_embedding emb = false ->
  SearchHandler.lambda_handler E event st
  = (match query_vectors E (q_calls st1) with
     | Ok vectors => Ok (search_response vectors)
     | Raise (ClientError code msg) =>
         if is_not_found code then Ok (error_response 404 (index_not_found_msg E))
         else if is_access_denied code then Ok (error_response 403 access_denied_msg)
         else Raise (ClientError code msg)
     | Raise e => Raise e
     end,
     after_query st1 emb (SearchHandler.validate_k E (default (PInt 5) (d !! "k")))).
Proof.
  intros H Hq Hemb Hinv. open_search. rewrite H, Hq. cbn [negb].
  rewrite Hemb, Hinv. unfold after_query, search_response.
  destruct (query_vectors E (q_calls st1)) as [vs|e]; [reflexivity|].
  destruct e as [code msg| | | |]; try reflexivity.
  destruct (is_not_found code); [reflexivity|].
  destruct (is_access_denied code); reflexivity.
Qed.

(** X7: the search handler answers 400 to a missing or empty [query] without
    calling any service, 500 to an empty or non-list embedding without
    querying the store, 404 (naming index and bucket) to a store not-found
    fault, 403 to an access-denied fault and 200 with [count] equal to the
    number of records the store returned; in the last three cases exactly
    one query was sent, with the validated count, and nothing was slept for
    the store. *)
Theorem search_handler_status_mapping (E : env) (event : gmap string pyval) (st : state)
    (d : gmap string pyval) :
  decoded_body E event = Ok (PDict d) ->
  (truthy (default PNone (d !! "query")) = false ->
   SearchHandler.lambda_handler E event st
   = (Ok (error_response 400 "Missing required field: query"), st))
  /\ (forall emb st1,
      truthy (default PNone (d !! "query")) = true ->
      SearchLambda.get_embedding E (default PNone (d !! "query")) st = (Ok emb, st1) ->
      (invalid_embedding emb = true ->
       SearchHandler.lambda_handler E event st
       = (Ok (error_response 500 "Invalid embedding returned from SageMaker"), st1))
      /\ (invalid_embedding emb = false ->
          snd (SearchHandler.lambda_handler E event st)
          = after_query st1 emb (SearchHandler.validate_k E (default (PInt 5) (d !! "k")))
          /\ (forall vectors,
              query_vectors E (q_calls st1) = Ok vectors ->
              fst (SearchHandler.lambda_handler E event st) = Ok (search_response vectors)
              /\ body (search_response vectors) !! "count"
                 = Some (PInt (Z.of_nat (length vectors))))
          /\ (forall code msg,
              query_vectors E (q_calls st1) = Raise (ClientError code msg) ->
              is_not_found code = true ->
              fst (SearchHandler.lambda_handler E event st)
              = Ok (error_response 404
                      ("Index '" +:+ INDEX_NAME E +:+ "' not found in bucket '"
                       +:+ VECTOR_BUCKET E +:+ "'")))
          /\ (forall code msg,
              query_vectors E (q_calls st1) = Raise (ClientError code msg) ->
              is_not_found code = false ->
              is_access_denied code = true ->
              fst (SearchHandler.lambda_handler E event st)
              = Ok (error_response 403 access_denied_msg)))).
Proof.
  intros Hb. split; [apply (search_query_falsy E event st d Hb)|].
  intros emb st1 Hq Hemb. split.
  { intros Hinv. exact (search_embedding_invalid E event st st1 d emb Hb Hq Hemb Hinv). }
  intros Hinv.
  rewrite (search_at_store E event st st1 d emb Hb Hq Hemb Hinv). cbn [fst snd].
  split; [reflexivity|]. split; [|split].
  - intros vectors ->. split; [reflexivity|].
    unfold search_response, SearchHandler.format_results. cbn [body].
    rewrite lookup_insert_ne by discriminate. rewrite lookup_singleton_eq.
    rewrite length_map. reflexivity.
  - intros code msg -> ->. reflexivity.
  - intros code msg -> -> ->. reflexivity.
Qed.

Lemma search_handler_status_mapping_witness :
  let W := Fixtures.world Fixtures.sm_nested Fixtures.s3_ok Fixtures.q_none in
  SearchHandler.lambda_handler W (Fixtures.event_of {[ "k" := PInt 3 ]}) init_state
  = (Ok (error_response 400 "Missing required field: query"), init_state).
Proof.
  cbv zeta.
  refine (proj1 (search_handler_status_mapping _ _ init_state {[ "k" := PInt 3 ]} _) _);
    reflexivity.
Defined.

(** X8: the search handler has no catch-all: a request body that does not
    decode or is not an object, an error of the embedding client, and a
    store fault that is neither not-found nor access-denied all leave the
    handler as exceptions, not as a response; the store fault does so after
    its single attempt. *)
Theorem search_handler_propagates_faults (E : env) (event : gmap string pyval)
    (st : state) :
  (forall e, decoded_body E event = Raise e ->
             SearchHandler.lambda_handler E event st = (Raise e, st))
  /\ (forall b, decoded_body E event = Ok b -> (forall d, b <> PDict d) ->
                exists msg,
                  SearchHandler.lambda_handler E event st = (Raise (AttributeError msg), st))
  /\ (forall d e st1,
      decoded_body E event = Ok (PDict d) ->
      truthy (default PNone (d !! "query")) = true ->
      SearchLambda.get_embedding E (default PNone (d !! "query")) st = (Raise e, st1) ->
      SearchHandler.lambda_handler E event st = (Raise e, st1))
  /\ (forall d emb st1 e,
      decoded_body E event = Ok (PDict d) ->
      truthy (default PNone (d !! "query")) = true ->
      SearchLambda.get_embedding E (default PNone (d !! "query")) st = (Ok emb, st1) ->
      invalid_embedding emb = false ->
      query_vectors E (q_calls st1) = Raise e ->
      is_transient_store_error (Raise (A:=unit) e) = true
      \/ is_client_error (Raise (A:=unit) e) = false ->
      SearchHandler.lambda_handler E event st
      = (Raise e,
         after_query st1 emb (SearchHandler.validate_k E (default (PInt 5) (d !! "k"))))).
Proof.
  split; [intros e He; exact (search_body_undecodable E event st e He)|].
  split; [intros b Hb Hnd; exact (search_body_not_a_dict E event st b Hb Hnd)|].
  split.
  { intros d e st1 Hb Hq Hemb. exact (search_embedding_raises E event st st1 d e Hb Hq Hemb). }
  intros d emb st1 e Hb Hq Hemb Hinv Hcall Hkind.
  rewrite (search_at_store E event st st1 d emb Hb Hq Hemb Hinv), Hcall.
  destruct e as [code msg| | | |]; try reflexivity.
  destruct Hkind as [Htr|Hce]; [|discriminate Hce].
  destruct (store_verdict_transient E code msg Htr) as [-> ->]. reflexivity.
Qed.

Lemma search_handler_propagates_faults_witness :
  let W := Fixtures.world Fixtures.sm_nested Fixtures.s3_ok (fun _ => Raise Fixtures.throttled) in
  let event := Fixtures.event_of {[ "query" := PStr "villain" ]} in
  SearchHandler.lambda_handler W event init_state
  = (Raise Fixtures.throttled,
     after_query (after_embedding init_state 1 []) Fixtures.vec 5).
Proof.
  cbv zeta.
  refine (proj2 (proj2 (proj2 (search_handler_propagates_faults _ _ init_state)))
            {[ "query" := PStr "villain" ]} Fixtures.vec
            (after_embedding init_state 1 []) Fixtures.throttled _ _ _ _ _ _);
    try reflexivity.
  left. reflexivity.
Defined.

Lemma search_final_state (E : env) (event : gmap string pyval) (st : state) :
  snd (SearchHandler.lambda_handler E event st) = st
  \/ exists k,
      k <= 2
      /\ (snd (SearchHandler.lambda_handler E event st)
          = after_embedding st (k + 1) (backoff 1 k)
          \/ exists emb count,
              (1 <= count <= 50)%Z
              /\ snd (SearchHandler.lambda_handler E event st)
                 = after_query (after_embedding st (k + 1) (backoff 1 k)) emb count).
Proof.
  destruct (decoded_body E event) as [b|e] eqn:Hb.
  2: { left. rewrite (search_body_undecodable E event st e Hb). reflexivity. }
  assert ((exists d, b = PDict d) \/ forall d, b <> PDict d) as [[d ->]|Hnd]
    by (destruct b; eauto; right; discriminate).
  2: { left. destruct (search_body_not_a_dict E event st b Hb Hnd) as [msg Hm].
       rewrite Hm. reflexivity. }
  destruct (truthy (default PNone (d !! "query"))) eqn:Hq.
  2: { left. rewrite (search_query_falsy E event st d Hb Hq). reflexivity. }
  right.
  destruct (embedding_loop_effects E normalize_lambda 3 2 0 1%Z st eq_refl)
    as (k & Hk & Heff).
  change (embedding_loop E normalize_lambda 3 (seq 0 (3 - 0)) 1 st)
    with (SearchLambda.get_embedding E (default PNone (d !! "query")) st) in Heff.
  exists k. split; [exact Hk|].
  destruct (SearchLambda.get_embedding E (default PNone (d !! "query")) st)
    as [[emb|e] st1] eqn:Hemb; cbn [snd] in Heff; subst st1.
  2: { left. rewrite (search_embedding_raises E event st _ d e Hb Hq Hemb). reflexivity. }
  destruct (invalid_embedding emb) eqn:Hinv.
  1: { left. rewrite (search_embedding_invalid E event st _ d emb Hb Hq Hemb Hinv).
       reflexivity. }
  right. rewrite (search_at_store E event st _ d emb Hb Hq Hemb Hinv). cbn [snd].
  eexists emb, _. split; [apply validate_k_range|reflexivity].
Qed.

(** X9: one invocation of the search handler never writes to the store,
    draws no identifier and reads no clock; it sends at most one query (no
    retry, so nothing is slept for the store), makes at most three endpoint
    calls, and sleeps at most 3 time units, all of them between endpoint
    attempts. *)
Theorem search_handler_effects (E : env) (event : gmap string pyval) (st : state) :
  puts (snd (SearchHandler.lambda_handler E event st)) = puts st
  /\ s3_calls (snd (SearchHandler.lambda_handler E event st)) = s3_calls st
  /\ ids (snd (SearchHandler.lambda_handler E event st)) = ids st
  /\ ticks (snd (SearchHandler.lambda_handler E event st)) = ticks st
  /\ q_calls st <= q_calls (snd (SearchHandler.lambda_handler E event st)) <= q_calls st + 1
  /\ length (queries (snd (SearchHandler.lambda_handler E event st)))
     = length (queries st)
       + (q_calls (snd (SearchHandler.lambda_handler E event st)) - q_calls st)
  /\ sm_calls st <= sm_calls (snd (SearchHandler.lambda_handler E event st))
     <= sm_calls st + 3
  /\ exists k,
      k <= 2
      /\ slept (snd (SearchHandler.lambda_handler E event st)) = slept st ++ backoff 1 k
      /\ (0 <= total_sleep (backoff 1 k) <= 3)%Z.
Proof.
  destruct (search_final_state E event st)
    as [->|(k & Hk & [->|(emb & count & _ & ->)])].
  - repeat split; try lia. exists 0. rewrite app_nil_r. cbn. repeat split; lia.
  - cbn [after_embedding sm_calls s3_calls puts ids ticks q_calls queries slept].
    repeat split; try lia. exists k. split; [exact Hk|]. split; [reflexivity|].
    apply total_sleep_backoff_bound. exact Hk.
  - cbn [after_query after_embedding sm_calls s3_calls puts ids ticks q_calls queries
           slept].
    repeat split; try lia.
    + rewrite length_app. cbn. lia.
    + exists k. split; [exact Hk|]. split; [reflexivity|].
      apply total_sleep_backoff_bound. exact Hk.
Qed.

(** X10: the results of the search handler are the store's records, one for
    one and in the store's order: the i-th result carries the i-th record's
    key as [id], its metadata unchanged, its metadata's [text] (or the empty
    string) as [text], and the integer 0 as [score] when the record has no
    distance. *)
Theorem search_results_echo_store (vectors : list query_result) :
  length (SearchHandler.format_results vectors) = length vectors
  /\ forall i v,
      vectors !! i = Some v ->
      exists r,
        SearchHandler.format_results vectors !! i = Some r
        /\ r !! "id" = Some (PStr (q_key v))
        /\ r !! "metadata" = Some (PDict (default ∅ (q_metadata v)))
        /\ r !! "text" = Some (default (PStr "") (default ∅ (q_metadata v) !! "text"))
        /\ (q_distance v = None -> r !! "score" = Some (PInt 0)).
Proof.
  unfold SearchHandler.format_results. split; [apply length_map|].
  intros i v Hv. exists (SearchHandler.format_result v).
  split; [rewrite list_lookup_fmap, Hv; reflexivity|].
  unfold SearchHandler.format_result. split; [|split; [|split]].
  - apply lookup_insert_eq.
  - do 3 (rewrite lookup_insert_ne by discriminate). apply lookup_singleton_eq.
  - do 2 (rewrite lookup_insert_ne by discriminate). apply lookup_insert_eq.
  - intros Hd. rewrite Hd. rewrite lookup_insert_ne by discriminate.
    apply lookup_insert_eq.
Qed.

Lemma search_results_echo_store_witness :
  let v := {| q_key := "a"; q_distance := None;
              q_metadata := Some {[ "text" := PStr "Gru" ]} |} in
  exists r,
    SearchHandler.format_results [v] !! 0 = Some r
    /\ r !! "id" = Some (PStr "a")
    /\ r !! "metadata" = Some (PDict {[ "text" := PStr "Gru" ]})
    /\ r !! "text" = Some (PStr "Gru")
    /\ (q_distance v = None -> r !! "score" = Some (PInt 0)).
Proof.
  cbv zeta.
  exact (proj2 (search_results_echo_store
                  [{| q_key := "a"; q_distance := None;
                      q_metadata := Some {[ "text" := PStr "Gru" ]} |}])
           0 _ eq_refl).
Defined.

(** X11: when the endpoint's first answer is a non-empty flat list of
    scalars, both Lambda handlers answer 500 "Invalid embedding" after that
    single call: the ingest handler stores nothing and the search handler
    sends no query. *)
Theorem lambda_handlers_reject_flat_embedding (E : env) (st : state) (e : pyval)
    (es : list pyval) :
  invoke_endpoint E (sm_calls st) = Ok (PList (e :: es)) ->
  is_scalar e ->
  (forall event d text,
      decoded_body E event = Ok (PDict d) ->
      d !! "text" = Some text -> truthy text = true -> sliceable text = true ->
      IngestHandler.lambda_handler E event st
      = (Ok (error_response 500 "Invalid embedding returned from SageMaker"),
         after_embedding st 1 []))
  /\ (forall event d,
      decoded_body E event = Ok (PDict d) ->
      truthy (default PNone (d !! "query")) = true ->
      SearchHandler.lambda_handler E event st
      = (Ok (error_response 500 "Invalid embedding returned from SageMaker"),
         after_embedding st 1 [])).
Proof.
  intros Hcall He.
  assert (embedding_loop E normalize_lambda 3 (seq 0 3) 1 st
          = (Ok PNone, after_embedding st 1 [])) as Hemb.
  { pose proof (embedding_loop_recovers E normalize_lambda 3 (PList (e :: es)) 0 0 1%Z st
                  ltac:(lia) ltac:(intros i Hi; lia)) as H.
    rewrite Nat.add_0_r in H. specialize (H Hcall).
    rewrite (normalize_lambda_flat_is_none e es He) in H. exact H. }
  split.
  - intros event d text Hb Ht Htr Hs.
    exact (handler_embedding_invalid E event st _ d text PNone Hb Ht Htr Hs
             Hemb eq_refl).
  - intros event d Hb Hq.
    exact (search_embedding_invalid E event st _ d PNone Hb Hq Hemb eq_refl).
Qed.

Lemma lambda_handlers_reject_flat_embedding_witness :
  let W := Fixtures.world (fun _ => Ok Fixtures.vec) Fixtures.s3_ok Fixtures.q_none in
  IngestHandler.lambda_handler W (Fixtures.event_of {[ "text" := PStr "Gru" ]}) init_state
  = (Ok (error_response 500 "Invalid embedding returned from SageMaker"),
     after_embedding init_state 1 []).
Proof.
  cbv zeta.
  refine (proj1 (lambda_handlers_reject_flat_embedding _ init_state (PFloat 0.5)
                   [PFloat 0.25] _ _) _ {[ "text" := PStr "Gru" ]} (PStr "Gru") _ _ _ _);
    reflexivity.
Defined.

(** ** [put_vector] of the batch script *)

Lemma after_store_step_same_clock (st : state) (d : Z) (r : vector_record) (calls : nat)
    (ds : list Z) (rs : list vector_record) :
  after_store (after_store st 1 0 [d] [r]) calls 0 ds rs
  = after_store st (S calls) 0 (d :: ds) (r :: rs).
Proof.
  unfold after_store. cbn. f_equal; try lia; rewrite <- app_assoc; reflexivity.
Qed.

(** [n] retried answers followed by one that ends the loop. *)
Lemma put_vector_loop_decides (E : env) (vector_id : string) (embedding : pyval)
    (md : gmap string pyval) (attempts : nat) :
  forall (n a : nat) (delay : Z) (st : state),
    a + n < attempts ->
    store_retried E st n ->
    is_retried_by_put_vector (put_vectors E (s3_calls st + n)) = false ->
    IngestFromFile.put_vector_loop E vector_id embedding md attempts
      (seq a (attempts - a)) delay st
    = (put_vector_verdict E (put_vectors E (s3_calls st + n)),
       after_store st (n + 1) 0 (backoff delay n)
         (replicate (n + 1)
            {| rec_key := vector_id; rec_data := embedding; rec_metadata := md |})).
Proof.
  induction n as [|n IH]; intros a delay st Ha Hfail Hend.
  - rewrite seq_open by lia. cbn [IngestFromFile.put_vector_loop].
    rewrite Nat.add_0_r in *.
    unfold try_except, call_put_vectors.
    unfold after_store, backoff. cbn [seq map Nat.add replicate].
    destruct (put_vectors E (s3_calls st)) as [[]|e] eqn:Hcall.
    + cbn. rewrite app_nil_r. reflexivity.
    + destruct e as [code msg| | | |]; cbn [put_vector_verdict];
        try (unfold raise; cbn; rewrite app_nil_r; reflexivity).
      cbn in Hend. destruct (is_not_found code); [|discriminate Hend].
      unfold raise. cbn. rewrite app_nil_r. reflexivity.
  - rewrite seq_open by lia.
    pose proof (Hfail 0 ltac:(lia)) as H0. rewrite Nat.add_0_r in H0.
    destruct (put_vectors E (s3_calls st)) as [[]|[code msg| | | |]] eqn:Hcall;
      try discriminate.
    cbn in H0. apply negb_true_iff in H0.
    rewrite (put_vector_loop_retry E vector_id embedding md attempts a _ delay st code msg
               Hcall H0 ltac:(lia)).
    rewrite IH.
    + cbn [after_store s3_calls Nat.add]. rewrite <- Nat.add_succ_r.
      rewrite after_store_step_same_clock, <- backoff_cons.
      replace (S (n + 1)) with (S n + 1) by lia.
      cbn [Nat.add]. reflexivity.
    + lia.
    + intros i Hi. cbn [after_store s3_calls Nat.add].
      rewrite <- Nat.add_succ_r. apply Hfail. lia.
    + cbn [after_store s3_calls Nat.add].
      rewrite <- Nat.add_succ_r. exact Hend.
Qed.

(** Every attempt that is left gets a retried answer: the last is raised. *)
Lemma put_vector_loop_gives_up (E : env) (vector_id : string) (embedding : pyval)
    (md : gmap string pyval) (attempts : nat) :
  forall (n a : nat) (delay : Z) (st : state),
    a + S n = attempts ->
    store_retried E st (S n) ->
    exists code msg,
      put_vectors E (s3_calls st + n) = Raise (ClientError code msg)
      /\ IngestFromFile.put_vector_loop E vector_id embedding md attempts
           (seq a (attempts - a)) delay st
         = (Raise (ClientError code msg),
            after_store st (S n) 0 (backoff delay n)
              (replicate (S n)
                 {| rec_key := vector_id; rec_data := embedding; rec_metadata := md |})).
Proof.
  induction n as [|n IH]; intros a delay st Ha Hfail.
  - pose proof (Hfail 0 ltac:(lia)) as H0. rewrite Nat.add_0_r in *.
    destruct (put_vectors E (s3_calls st)) as [[]|[code msg| | | |]] eqn:Hcall;
      try discriminate.
    cbn in H0. apply negb_true_iff in H0.
    exists code, msg. split; [reflexivity|].
    replace (attempts - a) with 1 by lia. cbn [seq].
    rewrite (put_vector_loop_last E vector_id embedding md attempts a _ delay st code msg
               Hcall H0 ltac:(lia)).
    reflexivity.
  - pose proof (Hfail 0 ltac:(lia)) as H0. rewrite Nat.add_0_r in H0.
    destruct (put_vectors E (s3_calls st)) as [[]|[code0 msg0| | | |]] eqn:Hcall;
      try discriminate.
    cbn in H0. apply negb_true_iff in H0.
    set (r0 := {| rec_key := vector_id; rec_data := embedding; rec_metadata := md |}).
    destruct (IH (S a) (delay * 2)%Z (after_store st 1 0 [delay] [r0]))
      as (code & msg & Hlast & Hrun).
    + lia.
    + intros i Hi. cbn [after_store s3_calls Nat.add].
      rewrite <- Nat.add_succ_r. apply Hfail. lia.
    + exists code, msg. split.
      * cbn [after_store s3_calls Nat.add] in Hlast.
        rewrite Nat.add_succ_r. exact Hlast.
      * rewrite seq_open by lia.
        rewrite (put_vector_loop_retry E vector_id embedding md attempts a _ delay st
                   code0 msg0 Hcall H0 ltac:(lia)).
        fold r0. rewrite Hrun, after_store_step_same_clock, <- backoff_cons. reflexivity.
Qed.



Lemma store_retried_cases (E : env) (st : state) (k : nat) :
  store_retried E st k
  \/ exists n, n < k /\ store_retried E st n
               /\ is_retried_by_put_vector (put_vectors E (s3_calls st + n)) = false.
Proof.
  induction k as [|k [IH|(n & Hn & Hf & He)]].
  - left. intros i Hi. lia.
  - destruct (is_retried_by_put_vector (put_vectors E (s3_calls st + k))) eqn:Hk.
    + left. intros i Hi. destruct (decide (i = k)) as [->|]; [exact Hk|apply IH; lia].
    + right. exists k. auto.
  - right. exists n. split; [lia|auto].
Qed.

(** [put_vector] against any store: [k + 1 <= 3] calls with the same record,
    the first [k] backoff delays, and a normal return only if the last call
    succeeded. *)
Lemma put_vector_effects (E : env) (vector_id : string) (embedding : pyval)
    (md : gmap string pyval) (st : state) :
  exists k,
    k <= 2
    /\ snd (IngestFromFile.put_vector E vector_id embedding md st)
       = after_store st (k + 1) 0 (backoff 1 k)
           (replicate (k + 1)
              {| rec_key := vector_id; rec_data := embedding; rec_metadata := md |})
    /\ (forall u, fst (IngestFromFile.put_vector E vector_id embedding md st) = Ok u ->
                  put_vectors E (s3_calls st + k) = Ok tt).
Proof.
  unfold IngestFromFile.put_vector, IngestFromFile.put_vector_with.
  destruct (store_retried_cases E st 3) as [Hall|(n & Hn & Hf & He)].
  - destruct (put_vector_loop_gives_up E vector_id embedding md 3 2 0 1%Z st eq_refl Hall)
      as (code & msg & _ & Hrun).
    cbn [Nat.sub] in Hrun. exists 2. split; [lia|]. rewrite Hrun.
    split; [reflexivity|]. intros u Hu. discriminate Hu.
  - pose proof (put_vector_loop_decides E vector_id embedding md 3 n 0 1%Z st
                  ltac:(lia) Hf He) as Hrun.
    cbn [Nat.sub] in Hrun. exists n. split; [lia|]. rewrite Hrun.
    split; [reflexivity|]. cbn [fst]. intros u Hu.
    destruct (put_vectors E (s3_calls st + n)) as [[]|e]; [reflexivity|].
    destruct e as [code msg| | | |]; cbn in Hu; try discriminate Hu.
    destruct (is_not_found code); discriminate Hu.
Qed.

(** ** What batch ingestion sends to the store *)

(** One iteration's [try] with its [except], in full: the result line, the
    records sent, the calls made, the clock reading used. *)
Lemma ingest_item_effects (E : env) (text metadata : pyval) (s f : nat) (st : state) :
  exists c l new st',
    try_except (IngestFromFile.ingest_try E text metadata s f)
      (fun e => print (LFailed (str_exn e)) ;;; ret (s, f + 1)) st
    = (Ok c, st')
    /\ printed st' = printed st ++ [l]
    /\ puts st' = puts st ++ new
    /\ length new <= 3
    /\ s3_calls st' = s3_calls st + length new
    /\ sm_calls st <= sm_calls st' <= sm_calls st + 3
    /\ ticks st <= ticks st'
    /\ Forall (fun r => exists md,
                   metadata = PDict md
                   /\ ticks st < ticks st'
                   /\ rec_metadata r
                      = <["timestamp" := PStr (utcnow E (ticks st))]> md) new
    /\ (forall vector_id,
        l = LIngested vector_id ->
        new <> [] /\ Forall (fun r => rec_key r = vector_id) new
        /\ put_vectors E (s3_calls st' - 1) = Ok tt).
Proof.
  destruct (try_except (IngestFromFile.ingest_try E text metadata s f)
              (fun e => print (LFailed (str_exn e)) ;;; ret (s, f + 1)) st)
    as [out st'] eqn:Hrun.
  unfold try_except, IngestFromFile.ingest_try, bind, ret, raise, print, new_uuid,
    now_iso, unpack_mapping in Hrun.
  destruct (embedding_loop_effects E normalize_file 3 2 0 1%Z st eq_refl)
    as (k & Hk & Heff).
  change (embedding_loop E normalize_file 3 (seq 0 (3 - 0)) 1 st)
    with (IngestFromFile.get_embedding E text st) in Heff.
  destruct (IngestFromFile.get_embedding E text st) as [[emb|e] st1];
    cbn [snd] in Heff; subst st1.
  2: { injection Hrun as <- <-. eexists _, _, [], _. split; [reflexivity|].
       cbn. rewrite app_nil_r. repeat split; try lia; try constructor.
       all: intros; discriminate. }
  destruct (invalid_embedding emb).
  1: { injection Hrun as <- <-. eexists _, _, [], _. split; [reflexivity|].
       cbn. rewrite app_nil_r. repeat split; try lia; try constructor.
       all: intros; discriminate. }
  destruct metadata as [| | | | | |md];
    try (injection Hrun as <- <-; eexists _, _, [], _; split; [reflexivity|];
         cbn; rewrite app_nil_r; repeat split; try lia; try constructor;
         intros; discriminate).
  cbv beta iota zeta delta [ret] in Hrun.
  match type of Hrun with
  | context [IngestFromFile.put_vector ?a ?b ?c ?d ?s0] =>
      destruct (put_vector_effects a b c d s0) as (j & Hj & Hput & Hok);
      destruct (IngestFromFile.put_vector a b c d s0) as [[[]|e0] st2]
  end; cbn [snd fst] in Hput, Hok; subst st2.
  - injection Hrun as <- <-. eexists _, _, _, _. split; [reflexivity|].
    cbn [after_store after_embedding printed puts s3_calls sm_calls ticks ids Nat.add].
    split; [reflexivity|]. split; [reflexivity|].
    rewrite length_replicate.
    split; [lia|]. split; [lia|]. split; [lia|]. split; [lia|]. split.
    + apply Forall_replicate. eexists. split; [reflexivity|]. split; [lia|reflexivity].
    + intros vector_id Hid. injection Hid as <-. split; [|split].
      * replace (j + 1) with (S j) by lia. discriminate.
      * apply Forall_replicate. reflexivity.
      * specialize (Hok tt eq_refl). cbn [s3_calls] in Hok.
        replace (j + 1 + s3_calls st - 1) with (s3_calls st + j) by lia. exact Hok.
  - injection Hrun as <- <-. eexists _, _, _, _. split; [reflexivity|].
    cbn [after_store after_embedding printed puts s3_calls sm_calls ticks ids Nat.add].
    split; [reflexivity|]. split; [reflexivity|].
    rewrite length_replicate.
    split; [lia|]. split; [lia|]. split; [lia|]. split; [lia|]. split.
    + apply Forall_replicate. eexists. split; [reflexivity|]. split; [lia|reflexivity].
    + intros vector_id Hid. discriminate Hid.
Qed.

(** An entry outside the data model ends the loop before it does anything
    for that entry: [doc.get] raises on an entry that is not an object, [len]
    on a text that is a non-zero number or [True]. *)
Lemma ingest_loop_abort (E : env) (n i : nat) (doc : pyval) (rest : list pyval)
    (s f : nat) (st : state) :
  well_formed_doc doc = false ->
  exists e,
    IngestFromFile.ingest_loop E n i (doc :: rest) s f st = (Raise e, st)
    /\ exists msg, e = AttributeError msg \/ e = TypeError msg.
Proof.
  intros Hwf. cbn [IngestFromFile.ingest_loop].
  destruct doc as [| | | | | |d];
    try (eexists; split; [reflexivity|]; eexists; left; reflexivity).
  unfold well_formed_doc in Hwf. cbn [doc_text] in Hwf.
  unfold bind at 1. unfold py_get at 1. unfold ret at 1.
  unfold bind at 1. unfold py_get at 1. unfold ret at 1.
  unfold bind at 1.
  destruct (truthy (default PNone (d !! "text"))) eqn:Htr; [|discriminate Hwf].
  cbn [negb orb] in Hwf.
  destruct (default PNone (d !! "text")); try discriminate Hwf;
    (eexists; split; [reflexivity|]; eexists; right; reflexivity).
Qed.

(** What the loop over any list of entries has done when it ends, normally or
    not. *)
Lemma ingest_loop_invariant (E : env) (n : nat) :
  forall (docs : list pyval) (i s f : nat) (st : state),
    exists new lines,
      puts (snd (IngestFromFile.ingest_loop E n i docs s f st)) = puts st ++ new
      /\ printed (snd (IngestFromFile.ingest_loop E n i docs s f st)) = printed st ++ lines
      /\ s3_calls (snd (IngestFromFile.ingest_loop E n i docs s f st))
         = s3_calls st + length new
      /\ length new <= 3 * length docs
      /\ sm_calls st <= sm_calls (snd (IngestFromFile.ingest_loop E n i docs s f st))
         <= sm_calls st + 3 * length docs
      /\ ticks st <= ticks (snd (IngestFromFile.ingest_loop E n i docs s f st))
      /\ Forall (fun r => exists d md j,
                     PDict d ∈ docs
                     /\ default (PDict ∅) (d !! "metadata") = PDict md
                     /\ ticks st <= j
                        < ticks (snd (IngestFromFile.ingest_loop E n i docs s f st))
                     /\ rec_metadata r = <["timestamp" := PStr (utcnow E j)]> md) new
      /\ (forall vector_id,
          LIngested vector_id ∈ lines -> exists r, r ∈ new /\ rec_key r = vector_id)
      /\ Forall (fun l => forall a b, l <> LFinished a b) lines.
Proof.
  induction docs as [|doc rest IH]; intros i s f st.
  - exists [], []. cbn. rewrite !app_nil_r. repeat split; try lia; try constructor.
    intros vector_id Hin. inversion Hin.
  - destruct (well_formed_doc doc) eqn:Hwf.
    2: { destruct (ingest_loop_abort E n i doc rest s f st Hwf) as (e & He & _).
         rewrite He. exists [], []. cbn. rewrite !app_nil_r.
         repeat split; try lia; try constructor.
         intros vector_id Hin. inversion Hin. }
    destruct doc as [| | | | | |d]; try discriminate Hwf.
    rewrite (ingest_loop_step E n i d rest s f st Hwf).
    destruct (ingest_item_effects E (doc_text (PDict d))
                (default (PDict ∅) (d !! "metadata")) s f
                (after_print st (LGetting i n (doc_len (PDict d)))))
      as (c & l & new1 & st1 & Hrun & Hpr & Hpu & Hlen & Hs3 & Hsm & Htk & Hmeta & Hok).
    rewrite Hrun.
    destruct (IH (S i) (fst c) (snd c) st1)
      as (new2 & lines2 & Hpu2 & Hpr2 & Hs32 & Hlen2 & Hsm2 & Htk2 & Hmeta2 & Hok2 & Hfin2).
    cbn [after_print printed puts s3_calls sm_calls ticks] in Hpr, Hpu, Hs3, Hsm, Htk, Hmeta.
    exists (new1 ++ new2), (LGetting i n (doc_len (PDict d)) :: l :: lines2).
    split; [rewrite Hpu2, Hpu, app_assoc; reflexivity|].
    split; [rewrite Hpr2, Hpr, <- !app_assoc; reflexivity|].
    split; [rewrite Hs32, Hs3, length_app; lia|].
    split; [rewrite length_app; cbn [length]; lia|].
    split; [cbn [length]; lia|].
    split; [lia|].
    split; [|split].
    + apply Forall_app. split.
      * eapply Forall_impl; [exact Hmeta|]. intros r (md & Hmd & Hlt & Hr).
        exists d, md, (ticks st). split; [apply list_elem_of_here|].
        split; [exact Hmd|]. split; [lia|exact Hr].
      * eapply Forall_impl; [exact Hmeta2|]. intros r (d' & md & j & Hin & Hmd & Hj & Hr).
        exists d', md, j. split; [apply list_elem_of_further; exact Hin|].
        split; [exact Hmd|]. split; [lia|exact Hr].
    + intros vector_id Hin.
      apply elem_of_cons in Hin as [Hin|Hin]; [discriminate Hin|].
      apply elem_of_cons in Hin as [Hin|Hin].
      * destruct (Hok vector_id (eq_sym Hin)) as (Hne & Hkeys & _).
        destruct new1 as [|r new1]; [destruct (Hne eq_refl)|].
        exists r. split; [apply elem_of_app; left; apply list_elem_of_here|].
        apply Forall_cons in Hkeys as [Hkey _]. exact Hkey.
      * destruct (Hok2 vector_id Hin) as (r & Hr & Hkey).
        exists r. split; [apply elem_of_app; right; exact Hr|exact Hkey].
    + constructor; [intros a b; discriminate|].
      constructor; [|exact Hfin2].
      intros a b Heq. subst l.
      destruct (ingest_item_outcome E (doc_text (PDict d))
                  (default (PDict ∅) (d !! "metadata")) s f
                  (after_print st (LGetting i n (doc_len (PDict d)))))
        as (c' & st1' & l' & Hrun' & Hpr' & Hc').
      rewrite Hrun in Hrun'. injection Hrun' as <- <-.
      cbn [after_print printed] in Hpr'. rewrite Hpr in Hpr'.
      apply app_inv_head in Hpr'. injection Hpr' as <-.
      destruct Hc' as [(_ & Hx & _)|(_ & Hx & _)]; discriminate Hx.
Qed.

Lemma ingest_docs_unfold (E : env) (docs : list pyval) (st : state) :
  IngestFromFile.ingest_docs E docs st
  = match IngestFromFile.ingest_loop E (length docs) 1 docs 0 0
            (after_print st (LIngesting (length docs))) with
    | (Ok c, st1) => (Ok c, after_print st1 (LFinished (fst c) (snd c)))
    | (Raise e, st1) => (Raise e, st1)
    end.
Proof.
  unfold IngestFromFile.ingest_docs. unfold bind at 1. unfold print at 1.
  cbv zeta. unfold bind at 1.
  change {| sm_calls := sm_calls st; s3_calls := s3_calls st; q_calls := q_calls st;
            ids := ids st; ticks := ticks st; slept := slept st; puts := puts st;
            queries := queries st; printed := printed st ++ [LIngesting (length docs)] |}
    with (after_print st (LIngesting (length docs))).
  destruct (IngestFromFile.ingest_loop E (length docs) 1 docs 0 0
              (after_print st (LIngesting (length docs)))) as [[c|e] st1];
    reflexivity.
Qed.

(** X13: every record the batch script stores carries the metadata of one of
    the input documents with [timestamp] set to a reading of the clock taken
    during the run: a [timestamp] supplied by the caller is overwritten by
    it, every other key is the caller's, and the document's text is not
    added. *)
Theorem batch_records_carry_fresh_timestamp (E : env) (docs : list pyval) (st : state) :
  exists new,
    puts (snd (IngestFromFile.ingest_docs E docs st)) = puts st ++ new
    /\ Forall (fun r => exists d md j,
                   PDict d ∈ docs
                   /\ default (PDict ∅) (d !! "metadata") = PDict md
                   /\ ticks st <= j < ticks (snd (IngestFromFile.ingest_docs E docs st))
                   /\ rec_metadata r !! "timestamp" = Some (PStr (utcnow E j))
                   /\ (forall key, key <> "timestamp" ->
                                   rec_metadata r !! key = md !! key)) new.
Proof.
  destruct (ingest_loop_invariant E (length docs) docs 1 0 0
              (after_print st (LIngesting (length docs))))
    as (new & lines & Hpu & _ & _ & _ & _ & _ & Hmeta & _).
  rewrite ingest_docs_unfold.
  destruct (IngestFromFile.ingest_loop E (length docs) 1 docs 0 0
              (after_print st (LIngesting (length docs)))) as [[c|e] st1];
    cbn [snd after_print puts ticks] in Hpu, Hmeta |- *;
    (exists new; split; [exact Hpu|]);
    (eapply Forall_impl; [exact Hmeta|]);
    intros r (d & md & j & Hin & Hmd & Hj & ->);
    (exists d, md, j; split; [exact Hin|]; split; [exact Hmd|]; split; [exact Hj|]);
    (split; [apply lookup_insert_eq|]);
    intros key Hkey; apply lookup_insert_ne; congruence.
Qed.

(** X14: every success line the batch script prints names the key of a record
    it has sent to the store during the run. *)
Theorem batch_reported_successes_are_stored (E : env) (docs : list pyval) (st : state) :
  exists new lines,
    puts (snd (IngestFromFile.ingest_docs E docs st)) = puts st ++ new
    /\ printed (snd (IngestFromFile.ingest_docs E docs st)) = printed st ++ lines
    /\ forall vector_id,
        LIngested vector_id ∈ lines -> exists r, r ∈ new /\ rec_key r = vector_id.
Proof.
  destruct (ingest_loop_invariant E (length docs) docs 1 0 0
              (after_print st (LIngesting (length docs))))
    as (new & lines & Hpu & Hpr & _ & _ & _ & _ & _ & Hok & _).
  rewrite ingest_docs_unfold.
  destruct (IngestFromFile.ingest_loop E (length docs) 1 docs 0 0
              (after_print st (LIngesting (length docs)))) as [[c|e] st1];
    cbn [snd after_print puts printed] in Hpu, Hpr |- *.
  - exists new, (LIngesting (length docs) :: lines ++ [LFinished (fst c) (snd c)]).
    split; [exact Hpu|].
    split; [rewrite Hpr, <- !app_assoc; reflexivity|].
    intros vector_id Hin.
    apply elem_of_cons in Hin as [Hin|Hin]; [discriminate Hin|].
    apply elem_of_app in Hin as [Hin|Hin]; [exact (Hok _ Hin)|].
    apply list_elem_of_singleton in Hin. discriminate Hin.
  - exists new, (LIngesting (length docs) :: lines).
    split; [exact Hpu|].
    split; [rewrite Hpr, <- !app_assoc; reflexivity|].
    intros vector_id Hin.
    apply elem_of_cons in Hin as [Hin|Hin]; [discriminate Hin|]. exact (Hok _ Hin).
Qed.

(** X15: a batch of N entries costs at most 3N endpoint calls and 3N store
    calls, and each store call is logged as one record. *)
Theorem batch_call_budget (E : env) (docs : list pyval) (st : state) :
  sm_calls st <= sm_calls (snd (IngestFromFile.ingest_docs E docs st))
  <= sm_calls st + 3 * length docs
  /\ s3_calls st <= s3_calls (snd (IngestFromFile.ingest_docs E docs st))
     <= s3_calls st + 3 * length docs
  /\ length (puts (snd (IngestFromFile.ingest_docs E docs st)))
     = length (puts st)
       + (s3_calls (snd (IngestFromFile.ingest_docs E docs st)) - s3_calls st).
Proof.
  destruct (ingest_loop_invariant E (length docs) docs 1 0 0
              (after_print st (LIngesting (length docs))))
    as (new & lines & Hpu & _ & Hs3 & Hlen & Hsm & _).
  rewrite ingest_docs_unfold.
  destruct (IngestFromFile.ingest_loop E (length docs) 1 docs 0 0
              (after_print st (LIngesting (length docs)))) as [[c|e] st1];
    cbn [snd after_print sm_calls s3_calls puts] in *;
    rewrite Hpu, length_app; lia.
Qed.

(** X16: an entry that is not a JSON object, or whose [text] is a non-zero
    number or [True] (truthy, and without a length), stops the whole batch:
    [ingest_docs] raises an [AttributeError] or a [TypeError].  By then the
    entries before it have been handled as a batch of their own would be
    (same calls, same records, same result lines), only they have been
    announced; neither the entry nor any after it is announced or embedded,
    and no summary line is printed. *)
Theorem batch_stops_at_malformed_entry (E : env) (pre post : list pyval) (bad : pyval)
    (st : state) :
  forallb well_formed_doc pre = true ->
  well_formed_doc bad = false ->
  exists e lines st',
    IngestFromFile.ingest_docs E (pre ++ bad :: post) st = (Raise e, st')
    /\ (exists msg, e = AttributeError msg \/ e = TypeError msg)
    /\ printed st' = printed st ++ lines
    /\ announced lines
       = map (fun i => (i, length (pre ++ bad :: post))) (seq 1 (length pre))
    /\ reported lines = map is_stored (fst (batch_fates E pre st))
    /\ existsb is_summary_line lines = false
    /\ with_printed st' (printed st) = snd (batch_fates E pre st).
Proof.
  intros Hpre Hbad.
  pose proof (batch_fates_keep_printed E pre st) as Hkeep.
  destruct (ingest_loop_prefix E (length (pre ++ bad :: post)) (bad :: post) pre 1 0 0
              (after_print st (LIngesting (length (pre ++ bad :: post)))) Hpre)
    as (lines & Hloop & Hann & Hrep & Hsum).
  change (after_print st (LIngesting (length (pre ++ bad :: post))))
    with (with_printed st (printed st ++ [LIngesting (length (pre ++ bad :: post))]))
    in Hloop, Hrep.
  rewrite batch_fates_with_printed in Hloop, Hrep. cbn [fst snd] in Hloop, Hrep.
  match type of Hloop with
  | _ = IngestFromFile.ingest_loop _ ?n ?i _ ?s ?f ?s0 =>
      destruct (ingest_loop_abort E n i bad post s f s0 Hbad) as (e & Habort & Hkind);
      rewrite Habort in Hloop
  end.
  exists e, (LIngesting (length (pre ++ bad :: post)) :: lines). eexists.
  rewrite ingest_docs_unfold.
  change (after_print st (LIngesting (length (pre ++ bad :: post))))
    with (with_printed st (printed st ++ [LIngesting (length (pre ++ bad :: post))])).
  rewrite Hloop.
  split; [reflexivity|]. split; [exact Hkind|].
  cbn [with_printed printed].
  split; [rewrite <- !app_assoc; reflexivity|].
  split; [exact Hann|]. split; [exact Hrep|]. split; [exact Hsum|].
  etrans; [|exact Hkeep]. reflexivity.
Qed.

Lemma batch_stops_at_malformed_entry_witness :
  let W := Fixtures.world Fixtures.sm_nested Fixtures.s3_ok Fixtures.q_none in
  let pre := [PDict {[ "text" := PStr "Gru" ]}] in
  let bad := PDict {[ "text" := PInt 7 ]} in
  fst (IngestFromFile.ingest_docs W (pre ++ bad :: [PDict ∅]) init_state)
  = Raise (TypeError "object has no len()")
  /\ exists e lines st',
      IngestFromFile.ingest_docs W (pre ++ bad :: [PDict ∅]) init_state = (Raise e, st')
      /\ (exists msg, e = AttributeError msg \/ e = TypeError msg)
      /\ printed st' = printed init_state ++ lines
      /\ announced lines
         = map (fun i => (i, length (pre ++ bad :: [PDict ∅]))) (seq 1 (length pre))
      /\ reported lines = map is_stored (fst (batch_fates W pre init_state))
      /\ existsb is_summary_line lines = false
      /\ with_printed st' (printed init_state) = snd (batch_fates W pre init_state).
Proof.
  cbv zeta. split; [reflexivity|].
  refine (batch_stops_at_malformed_entry _ _ _ _ init_state _ _); reflexivity.
Defined.

(** ** Module load of the batch script and of the scripts *)

Lemma getenv_falsy_unset (v : option string) : getenv_falsy v = true <-> unset v.
Proof.
  unfold unset. destruct v as [s|]; cbn.
  - rewrite String.eqb_eq. split; [intros ->; auto|intros [H|H]; congruence].
  - split; auto.
Qed.

(** X17: the batch script leaves with exit code 1 exactly when, after the
    [.env] file has been laid over the process environment (its values win),
    the bucket name or the endpoint name is absent or empty; otherwise it
    loads with these two values, and with the index name of the environment,
    ['despme-index'] when absent; an index name set to the empty string is
    accepted as it is. *)
Theorem batch_module_init_contract (dotenv environ : gmap string string) :
  (forall key v, dotenv !! key = Some v ->
                 load_dotenv_override dotenv environ !! key = Some v)
  /\ (forall key, dotenv !! key = None ->
                  load_dotenv_override dotenv environ !! key = environ !! key)
  /\ (batch_module_init dotenv environ = SystemExit 1 <->
      unset (load_dotenv_override dotenv environ !! "VECTOR_BUCKET")
      \/ unset (load_dotenv_override dotenv environ !! "SAGEMAKER_ENDPOINT"))
  /\ (forall c,
      batch_module_init dotenv environ = Loaded c ->
      load_dotenv_override dotenv environ !! "VECTOR_BUCKET" = Some (cfg_vector_bucket c)
      /\ load_dotenv_override dotenv environ !! "SAGEMAKER_ENDPOINT"
         = Some (cfg_sagemaker_endpoint c)
      /\ cfg_vector_bucket c <> "" /\ cfg_sagemaker_endpoint c <> ""
      /\ cfg_index_name c
         = default "despme-index" (load_dotenv_override dotenv environ !! "INDEX_NAME")).
Proof.
  split; [intros key v H; unfold load_dotenv_override; apply lookup_union_Some_l; exact H|].
  split; [intros key H; unfold load_dotenv_override; apply lookup_union_r; exact H|].
  unfold batch_module_init. cbv zeta.
  set (env' := load_dotenv_override dotenv environ).
  rewrite <- !getenv_falsy_unset.
  destruct (getenv_falsy (env' !! "VECTOR_BUCKET")) eqn:Hvb;
    destruct (getenv_falsy (env' !! "SAGEMAKER_ENDPOINT")) eqn:Hep; cbn [orb];
    (split; [split; [intros H; try discriminate H; auto
                    |intros [H|H]; try discriminate H; reflexivity]|]);
    intros c Hc; try discriminate Hc.
  injection Hc as <-. cbn.
  destruct (env' !! "VECTOR_BUCKET") as [vb|]; [|discriminate Hvb].
  destruct (env' !! "SAGEMAKER_ENDPOINT") as [ep|]; [|discriminate Hep].
  cbn in *. apply String.eqb_neq in Hvb, Hep. auto.
Qed.

Lemma batch_module_init_contract_witness :
  let dotenv : gmap string string := {[ "VECTOR_BUCKET" := "bucket" ]} in
  let environ : gmap string string :=
    {[ "VECTOR_BUCKET" := "other"; "SAGEMAKER_ENDPOINT" := "ep"; "INDEX_NAME" := "" ]} in
  batch_module_init dotenv environ
  = Loaded {| cfg_vector_bucket := "bucket"; cfg_sagemaker_endpoint := "ep";
              cfg_index_name := "" |}
  /\ load_dotenv_override dotenv environ !! "VECTOR_BUCKET" = Some "bucket".
Proof.
  cbv zeta. split; [reflexivity|].
  refine (proj1 (batch_module_init_contract {[ "VECTOR_BUCKET" := "bucket" ]} _)
            "VECTOR_BUCKET" "bucket" _).
  reflexivity.
Defined.

(** X18: the search and ingestion test scripts leave with exit code 1 exactly
    when the bucket name is absent or empty once [.env] is laid over the
    environment; the endpoint name falls back to
    ['despme--embedding-endpoint'] and the index name to ['despme-index']
    when absent, so neither can stop the load. *)
Theorem script_module_init_contract (dotenv environ : gmap string string) :
  (script_module_init dotenv environ = SystemExit 1 <->
   unset (load_dotenv_override dotenv environ !! "VECTOR_BUCKET"))
  /\ (forall c,
      script_module_init dotenv environ = Loaded c ->
      load_dotenv_override dotenv environ !! "VECTOR_BUCKET" = Some (cfg_vector_bucket c)
      /\ cfg_vector_bucket c <> ""
      /\ cfg_sagemaker_endpoint c
         = default "despme--embedding-endpoint"
             (load_dotenv_override dotenv environ !! "SAGEMAKER_ENDPOINT")
      /\ cfg_index_name c
         = default "despme-index" (load_dotenv_override dotenv environ !! "INDEX_NAME")).
Proof.
  unfold script_module_init. cbv zeta.
  set (env' := load_dotenv_override dotenv environ).
  rewrite <- getenv_falsy_unset.
  destruct (getenv_falsy (env' !! "VECTOR_BUCKET")) eqn:Hvb.
  - split; [split; auto|]. intros c Hc. discriminate Hc.
  - split; [split; intros H; discriminate H|].
    intros c Hc. injection Hc as <-. cbn.
    destruct (env' !! "VECTOR_BUCKET") as [vb|]; [|discriminate Hvb].
    cbn in *. apply String.eqb_neq in Hvb. auto.
Qed.

Lemma script_module_init_contract_witness :
  script_module_init ∅ {[ "SAGEMAKER_ENDPOINT" := "ep" ]} = SystemExit 1.
Proof.
  refine (proj2 (proj1 (script_module_init_contract ∅ {[ "SAGEMAKER_ENDPOINT" := "ep" ]})) _).
  left. reflexivity.
Defined.

(** ** The model analysis utility *)

(** X19: the utility reads the dimension only off a response nested two
    levels deep, [[[e1, e2, ...]]], where it is the number of elements; for
    [[e1, e2, ...]] and for a flat [e1, e2, ...] of numbers it takes the first
    NUMBER as the embedding and [len] raises; an empty response or an empty
    first element raises on indexing.  (Unlike [get_embedding], no length is
    tested before indexing.) *)
Theorem dimension_extraction_shapes (e : pyval) (es : list pyval) :
  ModelDimensions.embedding_dimension (PList [PList [PList es]]) = Ok (length es)
  /\ (has_no_len e = true ->
      (exists msg, ModelDimensions.embedding_dimension (PList [PList (e :: es)])
                   = Raise (TypeError msg))
      /\ (exists msg, ModelDimensions.embedding_dimension (PList (e :: es))
                      = Raise (TypeError msg)))
  /\ (exists msg, ModelDimensions.embedding_dimension (PList []) = Raise (OtherException msg))
  /\ (exists msg, ModelDimensions.embedding_dimension (PList (PList [] :: es))
                  = Raise (OtherException msg)).
Proof.
  split; [reflexivity|]. split; [|split; eexists; reflexivity].
  intros He. destruct e; try discriminate He; split; eexists; reflexivity.
Qed.

Lemma dimension_extraction_shapes_witness :
  exists msg,
    ModelDimensions.embedding_dimension (PList [PFloat 0.5; PFloat 0.25])
    = Raise (TypeError msg).
Proof.
  exact (proj2 (proj1 (proj2 (dimension_extraction_shapes (PFloat 0.5) [PFloat 0.25]))
                  eq_refl)).
Defined.

Lemma recorded_dimensions_step (E : env) (c n : nat) :
  recorded_dimensions E c (S n)
  = match dimension_of_answer (invoke_endpoint E c) with
    | Some dim => dim :: recorded_dimensions E (S c) n
    | None => recorded_dimensions E (S c) n
    end.
Proof. reflexivity. Qed.

Lemma recorded_dimensions_length (E : env) :
  forall (n c : nat), length (recorded_dimensions E c n) <= n.
Proof.
  induction n as [|n IH]; intros c; [reflexivity|].
  rewrite recorded_dimensions_step. specialize (IH (S c)).
  destruct (dimension_of_answer (invoke_endpoint E c)); cbn [length]; lia.
Qed.

Lemma analyze_loop_run (E : env) :
  forall (test_cases : list string) (dimensions : list nat) (st : state),
    ModelDimensions.analyze_loop E test_cases dimensions st
    = (Ok (dimensions ++ recorded_dimensions E (sm_calls st) (length test_cases)),
       after_embedding st (length test_cases) []).
Proof.
  induction test_cases as [|text rest IH]; intros dimensions st.
  - cbn. rewrite app_nil_r. unfold after_embedding. cbn. rewrite app_nil_r.
    destruct st; reflexivity.
  - assert (forall dims,
               ModelDimensions.analyze_loop E rest dims
                 {| sm_calls := S (sm_calls st); s3_calls := s3_calls st;
                    q_calls := q_calls st; ids := ids st; ticks := ticks st;
                    slept := slept st; puts := puts st; queries := queries st;
                    printed := printed st |}
               = (Ok (dims ++ recorded_dimensions E (S (sm_calls st)) (length rest)),
                  after_embedding st (length (text :: rest)) [])) as Hrest.
    { intros dims. rewrite IH. f_equal.
      unfold after_embedding. cbn. f_equal. lia. }
    cbn [ModelDimensions.analyze_loop length].
    rewrite recorded_dimensions_step.
    unfold bind, try_except, call_invoke_endpoint, ret, dimension_of_answer.
    destruct (invoke_endpoint E (sm_calls st)) as [result|e].
    + destruct (ModelDimensions.embedding_dimension result) as [dim|e].
      * rewrite Hrest, <- app_assoc. reflexivity.
      * rewrite Hrest. reflexivity.
    + rewrite Hrest. reflexivity.
Qed.

(** X20: the analysis loop calls the endpoint exactly once per test text,
    never sleeps or retries, and never raises; the list of dimensions gains,
    in the order of the texts, the dimension read off the answer to each
    text's call; a text whose call raises, or whose answer gives no
    dimension, adds nothing, so that at most one entry per text is added. *)
Theorem analyze_loop_effects (E : env) (test_cases : list string)
    (dimensions : list nat) (st : state) :
  fst (ModelDimensions.analyze_loop E test_cases dimensions st)
  = Ok (dimensions ++ recorded_dimensions E (sm_calls st) (length test_cases))
  /\ length (recorded_dimensions E (sm_calls st) (length test_cases))
     <= length test_cases
  /\ snd (ModelDimensions.analyze_loop E test_cases dimensions st)
     = after_embedding st (length test_cases) [].
Proof.
  rewrite analyze_loop_run. split; [reflexivity|].
  split; [apply recorded_dimensions_length|reflexivity].
Qed.

(** X21: the summary reports consistent dimensions exactly when at least one
    text gave a dimension and all recorded dimensions are equal; texts that
    failed are not recorded, so they do not count against consistency, and a
    run in which every text failed is reported as not consistent. *)
Theorem consistent_iff_all_equal (dimensions : list nat) :
  ModelDimensions.consistent dimensions = true
  <-> exists d rest, dimensions = d :: rest /\ Forall (fun x => x = d) rest
                     /\ ModelDimensions.dimension_count dimensions = Some d.
Proof.
  unfold ModelDimensions.consistent, ModelDimensions.dimension_count.
  rewrite Nat.eqb_eq. split.
  - intros Hsize. apply size_1_elem_of in Hsize as [x Hx].
    apply leibniz_equiv in Hx.
    destruct dimensions as [|d rest].
    + exfalso. assert (x ∈ (list_to_set [] : gset nat)) as Hin
        by (rewrite Hx; apply elem_of_singleton; reflexivity).
      cbn in Hin. set_solver.
    + exists d, rest. split; [reflexivity|]. split; [|reflexivity].
      assert (forall y, y ∈ d :: rest -> y = x) as Hall.
      { intros y Hy. apply (elem_of_list_to_set (C := gset nat)) in Hy.
        rewrite Hx in Hy. apply elem_of_singleton in Hy. exact Hy. }
      assert (d = x) as -> by (apply Hall; apply list_elem_of_here).
      apply Forall_forall. intros y Hy. apply Hall. apply list_elem_of_further. exact Hy.
  - intros (d & rest & -> & Hall & _).
    assert ((list_to_set (d :: rest) : gset nat) = {[ d ]}) as ->.
    { apply set_eq. intros y. rewrite elem_of_list_to_set, elem_of_singleton, elem_of_cons.
      split; [|auto]. intros [Hy|Hy]; [exact Hy|].
      rewrite Forall_forall in Hall. apply Hall. exact Hy. }
    apply size_singleton.
Qed.

Lemma consistent_iff_all_equal_witness :
  ModelDimensions.consistent [384; 384; 384] = true
  /\ ModelDimensions.consistent [] = false.
Proof.
  split.
  - apply (proj2 (consistent_iff_all_equal [384; 384; 384])).
    exists 384, [384; 384]. split; [reflexivity|]. split; [|reflexivity].
    repeat constructor.
  - reflexivity.
Defined.

(** ** The search script *)

Lemma slice_to_sublist {A} (k : Z) (l : list A) : CharacterSearch.slice_to k l `sublist_of` l.
Proof. unfold CharacterSearch.slice_to. destruct (0 <=? k)%Z; apply sublist_take. Qed.

Lemma slice_to_length {A} (k : Z) (l : list A) :
  (0 <= k)%Z -> length (CharacterSearch.slice_to k l) <= Z.to_nat k.
Proof.
  intros Hk. unfold CharacterSearch.slice_to.
  destruct (Z.leb_spec 0 k) as [_|Hneg]; [|lia].
  rewrite length_take. lia.
Qed.

Lemma exact_matches_spec (lower : string -> string) (character_name : string) :
  forall vectors ms,
    CharacterSearch.exact_matches lower (lower character_name) vectors = Ok ms ->
    ms `sublist_of` vectors
    /\ Forall (names_character lower character_name true) ms
    /\ (ms = [] -> Forall (names_character lower character_name false) vectors).
Proof.
  induction vectors as [|v rest IH]; intros ms Hms.
  - cbn in Hms. injection Hms as <-. split; [constructor|]. split; constructor.
  - cbn [CharacterSearch.exact_matches] in Hms. unfold res_bind in Hms.
    destruct (CharacterSearch.character_lower lower v) as [c|e] eqn:Hc; [|discriminate Hms].
    destruct (CharacterSearch.exact_matches lower (lower character_name) rest)
      as [ms'|e] eqn:Hrest; [|discriminate Hms].
    destruct (IH ms' eq_refl) as (Hsub & Hall & Hnone).
    destruct (CharacterSearch.contains (lower character_name) c) eqn:Hin;
      injection Hms as <-.
    + split; [apply sublist_skip; exact Hsub|]. split.
      * constructor; [exists c; auto|exact Hall].
      * intros H; discriminate H.
    + split; [apply sublist_cons; exact Hsub|]. split; [exact Hall|].
      intros ->. constructor; [exists c; auto|apply Hnone; reflexivity].
Qed.

(** X22: the records the character search displays are taken in the store's
    order from its answer and number at most [k] (for [k >= 0]); when some
    record's character contains the lowered name only such records are
    displayed, and only when none does are the first [k] records of the
    answer displayed instead. *)
Theorem character_selection_contract (lower : string -> string) (character_name : string)
    (k : Z) (vectors : list query_result) (exact : bool) (chosen : list query_result)
    (Hsel : CharacterSearch.select lower character_name k vectors = Ok (exact, chosen)) :
  chosen `sublist_of` vectors
  /\ ((0 <= k)%Z -> length chosen <= Z.to_nat k)
  /\ (exact = true -> Forall (names_character lower character_name true) chosen)
  /\ (exact = false ->
      chosen = CharacterSearch.slice_to k vectors
      /\ Forall (names_character lower character_name false) vectors).
Proof.
  unfold CharacterSearch.select in Hsel. cbv zeta in Hsel. unfold res_bind in Hsel.
  destruct (CharacterSearch.exact_matches lower (lower character_name) vectors)
    as [ms|e] eqn:Hms; [|discriminate Hsel].
  destruct (exact_matches_spec lower character_name vectors ms Hms) as (Hsub & Hall & Hnone).
  destruct ms as [|m ms]; cbn in Hsel; injection Hsel as <- <-.
  - split; [apply slice_to_sublist|]. split; [apply slice_to_length|].
    split; [intros H; discriminate H|]. intros _. split; [reflexivity|auto].
  - split; [etrans; [apply slice_to_sublist|exact Hsub]|].
    split; [apply slice_to_length|].
    split; [|intros H; discriminate H]. intros _.
    unfold CharacterSearch.slice_to.
    destruct (0 <=? k)%Z; apply Forall_take; exact Hall.
Qed.

Lemma character_selection_contract_witness :
  let gru := {| q_key := "a"; q_distance := None;
                q_metadata := Some {[ "character" := PStr "gru" ]} |} in
  let dru := {| q_key := "b"; q_distance := None;
                q_metadata := Some {[ "character" := PStr "dru" ]} |} in
  CharacterSearch.select id "gru" 3 [dru; gru] = Ok (true, [gru])
  /\ Forall (names_character id "gru" true) [gru].
Proof.
  cbv zeta. split; [reflexivity|].
  refine (proj1 (proj2 (proj2
            (character_selection_contract id "gru" 3
               [ {| q_key := "b"; q_distance := None;
                    q_metadata := Some {[ "character" := PStr "dru" ]} |};
                 {| q_key := "a"; q_distance := None;
                    q_metadata := Some {[ "character" := PStr "gru" ]} |} ]
               true _ _))) eq_refl).
  reflexivity.
Defined.

(** X23: the two searches of the script call the endpoint exactly once, never
    sleep or retry, store nothing and never raise; when the endpoint answered
    they send one query, [search_vectors] with the [k] it was given, whatever
    its value, [search_by_character] always with [topK = 10]; when the
    endpoint raised no query is sent. *)
Theorem script_search_effects (lower : string -> string) (E : env)
    (query_text : pyval) (character_name : string) (k : Z) (st : state) :
  ((exists sims, fst (Scripts.search_vectors E query_text k st) = Ok sims)
   /\ queries (snd (Scripts.search_vectors E query_text k st))
      = queries st ++ script_query (invoke_endpoint E (sm_calls st)) k
   /\ sm_calls (snd (Scripts.search_vectors E query_text k st)) = S (sm_calls st)
   /\ slept (snd (Scripts.search_vectors E query_text k st)) = slept st
   /\ puts (snd (Scripts.search_vectors E query_text k st)) = puts st)
  /\ ((exists chosen,
          fst (CharacterSearch.search_by_character lower E character_name k st) = Ok chosen)
      /\ queries (snd (CharacterSearch.search_by_character lower E character_name k st))
         = queries st ++ script_query (invoke_endpoint E (sm_calls st)) 10
      /\ sm_calls (snd (CharacterSearch.search_by_character lower E character_name k st))
         = S (sm_calls st)
      /\ slept (snd (CharacterSearch.search_by_character lower E character_name k st))
         = slept st
      /\ puts (snd (CharacterSearch.search_by_character lower E character_name k st))
         = puts st).
Proof.
  split.
  - unfold Scripts.search_vectors, Scripts.get_embedding, try_except, bind,
      call_invoke_endpoint, call_query_vectors, ret, script_query.
    destruct (invoke_endpoint E (sm_calls st)) as [result|e]; cbn.
    + destruct (query_vectors E (q_calls st)) as [vectors|e]; cbn;
        (split; [eexists; reflexivity|auto]).
    + rewrite app_nil_r. split; [eexists; reflexivity|auto].
  - unfold CharacterSearch.search_by_character, Scripts.get_embedding, try_except, bind,
      call_invoke_endpoint, call_query_vectors, ret, script_query.
    destruct (invoke_endpoint E (sm_calls st)) as [result|e]; cbn.
    + destruct (query_vectors E (q_calls st)) as [vectors|e]; cbn.
      * destruct (CharacterSearch.select lower character_name k vectors); cbn;
          (split; [eexists; reflexivity|auto]).
      * split; [eexists; reflexivity|auto].
    + rewrite app_nil_r. split; [eexists; reflexivity|auto].
Qed.

(** ** Deployment packaging *)

(** X24: whatever the exclusion list, the packaging step copies only entries
    of site-packages, never a [.dist-info] directory or [__pycache__]; an
    excluded package is left out together with its [pkg-...] entries; by
    default the excluded packages are boto3, botocore and s3transfer; and an
    explicit list REPLACES that default, so an entry the list does not cover
    is copied even if it is one of the three. *)
Theorem package_exclusions (exclude_pkgs : option (list string)) (names : list string)
    (name : string) :
  (name ∈ Package.entries_to_copy exclude_pkgs names ->
   name ∈ names /\ Package.ends_with ".dist-info" name = false /\ name <> "__pycache__"
   /\ forall pkg, pkg ∈ Package.effective_exclusions exclude_pkgs ->
                  ~ is_package_entry pkg name)
  /\ (forall pkg, pkg ∈ ["boto3"; "botocore"; "s3transfer"] -> is_package_entry pkg name ->
                  name ∉ Package.entries_to_copy None names)
  /\ (forall l, exclude_pkgs = Some l ->
                name ∈ names ->
                Package.ends_with ".dist-info" name = false -> name <> "__pycache__" ->
                (forall pkg, pkg ∈ l -> ~ is_package_entry pkg name) ->
                name ∈ Package.entries_to_copy exclude_pkgs names).
Proof.
  assert (forall l,
             existsb (fun pkg => String.eqb name pkg || String.prefix (pkg +:+ "-") name) l
             = false
             <-> forall pkg, pkg ∈ l -> ~ is_package_entry pkg name) as Hex.
  { intros l. induction l as [|p l IH]; cbn [existsb].
    - split; [intros _ pkg Hin; inversion Hin|reflexivity].
    - rewrite orb_false_iff, IH, orb_false_iff, String.eqb_neq. split.
      + intros [[Hne Hpre] Hl] pkg Hin. apply elem_of_cons in Hin as [->|Hin].
        * intros [H|H]; [contradiction|congruence].
        * apply Hl. exact Hin.
      + intros Hall. split.
        * pose proof (Hall p (list_elem_of_here _ _)) as Hp. unfold is_package_entry in Hp.
          split; [intros H; apply Hp; left; exact H|].
          destruct (String.prefix (p +:+ "-") name); [exfalso; apply Hp; right; reflexivity
                                                     |reflexivity].
        * intros pkg Hin. apply Hall. apply list_elem_of_further. exact Hin. }
  assert (forall ex,
             name ∈ Package.entries_to_copy ex names
             <-> name ∈ names /\ Package.ends_with ".dist-info" name = false
                 /\ name <> "__pycache__"
                 /\ forall pkg, pkg ∈ Package.effective_exclusions ex ->
                                ~ is_package_entry pkg name) as Hiff.
  { intros ex. unfold Package.entries_to_copy.
    rewrite list_elem_of_In, filter_In, <- list_elem_of_In.
    unfold Package.skipped. rewrite <- Hex.
    destruct (Package.ends_with ".dist-info" name); cbn [orb negb].
    - split; [intros [_ H]; discriminate H|intros (_ & H & _); discriminate H].
    - destruct (String.eqb_spec name "__pycache__") as [->|Hne].
      + split; [intros [_ H]; discriminate H|intros (_ & _ & H & _); contradiction].
      + destruct (existsb _ (Package.effective_exclusions ex)); cbn [negb].
        * split; [intros [_ H]; discriminate H|intros (_ & _ & _ & H); discriminate H].
        * split; [intros [H _]; auto|intros (H & _); auto]. }
  split; [apply Hiff|]. split.
  - intros pkg Hpkg Hentry Hin. apply Hiff in Hin as (_ & _ & _ & Hall).
    exact (Hall pkg Hpkg Hentry).
  - intros l -> Hin Hdist Hcache Hall. apply Hiff. cbn. auto.
Qed.

Lemma package_exclusions_witness :
  "boto3" ∈ Package.entries_to_copy (Some ["numpy"]) ["numpy"; "boto3"; "boto3-1.34.0"]
  /\ "boto3-1.34.0" ∉ Package.entries_to_copy None ["numpy"; "boto3"; "boto3-1.34.0"].
Proof.
  split.
  - refine (proj2 (proj2 (package_exclusions (Some ["numpy"])
                            ["numpy"; "boto3"; "boto3-1.34.0"] "boto3"))
              ["numpy"] eq_refl _ eq_refl _ _).
    + apply list_elem_of_further, list_elem_of_here.
    + intros H; discriminate H.
    + intros pkg Hin [H|H]; apply list_elem_of_singleton in Hin; subst pkg;
        discriminate H.
  - refine (proj1 (proj2 (package_exclusions None
                            ["numpy"; "boto3"; "boto3-1.34.0"] "boto3-1.34.0"))
              "boto3" _ _).
    + apply list_elem_of_here.
    + right. reflexivity.
Defined.

(** ** The ingestion test script *)

(** X25: [ingest_document] of the test script, given a metadata object, calls
    the endpoint once and, when it answered, sends ONE record to the store
    without validating the embedding and without retry: the record carries a
    fresh identifier, the unwrapped answer and the metadata built as in the
    handler; the identifier is returned when the store accepts, and any fault
    of the endpoint or of the store is raised unchanged.  Called without
    metadata (the default [None]) it raises on its first line, before any
    call. *)
Theorem script_ingest_document_contract (E : env) (text metadata : pyval) (st : state) :
  ((forall md, metadata <> PDict md) ->
   exists msg, Scripts.ingest_document E text metadata st = (Raise (AttributeError msg), st))
  /\ (forall md, metadata = PDict md ->
      sm_calls (snd (Scripts.ingest_document E text metadata st)) = S (sm_calls st)
      /\ slept (snd (Scripts.ingest_document E text metadata st)) = slept st
      /\ match invoke_endpoint E (sm_calls st) with
         | Raise e =>
             fst (Scripts.ingest_document E text metadata st) = Raise e
             /\ puts (snd (Scripts.ingest_document E text metadata st)) = puts st
             /\ s3_calls (snd (Scripts.ingest_document E text metadata st)) = s3_calls st
         | Ok result =>
             puts (snd (Scripts.ingest_document E text metadata st))
             = puts st ++ [ {| rec_key := uuid4 E (ids st);
                               rec_data := normalize_file result;
                               rec_metadata :=
                                 IngestHandler.record_metadata text (utcnow E (ticks st)) md |} ]
             /\ s3_calls (snd (Scripts.ingest_document E text metadata st))
                = S (s3_calls st)
             /\ fst (Scripts.ingest_document E text metadata st)
                = match put_vectors E (s3_calls st) with
                  | Ok _ => Ok (uuid4 E (ids st))
                  | Raise e => Raise e
                  end
         end).
Proof.
  split.
  - intros Hmd. destruct metadata; try (eexists; reflexivity).
    exfalso. exact (Hmd _ eq_refl).
  - intros md ->.
    assert (exists md', unpack_mapping (if truthy (PDict md) then PDict md else PDict ∅)
                        = ret md'
                        /\ IngestHandler.record_metadata text (utcnow E (ticks st)) md'
                           = IngestHandler.record_metadata text (utcnow E (ticks st)) md)
      as (md' & Hunpack & Hsame).
    { cbn [truthy]. destruct (Nat.eqb_spec (size md) 0) as [Hsz|Hsz]; cbn [negb].
      - exists ∅. split; [reflexivity|]. apply map_size_empty_iff in Hsz. subst md.
        reflexivity.
      - exists md. split; reflexivity. }
    unfold Scripts.ingest_document, Scripts.get_embedding, bind, py_get, ret,
      call_invoke_endpoint, new_uuid, now_iso, call_put_vectors.
    rewrite Hunpack. unfold ret.
    destruct (invoke_endpoint E (sm_calls st)) as [result|e]; cbn.
    + rewrite Hsame.
      destruct (put_vectors E (s3_calls st)) as [[]|e]; cbn; auto.
    + auto.
Qed.

Lemma script_ingest_document_contract_witness :
  exists msg,
    Scripts.ingest_document (Fixtures.world Fixtures.sm_nested Fixtures.s3_ok Fixtures.q_none)
      (PStr "Gru") PNone init_state
    = (Raise (AttributeError msg), init_state).
Proof.
  refine (proj1 (script_ingest_document_contract
                   (Fixtures.world Fixtures.sm_nested Fixtures.s3_ok Fixtures.q_none)
                   (PStr "Gru") PNone init_state) _).
  intros md H. discriminate H.
Defined.
